(** * The comment service of the shop backend

    A shallow embedding of [src/modules/comment/comment.service.ts]
    (class [CommentService]) together with the Mongoose schema of
    [src/modules/comment/schema/comment.schema.ts], and the properties of
    the threaded-comment subsystem that hold, or fail, on that code.

    The collections are finite maps from document id to document, the
    service methods are computations in a state-and-exception monad over
    the collections, and the two notification collaborators are recorded
    as a log of the calls made to them. *)

From Stdlib Require Import ZArith NArith String Ascii List Bool Lia Sorted.
From stdpp Require Import base gmap strings list fin_maps.

Open Scope string_scope.
Open Scope Z_scope.

(** ** Object ids

    [Types.ObjectId] of the driver: twelve bytes, read here as a number.
    A string is accepted when it is 24 hexadecimal digits, in either case;
    [toString] prints 24 lower-case digits. [isValid] is, as in the
    driver, "the constructor does not throw". *)

Module ObjectId.

Definition t := N.

Definition hex_value (c : ascii) : option N :=
  let n := N_of_ascii c in
  if ((48 <=? n) && (n <=? 57))%N then Some (n - 48)%N
  else if ((97 <=? n) && (n <=? 102))%N then Some (n - 87)%N
  else if ((65 <=? n) && (n <=? 70))%N then Some (n - 55)%N
  else None.

Fixpoint parse_hex (acc : N) (s : string) : option N :=
  match s with
  | EmptyString => Some acc
  | String c s' =>
      match hex_value c with
      | Some d => parse_hex (acc * 16 + d)%N s'
      | None => None
      end
  end.

(** [new Types.ObjectId(s)]: [None] stands for the thrown [BSONError]. *)
Definition parse (s : string) : option t :=
  if (String.length s =? 24)%nat then parse_hex 0%N s else None.

Definition isValid (s : string) : bool :=
  match parse s with Some _ => true | None => false end.

Definition hex_digit (d : N) : ascii :=
  if (d <? 10)%N then ascii_of_N (48 + d) else ascii_of_N (87 + d).

Fixpoint to_hex (n : nat) (v : N) (acc : string) : string :=
  match n with
  | O => acc
  | S n' => to_hex n' (v / 16)%N (String (hex_digit (v mod 16)%N) acc)
  end.

Definition toString (o : t) : string := to_hex 24 o "".

End ObjectId.

Abbreviation ObjectId := ObjectId.t.
Arguments ObjectId.parse : simpl never.
Arguments ObjectId.isValid : simpl never.
Arguments ObjectId.toString : simpl never.

(** ** Documents *)

(** A document of the [comments] collection, without its [_id], which is
    the key under which the collection holds it. *)
Record Comment := {
  product_id : ObjectId;
  user_id : ObjectId;
  content : string;
  parent_id : option ObjectId;
  replies : list ObjectId;
  reply_count : Z;
  is_deleted : bool;
  created_at : Z;
  updated_at : Z
}.

#[global] Instance Comment_eq_dec : EqDecision Comment.
Proof. solve_decision. Defined.

(** The fields of a user and of a product that the service selects when
    it populates a reference. *)
Record User := {
  name : string;
  avatar : option string;
  email : string;
  role : string
}.

Record Product := {
  product_name : string;
  slug : string;
  image_primary : string
}.

(** A populated reference: the referenced document with its id. *)
Record Populated (A : Type) := { _id : ObjectId; doc : A }.
Arguments _id {A} _.
Arguments doc {A} _.

(** [populate('product_id', 'name slug')] leaves [image_primary] out,
    [populate('product_id', 'name slug image_primary')] keeps it. *)
Record ProductSummary := {
  summary_name : string;
  summary_slug : string;
  summary_image_primary : option string
}.

Inductive Ref (A : Type) :=
| Raw (id : ObjectId)
| Joined (target : option (Populated A)).
Arguments Raw {A} _.
Arguments Joined {A} _.

(** What [select('_id product_id user_id content parent_id reply_count
    created_at updated_at').lean()] returns. *)
Record CommentView := {
  view_id : ObjectId;
  view_product_id : Ref ProductSummary;
  view_user_id : Ref User;
  view_content : string;
  view_parent_id : option ObjectId;
  view_reply_count : Z;
  view_created_at : Z;
  view_updated_at : Z
}.

(** ** The collaborators' payloads *)

Record NotificationMetadata := {
  comment_content : string;
  metadata_product_id : ObjectId;
  metadata_product_name : string;
  parent_comment_id : string
}.

(** The argument of [notificationService.createNotification]. *)
Record CreateNotification := {
  target_user_id : ObjectId;
  actor_id : ObjectId;
  type : string;
  title : string;
  message : string;
  link : string;
  reference_id : string;
  reference_type : string;
  metadata : NotificationMetadata;
  is_notify : bool
}.

Record Actor := {
  id : ObjectId;
  actor_name : string;
  actor_avatar : option string
}.

(** The second argument of [notificationRealtimeService.notifyCommentReply]. *)
Record CommentReplyEvent := {
  notificationId : ObjectId;
  event_type : string;
  event_title : string;
  event_message : string;
  event_link : string;
  actor : Actor;
  timestamp : Z;
  event_product_name : string
}.

(** ** State, errors and the monad of the service *)

(** The three collections the service reads or writes, and the calls made
    so far to the two notification collaborators, oldest first. *)
Record World := {
  comments : gmap ObjectId Comment;
  users : gmap ObjectId User;
  products : gmap ObjectId Product;
  createNotification_calls : list CreateNotification;
  notifyCommentReply_calls : list (string * CommentReplyEvent)
}.

Inductive Error :=
| BadRequestException (msg : string)
| NotFoundException (msg : string)
| ForbiddenException (msg : string)
| ValidationError          (* Mongoose: a required path is empty on save *)
| DuplicateKeyError        (* the store: insert of an [_id] already present *)
| MongoServerError         (* the store: negative skip, ill-formed regex *)
| BSONError                (* [new Types.ObjectId] of an ill-formed string *)
| TypeError                (* a property read on [null] *)
| NotificationError.       (* [createNotification] rejected *)

Inductive Result (A : Type) :=
| Ok (a : A)
| Throw (e : Error).
Arguments Ok {A} _.
Arguments Throw {A} _.

(** A thrown exception keeps the writes made before it: nothing in the
    service runs in a transaction. *)
Definition M (A : Type) : Type := World -> Result A * World.

Definition ret {A} (a : A) : M A := fun w => (Ok a, w).
Definition throw {A} (e : Error) : M A := fun w => (Throw e, w).
Definition bind {A B} (m : M A) (k : A -> M B) : M B :=
  fun w => match m w with
           | (Ok a, w') => k a w'
           | (Throw e, w') => (Throw e, w')
           end.
Definition gets {A} (f : World -> A) : M A := fun w => (Ok (f w), w).
Definition modify (f : World -> World) : M unit := fun w => (Ok tt, f w).

Declare Scope service_scope.
Delimit Scope service_scope with service.
Notation "'let!' x ':=' m 'in' k" := (bind m (fun x => k))
  (at level 10, x name, m at level 100, k at level 200) : service_scope.
Notation "m ';;' k" := (bind m (fun _ => k))
  (at level 100, k at level 200, right associativity) : service_scope.
Open Scope service_scope.

(** The part of a call that the service does not decide: the id Mongoose
    draws for a new document, the clock (read once per call), and what
    the notification service answers ([None]: the call rejects; [Some i]:
    it persisted the notification under id [i]). *)
Record Env := {
  fresh_id : ObjectId;
  now : Z;
  createNotification : CreateNotification -> option ObjectId
}.

(** ** Strings as JavaScript has them

    A string is the sequence of its code units, one [ascii] each, so that
    [String.length] and [String.substring] are JavaScript's [length] and
    [substring]. The fixed texts of the notification are only
    concatenated. *)

Definition dquote : string := String "034"%char EmptyString.

(** What [String.prototype.trim] strips, which is what the schema's
    [trim: true] applies: the white space and the line terminators of
    ECMAScript. Among the code units below 256 these are the tab, the
    line feed, the vertical tab, the form feed and the carriage return
    (9 to 13), the space (32) and the no-break space (160). *)
Definition is_space (c : ascii) : bool :=
  let n := N_of_ascii c in
  ((9 <=? n) && (n <=? 13) || (n =? 32) || (n =? 160))%N.

Fixpoint trim_start (s : string) : string :=
  match s with
  | EmptyString => EmptyString
  | String c s' => if is_space c then trim_start s' else s
  end.

Definition trim (s : string) : string :=
  String.rev (trim_start (String.rev (trim_start s))).

Arguments trim : simpl never.

(** A string in a condition: the empty string is falsy. *)
Definition truthy (s : option string) : option string :=
  match s with
  | Some EmptyString => None
  | other => other
  end.

(** ** The store, as the service uses it *)

(** A write to the [comments] collection. *)
Definition set_comments (f : gmap ObjectId Comment -> gmap ObjectId Comment)
    (w : World) : World :=
  {| comments := f (comments w);
     users := users w;
     products := products w;
     createNotification_calls := createNotification_calls w;
     notifyCommentReply_calls := notifyCommentReply_calls w |}.

(** The schema's [timestamps] option, on a write. *)
Definition set_updated_at (t : Z) (c : Comment) : Comment :=
  {| product_id := product_id c; user_id := user_id c; content := content c;
     parent_id := parent_id c; replies := replies c;
     reply_count := reply_count c; is_deleted := is_deleted c;
     created_at := created_at c; updated_at := t |}.

(** [new Types.ObjectId(s)] *)
Definition new_ObjectId (s : string) : M ObjectId :=
  match ObjectId.parse s with
  | Some o => ret o
  | None => throw BSONError
  end.

(** [findOne({ _id: i, is_deleted: false })] *)
Definition findOne_active (i : ObjectId) : M (option Comment) :=
  gets (fun w => match comments w !! i with
                 | Some c => if is_deleted c then None else Some c
                 | None => None
                 end).

(** [findById(i)] *)
Definition findById (i : ObjectId) : M (option Comment) :=
  gets (fun w => comments w !! i).

(** The schema's validation on save: [content] is required, and Mongoose
    takes the empty string for a missing one. The two references are
    required too and are never null in a [Comment]. *)
Definition validate (c : Comment) : bool := negb (String.eqb (content c) "").

(** [save()] of a new document: validation, then an insert under the id
    drawn for it, with both timestamps set. *)
Definition insert (env : Env) (i : ObjectId) (c : Comment) : M unit :=
  if negb (validate c) then throw ValidationError else
  let! present := findById i in
  match present with
  | Some _ => throw DuplicateKeyError
  | None =>
      modify (set_comments
        <[ i := {| product_id := product_id c; user_id := user_id c;
                   content := content c; parent_id := parent_id c;
                   replies := replies c; reply_count := reply_count c;
                   is_deleted := is_deleted c;
                   created_at := now env; updated_at := now env |} ]>)
  end.

(** [save()] of a document [old] read from the store and changed to [c]:
    validation, then a write of the changed paths and of [updated_at] —
    or no write at all when nothing changed. *)
Definition save (env : Env) (i : ObjectId) (old c : Comment) : M unit :=
  if negb (validate c) then throw ValidationError else
  if decide (c = old) then ret tt
  else modify (set_comments <[ i := set_updated_at (now env) c ]>).

(** [findByIdAndUpdate(i, { $push: { replies: r }, $inc: { reply_count: 1 } })] *)
Definition push_reply (env : Env) (r : ObjectId) (c : Comment) : Comment :=
  {| product_id := product_id c; user_id := user_id c; content := content c;
     parent_id := parent_id c; replies := replies c ++ [r];
     reply_count := reply_count c + 1; is_deleted := is_deleted c;
     created_at := created_at c; updated_at := now env |}.

Definition findByIdAndUpdate_push_inc (env : Env) (i r : ObjectId) : M unit :=
  modify (set_comments (alter (push_reply env r) i)).

(** [populate('user_id', 'name avatar email role')] *)
Definition populate_user (u : ObjectId) (w : World) : option (Populated User) :=
  (fun d => {| _id := u; doc := d |}) <$> users w !! u.

(** [populate('product_id', 'name slug')], and with [image_primary] *)
Definition populate_product (with_image : bool) (p : ObjectId) (w : World)
    : option (Populated ProductSummary) :=
  (fun d => {| _id := p;
               doc := {| summary_name := product_name d;
                         summary_slug := slug d;
                         summary_image_primary :=
                           if with_image then Some (image_primary d) else None |} |})
  <$> products w !! p.

(** The selected fields of a document, with its two references as the
    query left them. *)
Definition select (i : ObjectId) (c : Comment)
    (product : Ref ProductSummary) (user : Ref User) : CommentView :=
  {| view_id := i; view_product_id := product; view_user_id := user;
     view_content := content c; view_parent_id := parent_id c;
     view_reply_count := reply_count c;
     view_created_at := created_at c; view_updated_at := updated_at c |}.

(** The two collaborators. A call is logged before it answers; the
    realtime push is not awaited and has no answer. *)
Definition log_notification (p : CreateNotification) (w : World) : World :=
  {| comments := comments w; users := users w; products := products w;
     createNotification_calls := createNotification_calls w ++ [p];
     notifyCommentReply_calls := notifyCommentReply_calls w |}.

Definition log_event (target : string) (e : CommentReplyEvent) (w : World) : World :=
  {| comments := comments w; users := users w; products := products w;
     createNotification_calls := createNotification_calls w;
     notifyCommentReply_calls := notifyCommentReply_calls w ++ [(target, e)] |}.

Definition call_createNotification (env : Env) (p : CreateNotification)
    : M ObjectId :=
  fun w =>
    match createNotification env p with
    | Some n => (Ok n, log_notification p w)
    | None => (Throw NotificationError, log_notification p w)
    end.

Definition notifyCommentReply (target : string) (e : CommentReplyEvent) : M unit :=
  modify (log_event target e).

(** ** The service *)

(** The bodies of the requests, [CreateCommentDto] and
    [UpdateCommentDto]. *)
Module CreateCommentDto.
Record t := {
  product_id : string;
  content : string;
  parent_id : option string
}.
End CreateCommentDto.

Module UpdateCommentDto.
Record t := { content : option string }.
End UpdateCommentDto.

(** The parent comment as [createComment] reads it: the document, with
    its [user_id] populated. *)
Definition ParentComment : Type := Comment * option (Populated User).

(** The texts of the notification. *)
Definition reply_title : string := "Có người trả lời bình luận của bạn".

Definition reply_link (product : ObjectId) (parent : string) : string :=
  "/products-detail/" +:+ ObjectId.toString product +:+ "?comment=" +:+ parent.

(** [content.substring(0, 50)], with an ellipsis after a longer content *)
Definition preview (content : string) : string :=
  String.substring 0 50 content
  +:+ (if (50 <? String.length content)%nat then "..." else "").

Arguments reply_link : simpl never.
Arguments preview : simpl never.

(** The notification and the event [createComment] sends for a reply,
    built from the populated author of the parent, the populated author
    and product of the new comment, and the answer of the notification
    service. *)
Definition reply_notification (userId : string) (dto : CreateCommentDto.t)
    (parent : string) (i : ObjectId)
    (parentUser actor : Populated User) (actor_oid : ObjectId)
    (product : Populated ProductSummary) : CreateNotification :=
  {| target_user_id := _id parentUser;
     actor_id := actor_oid;
     type := "comment_reply";
     title := reply_title;
     message :=
       name (doc actor) +:+ " đã trả lời bình luận của bạn về sản phẩm "
       +:+ dquote +:+ summary_name (doc product) +:+ dquote;
     link := reply_link (_id product) parent;
     reference_id := ObjectId.toString i;
     reference_type := "comment";
     metadata :=
       {| comment_content := CreateCommentDto.content dto;
          metadata_product_id := _id product;
          metadata_product_name := summary_name (doc product);
          parent_comment_id := parent |};
     is_notify := false |}.

Definition reply_event (env : Env) (dto : CreateCommentDto.t) (parent : string)
    (notification : ObjectId) (actor : Populated User)
    (product : Populated ProductSummary) : CommentReplyEvent :=
  {| notificationId := notification;
     event_type := "comment_reply";
     event_title := reply_title;
     event_message :=
       name (doc actor) +:+ " đã trả lời: "
       +:+ dquote +:+ preview (CreateCommentDto.content dto) +:+ dquote;
     event_link := reply_link (_id product) parent;
     actor := {| id := _id actor; actor_name := name (doc actor);
                 actor_avatar := avatar (doc actor) |};
     timestamp := now env;
     event_product_name := summary_name (doc product) |}.

(** The block of [createComment] that notifies the parent's author. *)
Definition notify_reply (env : Env) (userId : string)
    (dto : CreateCommentDto.t) (parent : string) (comment_id : ObjectId)
    (parentComment : ParentComment) (createdComment : CommentView) : M unit :=
  match snd parentComment with
  | None => throw TypeError
  | Some parentUser =>
      let parentCommentUserId := ObjectId.toString (_id parentUser) in
      if String.eqb parentCommentUserId userId then ret tt else
      let! actor_oid := new_ObjectId userId in
      match view_user_id createdComment, view_product_id createdComment with
      | Joined (Some actor), Joined (Some product) =>
          let! notification :=
            call_createNotification env
              (reply_notification userId dto parent comment_id
                 parentUser actor actor_oid product) in
          notifyCommentReply parentCommentUserId
            (reply_event env dto parent notification actor product)
      | _, _ => throw TypeError
      end
  end.

(** The document [createComment] inserts. *)
Definition new_comment (env : Env) (product user : ObjectId) (text : string)
    (parent : option ObjectId) : Comment :=
  {| product_id := product; user_id := user; content := trim text;
     parent_id := parent; replies := []; reply_count := 0;
     is_deleted := false; created_at := now env; updated_at := now env |}.

(** The view of it that [createComment] reads back and returns, in a
    world with the users and products of [w]. *)
Definition created_view (env : Env) (c : Comment) (w : World) : CommentView :=
  select (fresh_id env) c
    (Joined (populate_product false (product_id c) w))
    (Joined (populate_user (user_id c) w)).

(** [CommentService.createComment], lines 166-304 of the service: the
    checks, the insert, the update of the parent, the read-back of the
    new comment, and the notification of the parent's author. *)
Definition createComment (env : Env) (userId : string)
    (dto : CreateCommentDto.t) : M (option CommentView) :=
  if negb (ObjectId.isValid (CreateCommentDto.product_id dto))
  then throw (BadRequestException "product_id is invalid") else
  let! parentComment :=
    match truthy (CreateCommentDto.parent_id dto) with
    | Some parent =>
        if negb (ObjectId.isValid parent)
        then throw (BadRequestException "parent_id is invalid") else
        let! parent_oid := new_ObjectId parent in
        let! found := findOne_active parent_oid in
        match found with
        | None => throw (NotFoundException "Parent comment not found")
        | Some pc =>
            match parent_id pc with
            | Some _ =>
                throw (BadRequestException
                         "Cannot reply to a reply. Maximum 2 levels allowed")
            | None =>
                let! author := gets (populate_user (user_id pc)) in
                ret (Some (pc, author))
            end
        end
    | None => ret None
    end in
  let! product_oid := new_ObjectId (CreateCommentDto.product_id dto) in
  let! user_oid := new_ObjectId userId in
  let! parent_oid :=
    match truthy (CreateCommentDto.parent_id dto) with
    | Some parent => let! o := new_ObjectId parent in ret (Some o)
    | None => ret None
    end in
  let comment_id := fresh_id env in
  insert env comment_id
    (new_comment env product_oid user_oid (CreateCommentDto.content dto)
       parent_oid) ;;
  match parent_oid with
  | Some o => findByIdAndUpdate_push_inc env o comment_id
  | None => ret tt
  end ;;
  let! createdComment :=
    gets (fun w =>
      (fun c => select comment_id c
                  (Joined (populate_product false (product_id c) w))
                  (Joined (populate_user (user_id c) w)))
      <$> comments w !! comment_id) in
  match truthy (CreateCommentDto.parent_id dto), parentComment, createdComment with
  | Some parent, Some pc, Some created =>
      notify_reply env userId dto parent comment_id pc created
  | _, _, _ => ret tt
  end ;;
  ret createdComment.

(** [comment.content = dto.content], through the schema's [trim] *)
Definition set_content (s : string) (c : Comment) : Comment :=
  {| product_id := product_id c; user_id := user_id c; content := trim s;
     parent_id := parent_id c; replies := replies c;
     reply_count := reply_count c; is_deleted := is_deleted c;
     created_at := created_at c; updated_at := updated_at c |}.

(** [CommentService.updateComment], lines 310-354 *)
Definition updateComment (env : Env) (commentId userId : string)
    (dto : UpdateCommentDto.t) : M (option CommentView) :=
  if negb (ObjectId.isValid commentId)
  then throw (BadRequestException "commentId is invalid") else
  let! comment_id := new_ObjectId commentId in
  let! found := findOne_active comment_id in
  match found with
  | None => throw (NotFoundException "Comment not found")
  | Some comment =>
      if negb (String.eqb (ObjectId.toString (user_id comment)) userId)
      then throw (ForbiddenException "You are not allowed to update this comment")
      else
        save env comment_id comment
          match truthy (UpdateCommentDto.content dto) with
          | Some s => set_content s comment
          | None => comment
          end ;;
        gets (fun w =>
          (fun c => select comment_id c (Raw (product_id c))
                      (Joined (populate_user (user_id c) w)))
          <$> comments w !! comment_id)
  end.

(** [comment.is_deleted = true] *)
Definition set_is_deleted (c : Comment) : Comment :=
  {| product_id := product_id c; user_id := user_id c; content := content c;
     parent_id := parent_id c; replies := replies c;
     reply_count := reply_count c; is_deleted := true;
     created_at := created_at c; updated_at := updated_at c |}.

(** [replies = replies.filter(id => id.toString() !== commentId)] and
    [reply_count = replies.length] *)
Definition kept_replies (commentId : string) (l : list ObjectId) : list ObjectId :=
  List.filter (fun r => negb (String.eqb (ObjectId.toString r) commentId)) l.

Definition drop_reply (commentId : string) (c : Comment) : Comment :=
  let kept := kept_replies commentId (replies c) in
  {| product_id := product_id c; user_id := user_id c; content := content c;
     parent_id := parent_id c; replies := kept;
     reply_count := Z.of_nat (List.length kept); is_deleted := is_deleted c;
     created_at := created_at c; updated_at := updated_at c |}.

(** [CommentService.deleteComment], lines 362-407 *)
Definition deleteComment (env : Env) (commentId userId : string)
    (isAdmin : bool) : M string :=
  if negb (ObjectId.isValid commentId)
  then throw (BadRequestException "commentId is invalid") else
  let! comment_id := new_ObjectId commentId in
  let! found := findOne_active comment_id in
  match found with
  | None => throw (NotFoundException "Comment not found")
  | Some comment =>
      if negb isAdmin
         && negb (String.eqb (ObjectId.toString (user_id comment)) userId)
      then throw (ForbiddenException "You are not allowed to delete this comment")
      else
        save env comment_id comment (set_is_deleted comment) ;;
        match parent_id comment with
        | Some parent =>
            let! parentComment := findById parent in
            match parentComment with
            | Some pc => save env parent pc (drop_reply commentId pc)
            | None => ret tt
            end
        | None => ret tt
        end ;;
        ret "Comment deleted successfully"
  end.

(** [CommentService.adminReplyComment], lines 608-637. The product id of
    the reply is read off the populated product of the target,
    [(parentComment.product_id as any)._id.toString()], and a product
    that the catalog does not hold populates to [null]. *)
Definition adminReplyComment (env : Env) (commentId userId : string)
    (dto : CreateCommentDto.t) : M (option CommentView) :=
  if negb (ObjectId.isValid commentId)
  then throw (BadRequestException "commentId is invalid") else
  let! comment_id := new_ObjectId commentId in
  let! found := findOne_active comment_id in
  match found with
  | None => throw (NotFoundException "Comment not found")
  | Some parentComment =>
      let! product := gets (populate_product false (product_id parentComment)) in
      match product with
      | None => throw TypeError
      | Some p =>
          createComment env userId
            {| CreateCommentDto.product_id := ObjectId.toString (_id p);
               CreateCommentDto.content := CreateCommentDto.content dto;
               CreateCommentDto.parent_id := Some commentId |}
      end
  end.

(** *** Listings *)

(** What [Math.ceil(total / limit)] can be. *)
Inductive JsNumber :=
| Finite (z : Z)
| Infinity
| NaN.

(** [totalPages: Math.ceil(total / limit)] *)
Definition totalPages (total limit : Z) : JsNumber :=
  if limit =? 0 then (if total =? 0 then NaN else Infinity)
  else Finite (- ((- total) / limit)).

(** The answer of a listing. *)
Record Pagination := {
  total : Z;
  page : Z;
  limit : Z;
  pages : JsNumber
}.

Module Page.
Record t := {
  comments : list CommentView;
  pagination : Pagination
}.
End Page.

(** [sort({ created_at: 1 })] and [sort({ created_at: -1 })]. The store
    leaves the order of documents of one date open; here they come in
    the reverse of the order in which the collection yields them, and no
    statement depends on it. *)
Fixpoint place (descending : bool) (x : ObjectId * Comment)
    (l : list (ObjectId * Comment)) : list (ObjectId * Comment) :=
  match l with
  | [] => [x]
  | y :: l' =>
      if (if descending then created_at (snd y) <? created_at (snd x)
          else created_at (snd x) <? created_at (snd y))
      then x :: l
      else y :: place descending x l'
  end.

Definition sort_created_at (descending : bool)
    (l : list (ObjectId * Comment)) : list (ObjectId * Comment) :=
  foldr (place descending) [] l.

(** [skip(s).limit(n)]: the store refuses a negative skip; a limit of zero
    is no limit, and the driver sends a negative limit as its absolute
    value. *)
Definition skip_limit {A} (s n : Z) (l : list A) : M (list A) :=
  if s <? 0 then throw MongoServerError else
  let rest := drop (Z.to_nat s) l in
  ret (if n =? 0 then rest else take (Z.to_nat (Z.abs n)) rest).

(** [find(query)] and [countDocuments(query)] *)
Definition find (query : Comment -> bool) (w : World)
    : list (ObjectId * Comment) :=
  List.filter (fun d => query (snd d)) (map_to_list (comments w)).

Definition countDocuments (query : Comment -> bool) (w : World) : Z :=
  Z.of_nat (List.length (find query w)).

(** [{ parent_id: parent, is_deleted: false }] *)
Definition is_reply_of (parent : ObjectId) (c : Comment) : bool :=
  bool_decide (parent_id c = Some parent) && negb (is_deleted c).

(** [CommentService.getReplies], lines 451-489 *)
Definition getReplies (commentId : string) (page limit : Z) : M Page.t :=
  if negb (ObjectId.isValid commentId)
  then throw (BadRequestException "commentId is invalid") else
  let skip := (page - 1) * limit in
  let! parent := new_ObjectId commentId in
  let! found := gets (find (is_reply_of parent)) in
  let! paged := skip_limit skip limit (sort_created_at false found) in
  let! replies :=
    gets (fun w =>
      List.map (fun d => select (fst d) (snd d) (Raw (product_id (snd d)))
                           (Joined (populate_user (user_id (snd d)) w)))
               paged) in
  let! total := gets (countDocuments (is_reply_of parent)) in
  ret {| Page.comments := replies;
         Page.pagination :=
           {| total := total; page := page; limit := limit;
              pages := totalPages total limit |} |}.

Section Admin.

(** [{ $regex: pattern, $options: 'i' }], the store's matcher: [None] for
    a pattern the store refuses. *)
Variable regex_i : string -> option (string -> bool).

(** [{ is_deleted: false, parent_id: null }], with the product and the
    content when they are asked for *)
Definition admin_query (product : option ObjectId)
    (matches : option (string -> bool)) (c : Comment) : bool :=
  negb (is_deleted c)
  && bool_decide (parent_id c = None)
  && match product with
     | Some p => bool_decide (product_id c = p)
     | None => true
     end
  && match matches with
     | Some f => f (content c)
     | None => true
     end.

(** [CommentService.getAllCommentsAdmin], lines 495-540 *)
Definition getAllCommentsAdmin (page limit : Z)
    (productId search : option string) : M Page.t :=
  let skip := (page - 1) * limit in
  let product :=
    match truthy productId with
    | Some p => ObjectId.parse p
    | None => None
    end in
  let! matches :=
    match truthy search with
    | Some pattern =>
        match regex_i pattern with
        | Some f => ret (Some f)
        | None => throw MongoServerError
        end
    | None => ret None
    end in
  let! found := gets (find (admin_query product matches)) in
  let! paged := skip_limit skip limit (sort_created_at true found) in
  let! comments :=
    gets (fun w =>
      List.map (fun d => select (fst d) (snd d)
                           (Joined (populate_product true (product_id (snd d)) w))
                           (Joined (populate_user (user_id (snd d)) w)))
               paged) in
  let! total := gets (countDocuments (admin_query product matches)) in
  ret {| Page.comments := comments;
         Page.pagination :=
           {| total := total; page := page; limit := limit;
              pages := totalPages total limit |} |}.

End Admin.

(** *** The other listings *)

(** The query of [getCommentsByProduct]. The class [GetCommentsDto] is
    not among the sources; its fields are those the method reads, each
    of which a request may leave out. *)
Module GetCommentsDto.
Record t := {
  product_id : option string;
  parent_id : option string;
  page : option Z;
  limit : option Z
}.
End GetCommentsDto.

(** [{ product_id, is_deleted: false, parent_id }], where [parent_id] is
    [null] for the comments of the first level *)
Definition product_query (product : ObjectId) (parent : option ObjectId)
    (c : Comment) : bool :=
  bool_decide (product_id c = product)
  && negb (is_deleted c)
  && bool_decide (parent_id c = parent).

(** The [parent_id] of the query, lines 71-80: [null] when none is
    asked for, and else the id asked for, which has to be well formed. *)
Definition parent_filter (parent_id : option string) : M (option ObjectId) :=
  match truthy parent_id with
  | None => ret None
  | Some p =>
      if negb (ObjectId.isValid p)
      then throw (BadRequestException "parent_id is invalid") else
      let! o := new_ObjectId p in ret (Some o)
  end.

(** [CommentService.getCommentsByProduct], lines 49-107, with the
    defaults [page = 1] and [limit = 10] of its first line *)
Definition getCommentsByProduct (dto : GetCommentsDto.t) : M Page.t :=
  let page := default 1 (GetCommentsDto.page dto) in
  let limit := default 10 (GetCommentsDto.limit dto) in
  match truthy (GetCommentsDto.product_id dto) with
  | None => throw (BadRequestException "product_id is required")
  | Some product =>
      if negb (ObjectId.isValid product)
      then throw (BadRequestException "product_id is invalid") else
      let skip := (page - 1) * limit in
      let! product_oid := new_ObjectId product in
      let! parent := parent_filter (GetCommentsDto.parent_id dto) in
      let! found := gets (find (product_query product_oid parent)) in
      let! paged := skip_limit skip limit (sort_created_at true found) in
      let! comments :=
        gets (fun w =>
          List.map (fun d => select (fst d) (snd d) (Raw (product_id (snd d)))
                               (Joined (populate_user (user_id (snd d)) w)))
                   paged) in
      let! total := gets (countDocuments (product_query product_oid parent)) in
      ret {| Page.comments := comments;
             Page.pagination :=
               {| total := total; page := page; limit := limit;
                  pages := totalPages total limit |} |}
  end.

(** [populate({ path: 'parent_id', select: 'content user_id', populate:
    { path: 'user_id', select: 'name avatar' } })]: the parent of a
    comment with its author, whether the parent is deleted or not. *)
Record Author := {
  author_name : string;
  author_avatar : option string
}.

Record ParentSummary := {
  parent_content : string;
  parent_user_id : option (Populated Author)
}.

Definition populate_author (u : ObjectId) (w : World) : option (Populated Author) :=
  (fun d => {| _id := u;
               doc := {| author_name := name d; author_avatar := avatar d |} |})
  <$> users w !! u.

Definition populate_parent (p : option ObjectId) (w : World)
    : option (Populated ParentSummary) :=
  match p with
  | None => None
  | Some i =>
      (fun c => {| _id := i;
                   doc := {| parent_content := content c;
                             parent_user_id := populate_author (user_id c) w |} |})
      <$> comments w !! i
  end.

(** A comment with its product and its parent populated, as
    [getCommentsByUser] and [getCommentById] return it; the first selects
    no [updated_at]. *)
Record CommentDetail := {
  detail_id : ObjectId;
  detail_product_id : option (Populated ProductSummary);
  detail_user_id : Ref User;
  detail_content : string;
  detail_parent_id : option (Populated ParentSummary);
  detail_reply_count : Z;
  detail_created_at : Z;
  detail_updated_at : option Z
}.

Module Details.
Record t := {
  comments : list CommentDetail;
  pagination : Pagination
}.
End Details.

(** [{ user_id, is_deleted: false }] *)
Definition user_query (user : ObjectId) (c : Comment) : bool :=
  bool_decide (user_id c = user) && negb (is_deleted c).

(** [CommentService.getCommentsByUser], lines 113-159 *)
Definition getCommentsByUser (userId : string) (page limit : Z) : M Details.t :=
  if negb (ObjectId.isValid userId)
  then throw (BadRequestException "userId is invalid") else
  let skip := (page - 1) * limit in
  let! user := new_ObjectId userId in
  let! found := gets (find (user_query user)) in
  let! paged := skip_limit skip limit (sort_created_at true found) in
  let! comments :=
    gets (fun w =>
      List.map (fun d =>
        {| detail_id := fst d;
           detail_product_id := populate_product true (product_id (snd d)) w;
           detail_user_id := Raw (user_id (snd d));
           detail_content := content (snd d);
           detail_parent_id := populate_parent (parent_id (snd d)) w;
           detail_reply_count := reply_count (snd d);
           detail_created_at := created_at (snd d);
           detail_updated_at := None |})
        paged) in
  let! total := gets (countDocuments (user_query user)) in
  ret {| Details.comments := comments;
         Details.pagination :=
           {| total := total; page := page; limit := limit;
              pages := totalPages total limit |} |}.

(** [CommentService.getCommentById], lines 412-445 *)
Definition getCommentById (commentId : string) : M CommentDetail :=
  if negb (ObjectId.isValid commentId)
  then throw (BadRequestException "commentId is invalid") else
  let! comment_id := new_ObjectId commentId in
  let! found := findOne_active comment_id in
  match found with
  | None => throw (NotFoundException "Comment not found")
  | Some c =>
      gets (fun w =>
        {| detail_id := comment_id;
           detail_product_id := populate_product true (product_id c) w;
           detail_user_id := Joined (populate_user (user_id c) w);
           detail_content := content c;
           detail_parent_id := populate_parent (parent_id c) w;
           detail_reply_count := reply_count c;
           detail_created_at := created_at c;
           detail_updated_at := Some (updated_at c) |})
  end.

(** *** The admin's reports *)

(** A group of the [$group] stage: [{ $sum: 1 }] and
    [{ $max: '$created_at' }] over the comments of one product. *)
Record Group := {
  commentCount : Z;
  latestComment : Z
}.

Definition add_to_group (c : Comment) (g : option Group) : option Group :=
  Some match g with
       | None => {| commentCount := 1; latestComment := created_at c |}
       | Some g => {| commentCount := commentCount g + 1;
                      latestComment := Z.max (latestComment g) (created_at c) |}
       end.

Definition group_by_product (l : list (ObjectId * Comment))
    : gmap ObjectId Group :=
  foldr (fun d m => partial_alter (add_to_group (snd d)) (product_id (snd d)) m)
        ∅ l.

(** A row after [$lookup], [$unwind] and [$project]: the group, with the
    product it joins. *)
Record ProductRow := {
  row_id : ObjectId;
  row_group : Group;
  row_product : Populated ProductSummary
}.

(** [$lookup] in [products] and [$unwind]: a group whose product the
    catalog does not hold gives no row. *)
Definition join_product (w : World) (g : ObjectId * Group) : option ProductRow :=
  (fun p => {| row_id := fst g; row_group := snd g; row_product := p |})
  <$> populate_product true (fst g) w.

(** [{ $sort: { latestComment: -1 } }] *)
Fixpoint place_row (x : ProductRow) (l : list ProductRow) : list ProductRow :=
  match l with
  | [] => [x]
  | y :: l' =>
      if latestComment (row_group y) <? latestComment (row_group x)
      then x :: l
      else y :: place_row x l'
  end.

Definition sort_latest (l : list ProductRow) : list ProductRow :=
  foldr place_row [] l.

Module Report.
Record t := {
  products : list ProductRow;
  total : Z
}.
End Report.

(** [{ $match: { is_deleted: false, parent_id: null } }] *)
Definition is_live_top_level (c : Comment) : bool :=
  negb (is_deleted c) && bool_decide (parent_id c = None).

(** [CommentService.getCommentsByProductAdmin], lines 548-601 *)
Definition getCommentsByProductAdmin : M Report.t :=
  let! found := gets (find is_live_top_level) in
  let groups := map_to_list (group_by_product found) in
  let! rows := gets (fun w => omap (join_product w) groups) in
  let productsWithComments := sort_latest rows in
  ret {| Report.products := productsWithComments;
         Report.total := Z.of_nat (List.length productsWithComments) |}.

Section Catalog.

(** The [category_id] of a product and the [slug] of a category, which
    the second report reads through [$lookup]; neither schema is among
    the sources. *)
Variable category_id : ObjectId -> option ObjectId.
Variable category_slug : ObjectId -> option string.

(** [$lookup] in [categories], [$unwind], and
    [{ $match: { 'category.slug': categorySlug } }] *)
Definition in_category (categorySlug : string) (r : ProductRow) : bool :=
  match category_id (row_id r) with
  | Some c =>
      match category_slug c with
      | Some s => String.eqb s categorySlug
      | None => false
      end
  | None => false
  end.

(** [CommentService.getProductsWithCommentsByCategory], lines 644-714 *)
Definition getProductsWithCommentsByCategory (categorySlug : string)
    : M Report.t :=
  let! found := gets (find is_live_top_level) in
  let groups := map_to_list (group_by_product found) in
  let! rows := gets (fun w => omap (join_product w) groups) in
  let productsWithComments :=
    sort_latest (List.filter (in_category categorySlug) rows) in
  ret {| Report.products := productsWithComments;
         Report.total := Z.of_nat (List.length productsWithComments) |}.

End Catalog.

(** ** The controller

    [CommentController] of [comment.controller.ts]. A handler reads the
    caller's id off the request, [req.user?.id], refuses a request without
    one, and hands over to the service. Five routes are declared under
    [@UseGuards(AdminGuard)]: Nest asks the guard before it runs their
    handler. The authentication in front of every route that is not
    [@Public()] and the validation pipe are not part of the file. *)

Inductive HttpError :=
| UnauthorizedException (msg : string)
| Raised (e : Error).

Inductive Response (A : Type) :=
| Sent (a : A)
| Failed (e : HttpError).
Arguments Sent {A} _.
Arguments Failed {A} _.

Definition Handler (A : Type) : Type := World -> Response A * World.

Module CommentController.

(** [req.user]: the [id] the handlers read, and the [role] that the
    identity provider yields with it, which is what a guard decides on. *)
Record Request := { user : option string; role : option string }.

(** The service's answer, as the handler's. *)
Definition respond {A} (m : M A) : Handler A :=
  fun w => match m w with
           | (Ok a, w') => (Sent a, w')
           | (Throw e, w') => (Failed (Raised e), w')
           end.

(** [const userId = req.user?.id; if (!userId) throw new
    UnauthorizedException('User not found')] *)
Definition authenticated {A} (req : Request) (k : string -> M A) : Handler A :=
  match truthy (user req) with
  | None => fun w => (Failed (UnauthorizedException "User not found"), w)
  | Some userId => respond (k userId)
  end.

Definition getCommentsByProduct (dto : GetCommentsDto.t) : Handler Page.t :=
  respond (getCommentsByProduct dto).

Definition getMyComments (req : Request) (page limit : option Z)
    : Handler Details.t :=
  authenticated req (fun userId =>
    getCommentsByUser userId (default 1 page) (default 10 limit)).

Definition getCommentById (id : string) : Handler CommentDetail :=
  respond (getCommentById id).

Definition getReplies (id : string) (page limit : option Z) : Handler Page.t :=
  respond (getReplies id (default 1 page) (default 10 limit)).

Definition createComment (env : Env) (req : Request) (dto : CreateCommentDto.t)
    : Handler (option CommentView) :=
  authenticated req (fun userId => createComment env userId dto).

Definition updateComment (env : Env) (id : string) (req : Request)
    (dto : UpdateCommentDto.t) : Handler (option CommentView) :=
  authenticated req (fun userId => updateComment env id userId dto).

Section Guards.

(** [AdminGuard], of [common/guards/admin.guard.ts], is not among the
    sources: it is taken as what it answers to a request, [None] when it
    lets the request through and the exception it throws otherwise. *)
Variable AdminGuard : Request -> option HttpError.

(** [@UseGuards(AdminGuard)]: the handler runs only for a request that
    the guard lets through; a request it refuses is answered by the
    guard, and nothing of the handler has run. *)
Definition UseGuards {A} (req : Request) (h : Handler A) : Handler A :=
  match AdminGuard req with
  | Some e => fun w => (Failed e, w)
  | None => h
  end.

(** [DELETE /comments/admin/:id], under the guard, and
    [DELETE /comments/:id]: the same method of the service, as admin and
    not. *)
Definition adminDeleteComment (env : Env) (id : string) (req : Request)
    : Handler string :=
  UseGuards req
    (authenticated req (fun userId => deleteComment env id userId true)).

Definition deleteComment (env : Env) (id : string) (req : Request)
    : Handler string :=
  authenticated req (fun userId => deleteComment env id userId false).

(** The other four routes under the guard. The three that read take
    nothing off the request themselves. *)
Definition getAllCommentsAdmin (regex_i : string -> option (string -> bool))
    (req : Request) (page limit : option Z) (productId search : option string)
    : Handler Page.t :=
  UseGuards req
    (respond (getAllCommentsAdmin regex_i (default 1 page) (default 10 limit)
                productId search)).

Definition getCommentsByProductAdmin (req : Request) : Handler Report.t :=
  UseGuards req (respond getCommentsByProductAdmin).

Definition getProductsWithCommentsByCategory
    (category_id : ObjectId -> option ObjectId)
    (category_slug : ObjectId -> option string)
    (req : Request) (categorySlug : string) : Handler Report.t :=
  UseGuards req
    (respond (getProductsWithCommentsByCategory category_id category_slug
                categorySlug)).

Definition adminReplyComment (env : Env) (id : string) (req : Request)
    (dto : CreateCommentDto.t) : Handler (option CommentView) :=
  UseGuards req
    (authenticated req (fun userId => adminReplyComment env id userId dto)).

End Guards.

End CommentController.

(** ** The vocabulary of the statements *)

(** The checks [createComment] makes before it writes. *)
Definition parent_accepted (dto : CreateCommentDto.t) (w : World) : Prop :=
  truthy (CreateCommentDto.parent_id dto) = None
  \/ exists parent parent_oid pc,
       truthy (CreateCommentDto.parent_id dto) = Some parent
       /\ ObjectId.parse parent = Some parent_oid
       /\ comments w !! parent_oid = Some pc
       /\ is_deleted pc = false
       /\ parent_id pc = None.

Definition creation_accepted (env : Env) (userId : string)
    (dto : CreateCommentDto.t) (w : World) : Prop :=
  is_Some (ObjectId.parse (CreateCommentDto.product_id dto))
  /\ is_Some (ObjectId.parse userId)
  /\ trim (CreateCommentDto.content dto) <> ""
  /\ comments w !! fresh_id env = None
  /\ parent_accepted dto w.

(** Every stored reply has a stored parent, and that parent is a
    top-level comment. *)
Definition two_levels (w : World) : Prop :=
  forall i c p,
    comments w !! i = Some c -> parent_id c = Some p ->
    exists pc, comments w !! p = Some pc /\ parent_id pc = None.

(** Two stores in which every id has the same parent. *)
Definition same_parents (m m' : gmap ObjectId Comment) : Prop :=
  forall j, parent_id <$> m' !! j = parent_id <$> m !! j.

(** The calls that write, and the worlds they lead to from an empty
    collection of comments, whatever happens meanwhile to the users and to
    the catalog. *)
Inductive Call :=
| CreateComment (env : Env) (userId : string) (dto : CreateCommentDto.t)
| UpdateComment (env : Env) (commentId userId : string) (dto : UpdateCommentDto.t)
| DeleteComment (env : Env) (commentId userId : string) (isAdmin : bool)
| AdminReplyComment (env : Env) (commentId userId : string)
    (dto : CreateCommentDto.t).

Definition after (c : Call) (w : World) : World :=
  match c with
  | CreateComment env userId dto => snd (createComment env userId dto w)
  | UpdateComment env commentId userId dto =>
      snd (updateComment env commentId userId dto w)
  | DeleteComment env commentId userId isAdmin =>
      snd (deleteComment env commentId userId isAdmin w)
  | AdminReplyComment env commentId userId dto =>
      snd (adminReplyComment env commentId userId dto w)
  end.

Inductive reachable : World -> Prop :=
| reachable_empty us ps :
    reachable {| comments := ∅; users := us; products := ps;
                 createNotification_calls := [];
                 notifyCommentReply_calls := [] |}
| reachable_call c w : reachable w -> reachable (after c w)
| reachable_catalog us ps w :
    reachable w ->
    reachable {| comments := comments w; users := us; products := ps;
                 createNotification_calls := createNotification_calls w;
                 notifyCommentReply_calls := notifyCommentReply_calls w |}.

(** What a call may do to a stored comment: it keeps its product, its
    author, its parent and its date of creation, and once deleted the
    comment stays deleted, with the content it had. *)
Definition evolves (c c' : Comment) : Prop :=
  product_id c' = product_id c
  /\ user_id c' = user_id c
  /\ parent_id c' = parent_id c
  /\ created_at c' = created_at c
  /\ (is_deleted c = true -> is_deleted c' = true /\ content c' = content c).

(** A relation [P] between each stored comment and what a later store
    holds under the same id. *)
Definition kept (P : Comment -> Comment -> Prop)
    (m m' : gmap ObjectId Comment) : Prop :=
  forall i c, m !! i = Some c -> exists c', m' !! i = Some c' /\ P c c'.

Definition same_content (c c' : Comment) : Prop := content c' = content c.

(** The counter of a comment agrees with its list of replies. *)
Definition counted (c : Comment) : Prop :=
  reply_count c = Z.of_nat (List.length (replies c)).

Definition all_counted (m : gmap ObjectId Comment) : Prop :=
  forall i c, m !! i = Some c -> counted c.

Definition counters_kept (w : World) : Prop := all_counted (comments w).

(** The ids a comment lists as its replies are distinct, and each is the
    id of a stored comment that has it as parent. *)
Definition children_listed (m : gmap ObjectId Comment) : Prop :=
  forall p pc,
    m !! p = Some pc ->
    NoDup (replies pc)
    /\ forall r, In r (replies pc) ->
                 exists c, m !! r = Some c /\ parent_id c = Some p.

Definition replies_are_children (w : World) : Prop :=
  children_listed (comments w).

(** The order of a listing: newest first when [descending], oldest
    first otherwise. *)
Definition in_order (descending : bool) (a b : ObjectId * Comment) : Prop :=
  if descending then created_at (snd b) <= created_at (snd a)
  else created_at (snd a) <= created_at (snd b).

Definition views_in_order (descending : bool) (a b : CommentView) : Prop :=
  if descending then view_created_at b <= view_created_at a
  else view_created_at a <= view_created_at b.

(** A view shows a stored comment that the query [q] selects. *)
Definition shows (w : World) (q : Comment -> bool) (v : CommentView) : Prop :=
  exists c,
    comments w !! view_id v = Some c
    /\ q c = true
    /\ view_content v = content c
    /\ view_parent_id v = parent_id c
    /\ view_reply_count v = reply_count c
    /\ view_created_at v = created_at c.

(** The comments of an answer, none when the call threw. *)
Definition listed (r : Result Page.t) : list CommentView :=
  match r with
  | Ok pg => Page.comments pg
  | Throw _ => []
  end.

(** A computation that leaves the world as it finds it, whatever it
    answers. *)
Definition reads_only {A} (m : M A) : Prop := forall w, snd (m w) = w.

(** ** Tactics *)

(** One step of a computation in [M]: [run] also simplifies, [step]
    only unfolds the monad. *)
Ltac run := unfold bind, ret, throw, gets, modify; simpl.
Ltac step := cbv beta iota delta [bind ret throw gets modify fst snd].
Tactic Notation "step" "in" hyp(H) :=
  cbv beta iota delta [bind ret throw gets modify fst snd] in H.

(** The same, leaving the projections of pairs folded. *)
Ltac go := cbv beta iota delta [bind ret throw gets modify].

(** ** A small shop, for the examples

    Three users, two products, a comment of alice on the phone and a
    reply of bob to it. The reply also has a spelling of its id in upper
    case, which denotes the same twelve bytes. *)

Module Shop.

Definition oid (s : string) : ObjectId := default 0%N (ObjectId.parse s).

Definition alice : string := "0000000000000000000000a1".
Definition bob : string := "0000000000000000000000a2".
Definition carol : string := "0000000000000000000000a3".
Definition phone : string := "0000000000000000000000b1".
Definition laptop : string := "0000000000000000000000b2".
Definition opinion : string := "0000000000000000000000c1".
Definition answer : string := "0000000000000000000000c2".
Definition ANSWER : string := "0000000000000000000000C2".
Definition next : string := "0000000000000000000000c3".

Definition user (n : string) : User :=
  {| name := n; avatar := None; email := n +:+ "@shop.example"; role := "user" |}.

Definition the_opinion : Comment :=
  {| product_id := oid phone; user_id := oid alice; content := "Good product";
     parent_id := None; replies := [oid answer]; reply_count := 1;
     is_deleted := false; created_at := 1; updated_at := 2 |}.

Definition the_answer : Comment :=
  {| product_id := oid phone; user_id := oid bob; content := "I agree";
     parent_id := Some (oid opinion); replies := []; reply_count := 0;
     is_deleted := false; created_at := 2; updated_at := 2 |}.

Definition world : World :=
  {| comments := <[oid opinion := the_opinion]> {[ oid answer := the_answer ]};
     users := <[oid alice := user "alice"]>
                (<[oid bob := user "bob"]> {[ oid carol := user "carol" ]});
     products :=
       <[oid phone := {| product_name := "Phone"; slug := "phone";
                         image_primary := "phone.png" |}]>
         {[ oid laptop := {| product_name := "Laptop"; slug := "laptop";
                             image_primary := "laptop.png" |} ]};
     createNotification_calls := [];
     notifyCommentReply_calls := [] |}.

(** A call at time 3 that draws the id [next], with a notification
    service that works, and with one that is down. *)
Definition env : Env :=
  {| fresh_id := oid next; now := 3; createNotification := fun _ => Some 77%N |}.


Definition reply (product parent text : string) : CreateCommentDto.t :=
  {| CreateCommentDto.product_id := product;
     CreateCommentDto.content := text;
     CreateCommentDto.parent_id := Some parent |}.

(** The shop once dave, an admin, has commented on a product id under
    which the catalog holds nothing: [createComment] does not look the
    product up. *)
Definition dave : string := "0000000000000000000000a4".
Definition gadget : string := "0000000000000000000000b9".
Definition note : string := "0000000000000000000000c4".

Definition the_note : Comment :=
  {| product_id := oid gadget; user_id := oid dave;
     content := "Where can I buy it?";
     parent_id := None; replies := []; reply_count := 0;
     is_deleted := false; created_at := 2; updated_at := 2 |}.

Definition world_with_note : World :=
  {| comments := <[oid note := the_note]> (comments world);
     users := <[oid dave := {| name := "dave"; avatar := None;
                               email := "dave@shop.example";
                               role := "admin" |}]> (users world);
     products := products world;
     createNotification_calls := [];
     notifyCommentReply_calls := [] |}.

(** The first day of the shop, through the service: from an empty
    collection, alice posts her opinion on the phone at time 1 and bob
    answers it at time 2. *)
Definition env_at (i : string) (t : Z) : Env :=
  {| fresh_id := oid i; now := t; createNotification := fun _ => Some 77%N |}.

Definition post (product text : string) : CreateCommentDto.t :=
  {| CreateCommentDto.product_id := product;
     CreateCommentDto.content := text;
     CreateCommentDto.parent_id := None |}.

Definition opening : World :=
  {| comments := ∅; users := users world; products := products world;
     createNotification_calls := [];
     notifyCommentReply_calls := [] |}.

Definition first_post : Call :=
  CreateComment (env_at opinion 1) alice (post phone "Good product").

Definition first_reply : Call :=
  CreateComment (env_at answer 2) bob (reply phone opinion "I agree").

Definition first_day : World := after first_reply (after first_post opening).

(** The shop once bob has taken his answer back, at time 3. *)
Definition removal : Call := DeleteComment env answer bob false.

Definition removed_answer : Comment :=
  set_updated_at 3 (set_is_deleted the_answer).

Definition after_removal : World := after removal world.

(** Alice's second thoughts about the phone. *)
Definition second_thoughts : UpdateCommentDto.t :=
  {| UpdateCommentDto.content := Some "Great product" |}.

(** A content of a no-break space and a space, and one padded with a
    no-break space and a space. *)
Definition blank : string := String "160"%char " ".

Definition padded : string := String "160"%char "Me too ".

(** Requests of a customer, of an admin, and of nobody. *)
Definition request_of (u : string) : CommentController.Request :=
  {| CommentController.user := Some u; CommentController.role := Some "user" |}.

Definition request_of_admin (u : string) : CommentController.Request :=
  {| CommentController.user := Some u; CommentController.role := Some "admin" |}.

Definition anonymous : CommentController.Request :=
  {| CommentController.user := None; CommentController.role := None |}.

(** Modelled from the spec: the guard [AdminGuard] of
    [common/guards/admin.guard.ts], which is not among the sources. The
    spec has the routes under it require the admin role, and a violation
    of role answered as forbidden. *)
Definition admin_guard (req : CommentController.Request) : option HttpError :=
  if decide (CommentController.role req = Some "admin") then None
  else Some (Raised (ForbiddenException "Forbidden resource")).

End Shop.

(** ** Object ids: printing and reading *)

Example objectid_upper_lower :
  ObjectId.parse "65A1B2C3D4E5F6A7B8C9D0E1" = ObjectId.parse "65a1b2c3d4e5f6a7b8c9d0e1"
  /\ ObjectId.toString 1%N = "000000000000000000000001"
  /\ ObjectId.isValid "xyz" = false
  /\ trim "  a b  " = "a b".
Proof. vm_compute. auto. Qed.

Lemma isValid_parse s : ObjectId.isValid s = true <-> is_Some (ObjectId.parse s).
Proof.
  unfold ObjectId.isValid. destruct (ObjectId.parse s); split; intros H; eauto.
  - discriminate.
  - destruct H as [? H]. discriminate.
Qed.

Lemma parse_isValid s o : ObjectId.parse s = Some o -> ObjectId.isValid s = true.
Proof. intros H. apply isValid_parse. eauto. Qed.

(** A well-formed id is not the empty string. *)
Lemma truthy_parse s o : ObjectId.parse s = Some o -> truthy (Some s) = Some s.
Proof. destruct s; [discriminate | reflexivity]. Qed.

Lemma hex_value_digit (d : N) :
  (d < 16)%N -> ObjectId.hex_value (ObjectId.hex_digit d) = Some d.
Proof.
  intros Hd.
  assert (Hcases : (d = 0 \/ d = 1 \/ d = 2 \/ d = 3 \/ d = 4 \/ d = 5 \/ d = 6
                    \/ d = 7 \/ d = 8 \/ d = 9 \/ d = 10 \/ d = 11 \/ d = 12
                    \/ d = 13 \/ d = 14 \/ d = 15)%N) by lia.
  repeat (destruct Hcases as [-> | Hcases]; [reflexivity |]).
  subst d. reflexivity.
Qed.

Lemma to_hex_length (n : nat) (v : N) (acc : string) :
  String.length (ObjectId.to_hex n v acc) = (n + String.length acc)%nat.
Proof.
  revert v acc. induction n as [| n IH]; intros v acc; simpl; [reflexivity |].
  rewrite IH. simpl. lia.
Qed.

Lemma parse_hex_to_hex (n : nat) (v a : N) (acc : string) :
  ObjectId.parse_hex a (ObjectId.to_hex n v acc)
  = ObjectId.parse_hex (a * 16 ^ N.of_nat n + v mod 16 ^ N.of_nat n)%N acc.
Proof.
  revert v acc. induction n as [| n IH]; intros v acc.
  - cbn [ObjectId.to_hex]. change (16 ^ N.of_nat 0)%N with 1%N.
    rewrite N.mod_1_r. f_equal. lia.
  - cbn [ObjectId.to_hex]. rewrite IH. cbn [ObjectId.parse_hex].
    rewrite hex_value_digit by (apply N.mod_upper_bound; discriminate).
    f_equal. rewrite Nat2N.inj_succ, N.pow_succ_r'.
    rewrite (N.Div0.mod_mul_r v 16 (16 ^ N.of_nat n)). ring.
Qed.

Lemma parse_toString (o : ObjectId) :
  ObjectId.parse (ObjectId.toString o) = Some (o mod 2 ^ 96)%N.
Proof.
  unfold ObjectId.parse, ObjectId.toString.
  rewrite to_hex_length. cbn [String.length Nat.add Nat.eqb].
  rewrite parse_hex_to_hex. reflexivity.
Qed.

Lemma isValid_toString (o : ObjectId) :
  ObjectId.isValid (ObjectId.toString o) = true.
Proof. unfold ObjectId.isValid. rewrite parse_toString. reflexivity. Qed.

(** ** Populated references and previews *)

Lemma populate_user_Some u d w :
  users w !! u = Some d -> populate_user u w = Some {| _id := u; doc := d |}.
Proof. intros H. unfold populate_user. rewrite H. reflexivity. Qed.

Lemma populate_user_None u w : users w !! u = None -> populate_user u w = None.
Proof. intros H. unfold populate_user. rewrite H. reflexivity. Qed.

Lemma populate_product_None b p w :
  products w !! p = None -> populate_product b p w = None.
Proof. intros H. unfold populate_product. rewrite H. reflexivity. Qed.

Lemma populate_product_id b p w s : populate_product b p w = Some s -> _id s = p.
Proof.
  unfold populate_product. destruct (products w !! p); [| discriminate].
  intros [= <-]. reflexivity.
Qed.

Lemma substring_all (s : string) (n : nat) :
  (String.length s <= n)%nat -> String.substring 0 n s = s.
Proof.
  revert n. induction s as [| c s IH]; intros [| n] Hlen; simpl in *;
    try reflexivity; try lia.
  rewrite IH by lia. reflexivity.
Qed.

Lemma append_empty (s : string) : s +:+ "" = s.
Proof.
  induction s as [| c s IH]; [reflexivity |].
  change (String c s +:+ "") with (String c (s +:+ "")).
  rewrite IH. reflexivity.
Qed.

(** The preview is the content itself up to 50 characters, and its first
    50 characters followed by an ellipsis beyond. *)
Lemma preview_spec (s : string) :
  preview s
  = if (50 <? String.length s)%nat then String.substring 0 50 s +:+ "..." else s.
Proof.
  unfold preview. destruct (50 <? String.length s)%nat eqn:Hlen; [reflexivity |].
  apply Nat.ltb_ge in Hlen. rewrite substring_all by exact Hlen.
  apply append_empty.
Qed.

(** ** What a creation that passes the checks does *)

Section Creation.

Variables (env : Env) (userId : string) (dto : CreateCommentDto.t) (w : World).
Variables (product_oid user_oid : ObjectId).

Hypothesis product_ok :
  ObjectId.parse (CreateCommentDto.product_id dto) = Some product_oid.
Hypothesis user_ok : ObjectId.parse userId = Some user_oid.
Hypothesis content_ok : trim (CreateCommentDto.content dto) <> "".
Hypothesis id_fresh : comments w !! fresh_id env = None.

Lemma validate_new parent :
  validate (new_comment env product_oid user_oid
              (CreateCommentDto.content dto) parent) = true.
Proof.
  unfold validate. simpl. apply negb_true_iff, String.eqb_neq, content_ok.
Qed.

(** A comment without parent: one insert, no call to a collaborator. *)
Lemma createComment_top_level :
  truthy (CreateCommentDto.parent_id dto) = None ->
  let c := new_comment env product_oid user_oid
             (CreateCommentDto.content dto) None in
  createComment env userId dto w
  = (Ok (Some (created_view env c w)),
     set_comments <[fresh_id env := c]> w).
Proof.
  intros Habsent c. unfold createComment.
  rewrite (parse_isValid _ _ product_ok), Habsent. simpl.
  unfold new_ObjectId. rewrite product_ok, user_ok. run.
  unfold insert. rewrite validate_new. unfold findById. run. rewrite id_fresh. run.
  rewrite lookup_insert_eq. reflexivity.
Qed.

(** A reply to a stored top-level comment [pc]: the insert, the update of
    the parent, and then the notification block, whose exception, if any,
    is the call's. *)
Lemma createComment_reply (parent : string) (parent_oid : ObjectId) (pc : Comment) :
  truthy (CreateCommentDto.parent_id dto) = Some parent ->
  ObjectId.parse parent = Some parent_oid ->
  comments w !! parent_oid = Some pc ->
  is_deleted pc = false ->
  parent_id pc = None ->
  let c := new_comment env product_oid user_oid
             (CreateCommentDto.content dto) (Some parent_oid) in
  createComment env userId dto w
  = (notify_reply env userId dto parent (fresh_id env)
       (pc, populate_user (user_id pc) w) (created_view env c w) ;;
     ret (Some (created_view env c w)))
      (set_comments
         (fun m => alter (push_reply env (fresh_id env)) parent_oid
                     (<[fresh_id env := c]> m)) w).
Proof.
  intros Hgiven Hparse Hstored Hlive Htop c. unfold createComment.
  rewrite (parse_isValid _ _ product_ok), Hgiven, (parse_isValid _ _ Hparse).
  simpl. unfold new_ObjectId, findOne_active.
  rewrite Hparse, product_ok, user_ok. run.
  rewrite Hstored, Hlive, Htop. run.
  unfold insert. rewrite validate_new. unfold findById. run. rewrite id_fresh. run.
  assert (Hne : parent_oid <> fresh_id env) by congruence.
  rewrite lookup_alter_ne, lookup_insert_eq by exact Hne.
  reflexivity.
Qed.

End Creation.

(** Either a check fails, and the call throws without a write, or all of
    them pass. *)
Lemma createComment_cases env userId dto w :
  (exists e, createComment env userId dto w = (Throw e, w))
  \/ creation_accepted env userId dto w.
Proof.
  unfold creation_accepted, createComment, ObjectId.isValid.
  destruct (ObjectId.parse (CreateCommentDto.product_id dto))
    as [product_oid|] eqn:Hproduct; [| left; eexists; reflexivity].
  simpl.
  destruct (truthy (CreateCommentDto.parent_id dto)) as [parent|] eqn:Hgiven.
  - destruct (ObjectId.parse parent) as [parent_oid|] eqn:Hparse;
      [| left; eexists; reflexivity].
    simpl. unfold new_ObjectId, findOne_active. rewrite Hparse, Hproduct. run.
    destruct (comments w !! parent_oid) as [pc|] eqn:Hstored;
      [| left; eexists; reflexivity].
    destruct (is_deleted pc) eqn:Hlive; [left; eexists; reflexivity |].
    destruct (parent_id pc) eqn:Htop; [left; eexists; reflexivity |].
    run.
    destruct (ObjectId.parse userId) as [user_oid|] eqn:Huser;
      [| left; eexists; reflexivity].
    run. unfold insert, validate. simpl.
    destruct (String.eqb (trim (CreateCommentDto.content dto)) "") eqn:Hcontent;
      [left; eexists; reflexivity |].
    simpl. unfold findById. run.
    destruct (comments w !! fresh_id env) eqn:Hfresh;
      [left; eexists; reflexivity |].
    right. apply String.eqb_neq in Hcontent.
    repeat split; eauto. right. eauto 10.
  - unfold new_ObjectId. rewrite Hproduct. run.
    destruct (ObjectId.parse userId) as [user_oid|] eqn:Huser;
      [| left; eexists; reflexivity].
    run. unfold insert, validate. simpl.
    destruct (String.eqb (trim (CreateCommentDto.content dto)) "") eqn:Hcontent;
      [left; eexists; reflexivity |].
    simpl. unfold findById. run.
    destruct (comments w !! fresh_id env) eqn:Hfresh;
      [left; eexists; reflexivity |].
    right. apply String.eqb_neq in Hcontent.
    repeat split; eauto. left. exact Hgiven.
Qed.

(** The check on the parent's own parent comes after the check of the
    [product_id] and before any write. *)
Lemma createComment_reply_to_reply
    (env : Env) (userId : string) (dto : CreateCommentDto.t) (w : World)
    (parent : string) (parent_oid grandparent : ObjectId) (pc : Comment) :
  ObjectId.isValid (CreateCommentDto.product_id dto) = true ->
  truthy (CreateCommentDto.parent_id dto) = Some parent ->
  ObjectId.parse parent = Some parent_oid ->
  comments w !! parent_oid = Some pc ->
  is_deleted pc = false ->
  parent_id pc = Some grandparent ->
  createComment env userId dto w
  = (Throw (BadRequestException
              "Cannot reply to a reply. Maximum 2 levels allowed"), w).
Proof.
  intros Hproduct Hgiven Hparse Hstored Hlive Hreply. unfold createComment.
  rewrite Hproduct, Hgiven, (parse_isValid _ _ Hparse). cbn [negb].
  unfold new_ObjectId, findOne_active. rewrite Hparse. step.
  rewrite Hstored, Hlive, Hreply. reflexivity.
Qed.

(** ** The notification block *)

(** It writes to no collection. *)
Lemma notify_reply_collections env userId dto parent i pc created w r w' :
  notify_reply env userId dto parent i pc created w = (r, w') ->
  comments w' = comments w /\ users w' = users w /\ products w' = products w.
Proof.
  unfold notify_reply, new_ObjectId, call_createNotification, notifyCommentReply.
  destruct pc as [pc [parentUser|]]; cbn [snd];
    [| intros [= <- <-]; auto].
  destruct (String.eqb (ObjectId.toString (_id parentUser)) userId);
    [intros [= <- <-]; auto |].
  destruct (ObjectId.parse userId); cbn [bind ret throw];
    [| intros [= <- <-]; auto].
  destruct (view_user_id created) as [| [actor|]];
    [intros [= <- <-]; auto | | intros [= <- <-]; auto].
  destruct (view_product_id created) as [| [product|]];
    [intros [= <- <-]; auto | | intros [= <- <-]; auto].
  unfold modify.
  match goal with
  | |- context [createNotification env ?p] => destruct (createNotification env p)
  end; intros [= <- <-]; auto.
Qed.

(** A reply to one's own comment: no call. *)
Lemma notify_reply_self env userId dto parent i pc parentUser created w :
  ObjectId.toString (_id parentUser) = userId ->
  notify_reply env userId dto parent i (pc, Some parentUser) created w = (Ok tt, w).
Proof.
  intros Hself. unfold notify_reply. step.
  rewrite (proj2 (String.eqb_eq _ _) Hself). reflexivity.
Qed.

(** A reply to someone else's comment: one call to [createNotification];
    when it answers, one event to the parent's author, and when it
    rejects, its exception and no event. *)
Lemma notify_reply_other env userId dto parent i pc parentUser created w
    actor_oid actor product :
  ObjectId.toString (_id parentUser) <> userId ->
  ObjectId.parse userId = Some actor_oid ->
  view_user_id created = Joined (Some actor) ->
  view_product_id created = Joined (Some product) ->
  let p := reply_notification userId dto parent i parentUser actor actor_oid product in
  notify_reply env userId dto parent i (pc, Some parentUser) created w
  = match createNotification env p with
    | Some n =>
        (Ok tt,
         log_event (ObjectId.toString (_id parentUser))
           (reply_event env dto parent n actor product) (log_notification p w))
    | None => (Throw NotificationError, log_notification p w)
    end.
Proof.
  intros Hother Huser Hactor Hproduct p. unfold notify_reply. step.
  rewrite (proj2 (String.eqb_neq _ _) Hother).
  unfold new_ObjectId. rewrite Huser, Hactor, Hproduct. step.
  unfold call_createNotification. fold p.
  destruct (createNotification env p); reflexivity.
Qed.

(** When a user or the product is missing, the block throws before any
    call, unless the reply is to one's own comment. *)
Lemma notify_reply_missing env userId dto parent i pc parentUser created w r w' :
  notify_reply env userId dto parent i (pc, parentUser) created w = (r, w') ->
  parentUser = None
  \/ view_user_id created = Joined None
  \/ view_product_id created = Joined None ->
  (exists u, parentUser = Some u /\ ObjectId.toString (_id u) = userId)
  \/ (r = Throw TypeError \/ r = Throw BSONError) /\ w' = w.
Proof.
  unfold notify_reply, new_ObjectId. step. intros Hrun Hmissing.
  destruct parentUser as [u|].
  - destruct (String.eqb (ObjectId.toString (_id u)) userId) eqn:Hself.
    + left. exists u. split; [reflexivity | apply String.eqb_eq, Hself].
    + right. destruct (ObjectId.parse userId).
      * destruct Hmissing as [? | [Hm | Hm]]; [discriminate | |];
          rewrite Hm in Hrun.
        -- injection Hrun as <- <-. auto.
        -- destruct (view_user_id created) as [| [?|]];
             injection Hrun as <- <-; auto.
      * injection Hrun as <- <-. auto.
  - right. injection Hrun as <- <-. auto.
Qed.

(** ** Creation: the stored record and the parent's counters *)

(** C3. A successful [createComment] has inserted, under an id that was
    free, a record with [reply_count = 0], [replies = []] and
    [is_deleted = false], and returns its view. Without [parent_id] the
    record has no parent. With a [parent_id], that id names a stored
    top-level comment that was not deleted, the record has it as parent,
    and the parent's [reply_count] has grown by exactly one and its
    [replies] by exactly the new id, at the end. *)
Theorem createComment_record_and_counters
    (env : Env) (userId : string) (dto : CreateCommentDto.t)
    (w w' : World) (view : option CommentView) :
  createComment env userId dto w = (Ok view, w') ->
  comments w !! fresh_id env = None
  /\ exists c,
       comments w' !! fresh_id env = Some c
       /\ replies c = [] /\ reply_count c = 0 /\ is_deleted c = false
       /\ (exists v, view = Some v
             /\ view_id v = fresh_id env
             /\ view_parent_id v = parent_id c
             /\ view_reply_count v = 0)
       /\ match truthy (CreateCommentDto.parent_id dto) with
          | None => parent_id c = None
          | Some parent =>
              exists parent_oid pc pc',
                ObjectId.parse parent = Some parent_oid
                /\ parent_id c = Some parent_oid
                /\ comments w !! parent_oid = Some pc
                /\ is_deleted pc = false
                /\ parent_id pc = None
                /\ comments w' !! parent_oid = Some pc'
                /\ reply_count pc' = reply_count pc + 1
                /\ replies pc' = (replies pc ++ [fresh_id env])%list
          end.
Proof.
  intros Hrun.
  destruct (createComment_cases env userId dto w) as [[e He] | Hacc];
    [congruence |].
  destruct Hacc as ([product_oid Hproduct] & [user_oid Huser] & Hcontent
                    & Hfresh & Hparent).
  split; [exact Hfresh |].
  destruct Hparent as [Habsent | (parent & parent_oid & pc & Hgiven & Hparse
                                  & Hstored & Hlive & Htop)].
  - rewrite (createComment_top_level env userId dto w product_oid user_oid
               Hproduct Huser Hcontent Hfresh Habsent) in Hrun.
    injection Hrun as <- <-. rewrite Habsent.
    eexists. split; [apply lookup_insert_eq |].
    repeat split; try reflexivity. eexists. repeat split; reflexivity.
  - rewrite (createComment_reply env userId dto w product_oid user_oid
               Hproduct Huser Hcontent Hfresh parent parent_oid pc
               Hgiven Hparse Hstored Hlive Htop) in Hrun.
    unfold bind at 1 in Hrun.
    match type of Hrun with
    | context [notify_reply ?a ?b ?c ?d ?e ?f ?g ?h] =>
        destruct (notify_reply a b c d e f g h) as [r w2] eqn:Hnotify
    end.
    apply notify_reply_collections in Hnotify as (Hcomments & _ & _).
    destruct r as [[]|]; [| discriminate].
    injection Hrun as <- <-. rewrite Hgiven, Hcomments. simpl.
    assert (Hne : parent_oid <> fresh_id env) by congruence.
    eexists. split; [rewrite lookup_alter_ne by exact Hne; apply lookup_insert_eq |].
    repeat split; try reflexivity.
    + eexists. repeat split; reflexivity.
    + exists parent_oid, pc, (push_reply env (fresh_id env) pc).
      repeat split; try assumption; try reflexivity.
      rewrite lookup_alter_eq, lookup_insert_ne by congruence.
      rewrite Hstored. reflexivity.
Qed.

Lemma createComment_record_and_counters_witness :
  exists view w' pc',
    createComment Shop.env Shop.carol
      (Shop.reply Shop.phone Shop.opinion "Me too") Shop.world = (Ok view, w')
    /\ comments w' !! Shop.oid Shop.opinion = Some pc'
    /\ reply_count pc' = 2
    /\ replies pc' = [Shop.oid Shop.answer; Shop.oid Shop.next].
Proof.
  pose (run := createComment Shop.env Shop.carol
                 (Shop.reply Shop.phone Shop.opinion "Me too") Shop.world).
  assert (Hrun : run = (Ok (match fst run with Ok v => v | Throw _ => None end),
                        snd run)) by (vm_compute; reflexivity).
  destruct (createComment_record_and_counters _ _ _ _ _ _ Hrun)
    as (_ & c & _ & _ & _ & _ & _ & Hparent).
  change (truthy (CreateCommentDto.parent_id
                    (Shop.reply Shop.phone Shop.opinion "Me too")))
    with (Some Shop.opinion) in Hparent.
  destruct Hparent as (o & pc & pc' & Hparse & _ & Hstored & _ & _ & Hstored'
                       & Hcount & Hreplies).
  assert (Ho : Some o = Some (Shop.oid Shop.opinion))
    by (rewrite <- Hparse; vm_compute; reflexivity).
  injection Ho as ->.
  assert (Hpc : pc = Shop.the_opinion).
  { assert (H : comments Shop.world !! Shop.oid Shop.opinion
                = Some Shop.the_opinion) by (vm_compute; reflexivity).
    congruence. }
  subst pc.
  exists (match fst run with Ok v => v | Throw _ => None end), (snd run), pc'.
  split; [exact Hrun |]. split; [exact Hstored' |].
  split; [exact Hcount | exact Hreplies].
Defined.

(** ** Notifications on reply *)

(** C5. After a successful reply to a stored comment [pc]: when the
    author of [pc] is not the replying user, exactly one notification has
    been created, for the author of [pc] and with the replying user as
    actor, the notification service has persisted it, and exactly one
    realtime event has been pushed to that author, carrying the actor's
    id, name and avatar and the new content cut to its first 50
    characters, with an ellipsis when it is longer; when the author of
    [pc] is the replying user, no call has been made. *)
Theorem createComment_notifies_parent_author
    (env : Env) (userId : string) (dto : CreateCommentDto.t)
    (w w' : World) (view : option CommentView)
    (parent : string) (parent_oid : ObjectId) (pc : Comment) :
  createComment env userId dto w = (Ok view, w') ->
  truthy (CreateCommentDto.parent_id dto) = Some parent ->
  ObjectId.parse parent = Some parent_oid ->
  comments w !! parent_oid = Some pc ->
  (ObjectId.toString (user_id pc) <> userId ->
   exists (p : CreateNotification) (e : CommentReplyEvent) (replier : User),
     createNotification_calls w' = (createNotification_calls w ++ [p])%list
     /\ notifyCommentReply_calls w'
        = (notifyCommentReply_calls w
           ++ [(ObjectId.toString (user_id pc), e)])%list
     /\ createNotification env p = Some (notificationId e)
     /\ target_user_id p = user_id pc
     /\ ObjectId.parse userId = Some (actor_id p)
     /\ users w !! actor_id p = Some replier
     /\ actor e = {| id := actor_id p; actor_name := name replier;
                     actor_avatar := avatar replier |}
     /\ event_message e
        = name replier +:+ " đã trả lời: " +:+ dquote
          +:+ (if (50 <? String.length (CreateCommentDto.content dto))%nat
               then String.substring 0 50 (CreateCommentDto.content dto) +:+ "..."
               else CreateCommentDto.content dto)
          +:+ dquote)
  /\ (ObjectId.toString (user_id pc) = userId ->
      createNotification_calls w' = createNotification_calls w
      /\ notifyCommentReply_calls w' = notifyCommentReply_calls w).
Proof.
  intros Hrun Hgiven Hparse Hstored.
  destruct (createComment_cases env userId dto w) as [[e He] | Hacc];
    [congruence |].
  destruct Hacc as ([product_oid Hproduct] & [user_oid Huser] & Hcontent
                    & Hfresh & Hparent).
  destruct Hparent as [Habsent | (parent' & parent_oid' & pc' & Hgiven' & Hparse'
                                  & Hstored' & Hlive & Htop)]; [congruence |].
  assert (parent' = parent) by congruence. subst parent'.
  assert (parent_oid' = parent_oid) by congruence. subst parent_oid'.
  assert (pc' = pc) by congruence. subst pc'.
  rewrite (createComment_reply env userId dto w product_oid user_oid
             Hproduct Huser Hcontent Hfresh parent parent_oid pc
             Hgiven Hparse Hstored Hlive Htop) in Hrun.
  unfold bind at 1 in Hrun.
  set (c := new_comment env product_oid user_oid
              (CreateCommentDto.content dto) (Some parent_oid)) in Hrun.
  set (w1 := set_comments _ w) in Hrun.
  destruct (notify_reply env userId dto parent (fresh_id env)
              (pc, populate_user (user_id pc) w) (created_view env c w) w1)
    as [r w2] eqn:Hnotify.
  destruct r as [[]|]; [| discriminate]. injection Hrun as _ <-.
  destruct (users w !! user_id pc) as [author|] eqn:Hauthor.
  2: { rewrite (populate_user_None _ _ Hauthor) in Hnotify.
       apply notify_reply_missing in Hnotify; [| auto].
       destruct Hnotify as [(u & ? & _) | ([? | ?] & _)]; discriminate. }
  rewrite (populate_user_Some _ _ _ Hauthor) in Hnotify.
  split.
  - intros Hother.
    destruct (users w !! user_oid) as [replier|] eqn:Hreplier.
    2: { apply notify_reply_missing in Hnotify.
         - destruct Hnotify as [(u & [= <-] & Hself) | ([? | ?] & _)];
             [contradiction | discriminate | discriminate].
         - right. left. unfold created_view, select. simpl.
           rewrite (populate_user_None _ _ Hreplier). reflexivity. }
    destruct (populate_product false product_oid w) as [product|] eqn:Hp.
    2: { apply notify_reply_missing in Hnotify.
         - destruct Hnotify as [(u & [= <-] & Hself) | ([? | ?] & _)];
             [contradiction | discriminate | discriminate].
         - right. right. unfold created_view, select. simpl.
           rewrite Hp. reflexivity. }
    rewrite (notify_reply_other env userId dto parent (fresh_id env) pc
               {| _id := user_id pc; doc := author |} (created_view env c w) w1
               user_oid {| _id := user_oid; doc := replier |} product
               Hother Huser) in Hnotify.
    2: { unfold created_view, select. simpl.
         rewrite (populate_user_Some _ _ _ Hreplier). reflexivity. }
    2: { unfold created_view, select. simpl. rewrite Hp. reflexivity. }
    match type of Hnotify with
    | context [createNotification env ?p] =>
        destruct (createNotification env p) as [n|] eqn:Hanswer;
          [| discriminate];
        injection Hnotify as <-;
        exists p, (reply_event env dto parent n
                     {| _id := user_oid; doc := replier |} product), replier
    end.
    repeat split; try assumption; try reflexivity.
    cbn [reply_event event_message doc name]. rewrite preview_spec. reflexivity.
  - intros Hself.
    rewrite notify_reply_self in Hnotify by exact Hself.
    injection Hnotify as <-. split; reflexivity.
Qed.

Lemma createComment_notifies_parent_author_witness :
  exists view w' e,
    createComment Shop.env Shop.carol
      (Shop.reply Shop.phone Shop.opinion "Me too") Shop.world = (Ok view, w')
    /\ notifyCommentReply_calls w' = [(Shop.alice, e)]
    /\ event_message e = "carol đã trả lời: " +:+ dquote +:+ "Me too" +:+ dquote.
Proof.
  pose (run := createComment Shop.env Shop.carol
                 (Shop.reply Shop.phone Shop.opinion "Me too") Shop.world).
  assert (Hrun : run = (Ok (match fst run with Ok v => v | Throw _ => None end),
                        snd run)) by (vm_compute; reflexivity).
  assert (Hother : ObjectId.toString (user_id Shop.the_opinion) <> Shop.carol)
    by (vm_compute; discriminate).
  destruct (proj1 (createComment_notifies_parent_author
                     Shop.env Shop.carol
                     (Shop.reply Shop.phone Shop.opinion "Me too")
                     Shop.world (snd run) _
                     Shop.opinion (Shop.oid Shop.opinion) Shop.the_opinion
                     Hrun eq_refl eq_refl eq_refl) Hother)
    as (p & e & replier & _ & Hevents & _ & _ & Hactor & Hreplier & _ & Hmessage).
  assert (Hid : Some (actor_id p) = Some (Shop.oid Shop.carol))
    by (rewrite <- Hactor; vm_compute; reflexivity).
  injection Hid as Hid. rewrite Hid in Hreplier.
  assert (Hcarol : Some replier = Some (Shop.user "carol"))
    by (rewrite <- Hreplier; vm_compute; reflexivity).
  injection Hcarol as ->.
  exists (match fst run with Ok v => v | Throw _ => None end), (snd run), e.
  split; [exact Hrun |]. split; [exact Hevents | exact Hmessage].
Defined.

(** ** When the notification service fails *)




(** ** The product of a reply *)




(** ** Ownership *)

(** C6. On a stored comment that is not deleted, [updateComment] by
    anyone but its author, and [deleteComment] by anyone but its author
    when not called as admin, throw the forbidden exception and leave the
    world, and so the record, as it was. *)
Theorem update_delete_forbidden_for_others
    (env : Env) (commentId userId : string) (w : World)
    (comment_id : ObjectId) (c : Comment) :
  ObjectId.parse commentId = Some comment_id ->
  comments w !! comment_id = Some c ->
  is_deleted c = false ->
  ObjectId.toString (user_id c) <> userId ->
  (forall dto,
     updateComment env commentId userId dto w
     = (Throw (ForbiddenException "You are not allowed to update this comment"), w))
  /\ deleteComment env commentId userId false w
     = (Throw (ForbiddenException "You are not allowed to delete this comment"), w).
Proof.
  intros Hparse Hstored Hlive Hother.
  apply String.eqb_neq in Hother.
  split; [intros dto; unfold updateComment | unfold deleteComment];
    rewrite (parse_isValid _ _ Hparse); cbn [negb];
    unfold new_ObjectId, findOne_active; rewrite Hparse; step;
    rewrite Hstored, Hlive, Hother; reflexivity.
Qed.

Lemma update_delete_forbidden_for_others_witness :
  updateComment Shop.env Shop.opinion Shop.carol
    {| UpdateCommentDto.content := Some "Bad product" |} Shop.world
  = (Throw (ForbiddenException "You are not allowed to update this comment"),
     Shop.world)
  /\ deleteComment Shop.env Shop.opinion Shop.carol false Shop.world
     = (Throw (ForbiddenException "You are not allowed to delete this comment"),
        Shop.world).
Proof.
  destruct (update_delete_forbidden_for_others
              Shop.env Shop.opinion Shop.carol Shop.world
              (Shop.oid Shop.opinion) Shop.the_opinion) as [Hupdate Hdelete];
    try (vm_compute; reflexivity).
  - vm_compute. discriminate.
  - split; [apply Hupdate | exact Hdelete].
Defined.

(** ** Deleting twice *)

(** C7. [deleteComment] on the id of a record that is already deleted
    throws the not-found exception, for the author and for an admin alike,
    and leaves the world as it was: no second soft delete, no update of a
    parent. *)
Theorem deleteComment_of_deleted_not_found
    (env : Env) (commentId userId : string) (isAdmin : bool) (w : World)
    (comment_id : ObjectId) (c : Comment) :
  ObjectId.parse commentId = Some comment_id ->
  comments w !! comment_id = Some c ->
  is_deleted c = true ->
  deleteComment env commentId userId isAdmin w
  = (Throw (NotFoundException "Comment not found"), w).
Proof.
  intros Hparse Hstored Hdeleted. unfold deleteComment.
  rewrite (parse_isValid _ _ Hparse). cbn [negb].
  unfold new_ObjectId, findOne_active. rewrite Hparse. step.
  rewrite Hstored, Hdeleted. reflexivity.
Qed.

Lemma deleteComment_of_deleted_not_found_witness :
  let deleted := snd (deleteComment Shop.env Shop.answer Shop.bob false Shop.world) in
  fst (deleteComment Shop.env Shop.answer Shop.bob false Shop.world)
  = Ok "Comment deleted successfully"
  /\ deleteComment Shop.env Shop.answer Shop.bob false deleted
     = (Throw (NotFoundException "Comment not found"), deleted).
Proof.
  cbv zeta. split; [vm_compute; reflexivity |].
  apply (deleteComment_of_deleted_not_found Shop.env Shop.answer Shop.bob false
           _ (Shop.oid Shop.answer)
           (set_updated_at 3 (set_is_deleted Shop.the_answer)));
    vm_compute; reflexivity.
Defined.

(** ** Deleting a reply: the parent's counters *)

(** What [save] leaves in the store for the parent, changed or not. *)
Lemma save_drop_reply env parent commentId pc w r w' :
  comments w !! parent = Some pc ->
  save env parent pc (drop_reply commentId pc) w = (Ok r, w') ->
  exists pc',
    comments w' !! parent = Some pc'
    /\ replies pc' = kept_replies commentId (replies pc)
    /\ reply_count pc' = Z.of_nat (List.length (replies pc')).
Proof.
  intros Hstored. unfold save.
  destruct (validate (drop_reply commentId pc)); cbn [negb];
    [| discriminate].
  destruct (decide (drop_reply commentId pc = pc)) as [Hsame | Hchanged].
  - intros [= _ <-]. exists pc. split; [exact Hstored |].
    rewrite <- Hsame at 1 3 4. split; reflexivity.
  - unfold modify. intros [= _ <-].
    exists (set_updated_at (now env) (drop_reply commentId pc)).
    cbn [comments set_comments]. rewrite lookup_insert_eq.
    repeat split; reflexivity.
Qed.

(** After a successful [deleteComment] of a comment with a stored parent:
    the comment is marked deleted, the parent's [replies] are those whose
    printed id is not the [commentId] given, and the parent's
    [reply_count] is their number. *)
Lemma deleteComment_recounts
    (env : Env) (commentId userId : string) (isAdmin : bool) (w w' : World)
    (msg : string) (comment_id parent : ObjectId) (c pc : Comment) :
  deleteComment env commentId userId isAdmin w = (Ok msg, w') ->
  ObjectId.parse commentId = Some comment_id ->
  comments w !! comment_id = Some c ->
  parent_id c = Some parent ->
  comments w !! parent = Some pc ->
  (exists c', comments w' !! comment_id = Some c' /\ is_deleted c' = true)
  /\ exists pc',
       comments w' !! parent = Some pc'
       /\ replies pc' = kept_replies commentId (replies pc)
       /\ reply_count pc' = Z.of_nat (List.length (replies pc')).
Proof.
  intros Hrun Hparse Hstored Hparent Hpc. unfold deleteComment in Hrun.
  rewrite (parse_isValid _ _ Hparse) in Hrun. cbn [negb] in Hrun.
  unfold new_ObjectId, findOne_active in Hrun. rewrite Hparse in Hrun.
  step in Hrun. rewrite Hstored in Hrun.
  destruct (is_deleted c) eqn:Hlive; [discriminate |].
  destruct (negb isAdmin && negb (String.eqb (ObjectId.toString (user_id c)) userId));
    [discriminate |].
  unfold save at 1 in Hrun.
  destruct (validate (set_is_deleted c)); cbn [negb] in Hrun; [| discriminate].
  destruct (decide (set_is_deleted c = c)) as [Hsame | _].
  { apply (f_equal is_deleted) in Hsame. simpl in Hsame. congruence. }
  rewrite Hparent in Hrun. unfold findById in Hrun. step in Hrun.
  set (c1 := set_updated_at (now env) (set_is_deleted c)) in Hrun.
  set (w1 := set_comments <[comment_id := c1]> w) in Hrun.
  assert (Hc1 : comments w1 !! comment_id = Some c1)
    by (subst w1; cbn [comments set_comments]; apply lookup_insert_eq).
  assert (Hparent1 : exists pc1, comments w1 !! parent = Some pc1
                                 /\ replies pc1 = replies pc).
  { subst w1. cbn [comments set_comments].
    destruct (decide (comment_id = parent)) as [-> | Hne].
    - rewrite lookup_insert_eq. exists c1. split; [reflexivity |].
      subst c1. simpl. congruence.
    - rewrite lookup_insert_ne by exact Hne. exists pc. split; [exact Hpc | reflexivity]. }
  destruct Hparent1 as (pc1 & Hpc1 & Hreplies).
  rewrite Hpc1 in Hrun.
  destruct (save env parent pc1 (drop_reply commentId pc1) w1) as [r w2] eqn:Hsave.
  destruct r as [[]|]; [| discriminate]. injection Hrun as _ <-.
  assert (Hcomments : comments w2 !! comment_id = comments w1 !! comment_id
                      \/ exists d, comments w2 !! comment_id = Some d
                                   /\ is_deleted d = true).
  { unfold save in Hsave.
    destruct (validate (drop_reply commentId pc1)); cbn [negb] in Hsave;
      [| discriminate].
    destruct (decide (drop_reply commentId pc1 = pc1)).
    - injection Hsave as <-. left. reflexivity.
    - unfold modify in Hsave. injection Hsave as <-. cbn [comments set_comments].
      destruct (decide (parent = comment_id)) as [-> | Hne].
      + right. rewrite lookup_insert_eq. eexists. split; [reflexivity |].
        assert (pc1 = c1) by congruence. subst pc1 c1. reflexivity.
      + left. apply lookup_insert_ne. exact Hne. }
  split.
  - destruct Hcomments as [Heq | Hd]; [| exact Hd].
    exists c1. rewrite Heq. split; [exact Hc1 | reflexivity].
  - destruct (save_drop_reply _ _ _ _ _ _ _ Hpc1 Hsave) as (pc' & H1 & H2 & H3).
    exists pc'. rewrite <- Hreplies. auto.
Qed.

Lemma kept_replies_drops (commentId : string) (comment_id : ObjectId)
    (l : list ObjectId) :
  ObjectId.toString comment_id = commentId ->
  ~ In comment_id (kept_replies commentId l).
Proof.
  intros Hprinted Hin. apply filter_In in Hin as [_ Hkept].
  rewrite (proj2 (String.eqb_eq _ _) Hprinted) in Hkept. discriminate.
Qed.

(** C4, on the code: the filter compares the printed ids of the replies
    with the [commentId] as the caller spelled it. Bob deletes his reply
    under its id in upper case: the id is accepted and the reply is
    marked deleted, but it stays in the [replies] of its parent, whose
    [reply_count] stays 1. Under the lower-case spelling the reply is
    removed and the count is 0. *)
Theorem deleteComment_uppercase_id_keeps_reply :
  let upper := deleteComment Shop.env Shop.ANSWER Shop.bob false Shop.world in
  let lower := deleteComment Shop.env Shop.answer Shop.bob false Shop.world in
  ObjectId.parse Shop.ANSWER = ObjectId.parse Shop.answer
  /\ fst upper = Ok "Comment deleted successfully"
  /\ is_deleted <$> comments (snd upper) !! Shop.oid Shop.answer = Some true
  /\ parent_id Shop.the_answer = Some (Shop.oid Shop.opinion)
  /\ replies <$> comments (snd upper) !! Shop.oid Shop.opinion
     = Some [Shop.oid Shop.answer]
  /\ reply_count <$> comments (snd upper) !! Shop.oid Shop.opinion = Some 1
  /\ fst lower = Ok "Comment deleted successfully"
  /\ replies <$> comments (snd lower) !! Shop.oid Shop.opinion = Some []
  /\ reply_count <$> comments (snd lower) !! Shop.oid Shop.opinion = Some 0.
Proof. vm_compute. repeat split; reflexivity. Qed.

(** ** The admin's reply *)

(** When the product of the target comment is in the catalog,
    [adminReplyComment] is [createComment] on the target's own product
    id, the admin's id, the content given and the target as parent; the
    [product_id] and [parent_id] of the body are not read. *)
Lemma adminReplyComment_forwards
    (env : Env) (commentId userId : string) (dto : CreateCommentDto.t)
    (w : World) (comment_id : ObjectId) (pc : Comment) (p : Product) :
  ObjectId.parse commentId = Some comment_id ->
  comments w !! comment_id = Some pc ->
  is_deleted pc = false ->
  products w !! product_id pc = Some p ->
  adminReplyComment env commentId userId dto w
  = createComment env userId
      {| CreateCommentDto.product_id := ObjectId.toString (product_id pc);
         CreateCommentDto.content := CreateCommentDto.content dto;
         CreateCommentDto.parent_id := Some commentId |} w.
Proof.
  intros Hparse Hstored Hlive Hproduct. unfold adminReplyComment.
  rewrite (parse_isValid _ _ Hparse). cbn [negb].
  unfold new_ObjectId, findOne_active. rewrite Hparse. step.
  rewrite Hstored, Hlive. unfold populate_product. rewrite Hproduct.
  reflexivity.
Qed.

(** When it is not, [adminReplyComment] throws on the missing product and
    writes nothing. *)
Lemma adminReplyComment_missing_product
    (env : Env) (commentId userId : string) (dto : CreateCommentDto.t)
    (w : World) (comment_id : ObjectId) (pc : Comment) :
  ObjectId.parse commentId = Some comment_id ->
  comments w !! comment_id = Some pc ->
  is_deleted pc = false ->
  products w !! product_id pc = None ->
  adminReplyComment env commentId userId dto w = (Throw TypeError, w).
Proof.
  intros Hparse Hstored Hlive Hproduct. unfold adminReplyComment.
  rewrite (parse_isValid _ _ Hparse). cbn [negb].
  unfold new_ObjectId, findOne_active. rewrite Hparse. step.
  rewrite Hstored, Hlive. unfold populate_product. rewrite Hproduct.
  reflexivity.
Qed.

(** So the admin cannot reply to a reply either. *)
Lemma adminReplyComment_reply_to_reply
    (env : Env) (commentId userId : string) (dto : CreateCommentDto.t)
    (w : World) (comment_id grandparent : ObjectId) (pc : Comment) (p : Product) :
  ObjectId.parse commentId = Some comment_id ->
  comments w !! comment_id = Some pc ->
  is_deleted pc = false ->
  products w !! product_id pc = Some p ->
  parent_id pc = Some grandparent ->
  adminReplyComment env commentId userId dto w
  = (Throw (BadRequestException
              "Cannot reply to a reply. Maximum 2 levels allowed"), w).
Proof.
  intros Hparse Hstored Hlive Hproduct Hreply.
  rewrite (adminReplyComment_forwards env commentId userId dto w comment_id pc p
             Hparse Hstored Hlive Hproduct).
  eapply createComment_reply_to_reply; try eassumption.
  - apply isValid_toString.
  - cbn [CreateCommentDto.parent_id]. eapply truthy_parse, Hparse.
Qed.

(** C8, on the code: the target's product id is read through the
    populated product. Dave's note is on a product id that the catalog
    does not hold — [createComment] stored it all the same. His admin
    reply to it throws on the missing product and stores nothing, whereas
    [createComment] with the note's product id, his id, the content and
    the note as parent stores the reply and returns it. *)
Theorem adminReplyComment_missing_product_diverges :
  let before :=
    {| comments := comments Shop.world;
       users := users Shop.world_with_note;
       products := products Shop.world;
       createNotification_calls := [];
       notifyCommentReply_calls := [] |} in
  let posted :=
    createComment
      {| fresh_id := Shop.oid Shop.note; now := 2;
         createNotification := fun _ => Some 77%N |}
      Shop.dave
      {| CreateCommentDto.product_id := Shop.gadget;
         CreateCommentDto.content := "Where can I buy it?";
         CreateCommentDto.parent_id := None |} before in
  let forwarded :=
    createComment Shop.env Shop.dave
      {| CreateCommentDto.product_id :=
           ObjectId.toString (product_id Shop.the_note);
         CreateCommentDto.content := "Ask the seller";
         CreateCommentDto.parent_id := Some Shop.note |}
      Shop.world_with_note in
  (exists view, fst posted = Ok (Some view))
  /\ snd posted = Shop.world_with_note
  /\ adminReplyComment Shop.env Shop.note Shop.dave
       (Shop.reply Shop.phone Shop.opinion "Ask the seller")
       Shop.world_with_note
     = (Throw TypeError, Shop.world_with_note)
  /\ (exists view, fst forwarded = Ok (Some view))
  /\ parent_id <$> comments (snd forwarded) !! Shop.oid Shop.next
     = Some (Some (Shop.oid Shop.note))
  /\ reply_count <$> comments (snd forwarded) !! Shop.oid Shop.note = Some 1.
Proof.
  cbv zeta. split; [vm_compute; eauto |]. split; [vm_compute; reflexivity |].
  split.
  - apply (adminReplyComment_missing_product _ _ _ _ _
             (Shop.oid Shop.note) Shop.the_note); vm_compute; reflexivity.
  - split; [vm_compute; eauto |]. split; vm_compute; reflexivity.
Qed.

(** ** Listings *)











(** ** The two levels are kept by every call *)

Lemma same_parents_refl m : same_parents m m.
Proof. intros j. reflexivity. Qed.

Lemma same_parents_trans m1 m2 m3 :
  same_parents m1 m2 -> same_parents m2 m3 -> same_parents m1 m3.
Proof. intros H12 H23 j. rewrite H23. apply H12. Qed.

Lemma same_parents_insert m i old c :
  m !! i = Some old -> parent_id c = parent_id old ->
  same_parents m (<[i := c]> m).
Proof.
  intros Hold Hparent j. destruct (decide (i = j)) as [<- | Hne].
  - rewrite lookup_insert_eq, Hold. simpl. congruence.
  - rewrite lookup_insert_ne by exact Hne. reflexivity.
Qed.

Lemma same_parents_alter m i f :
  (forall c, parent_id (f c) = parent_id c) -> same_parents m (alter f i m).
Proof.
  intros Hf j. destruct (decide (i = j)) as [<- | Hne].
  - rewrite lookup_alter_eq. destruct (m !! i); simpl; [| reflexivity].
    rewrite Hf. reflexivity.
  - rewrite lookup_alter_ne by exact Hne. reflexivity.
Qed.

Lemma two_levels_same_parents w w' :
  same_parents (comments w) (comments w') -> two_levels w -> two_levels w'.
Proof.
  intros Hsame Hlevels i c p Hc Hp.
  assert (Hi : parent_id <$> comments w !! i = Some (Some p))
    by (rewrite <- Hsame, Hc; simpl; congruence).
  destruct (comments w !! i) as [c0|] eqn:Hc0; [| discriminate].
  injection Hi as Hi.
  destruct (Hlevels i c0 p Hc0 Hi) as (pc & Hpc & Htop).
  assert (Hp' : parent_id <$> comments w' !! p = Some None)
    by (rewrite Hsame, Hpc; simpl; congruence).
  destruct (comments w' !! p) as [pc'|]; [| discriminate].
  injection Hp' as Hp'. eauto.
Qed.

Lemma two_levels_insert w (i : ObjectId) (c : Comment) :
  two_levels w ->
  comments w !! i = None ->
  (forall p, parent_id c = Some p ->
             exists pc, comments w !! p = Some pc /\ parent_id pc = None) ->
  two_levels (set_comments <[i := c]> w).
Proof.
  intros Hlevels Hfresh Hparent j d p. cbn [comments set_comments].
  intros Hd Hp.
  assert (Hpc : exists pc, comments w !! p = Some pc /\ parent_id pc = None).
  { destruct (decide (i = j)) as [<- | Hne].
    - rewrite lookup_insert_eq in Hd. injection Hd as <-. apply Hparent, Hp.
    - rewrite lookup_insert_ne in Hd by exact Hne. eapply Hlevels; eauto. }
  destruct Hpc as (pc & Hpc & Htop). exists pc. split; [| exact Htop].
  rewrite lookup_insert_ne by congruence. exact Hpc.
Qed.

Lemma save_same_parents env i old c w r w' :
  comments w !! i = Some old -> parent_id c = parent_id old ->
  save env i old c w = (r, w') ->
  same_parents (comments w) (comments w').
Proof.
  intros Hold Hparent. unfold save.
  destruct (validate c); cbn [negb]; [| intros [= _ <-]; apply same_parents_refl].
  destruct (decide (c = old)); [intros [= _ <-]; apply same_parents_refl |].
  unfold modify. intros [= _ <-]. cbn [comments set_comments].
  eapply same_parents_insert; [exact Hold | exact Hparent].
Qed.

Lemma createComment_two_levels env userId dto w :
  two_levels w -> two_levels (snd (createComment env userId dto w)).
Proof.
  intros Hlevels.
  destruct (createComment_cases env userId dto w) as [[e ->] | Hacc];
    [exact Hlevels |].
  destruct Hacc as ([product_oid Hproduct] & [user_oid Huser] & Hcontent
                    & Hfresh & Hparent).
  destruct Hparent as [Habsent | (parent & parent_oid & pc & Hgiven & Hparse
                                  & Hstored & Hlive & Htop)].
  - rewrite (createComment_top_level env userId dto w product_oid user_oid
               Hproduct Huser Hcontent Hfresh Habsent).
    cbn [snd]. apply two_levels_insert; [exact Hlevels | exact Hfresh |].
    intros p Hp. discriminate.
  - rewrite (createComment_reply env userId dto w product_oid user_oid
               Hproduct Huser Hcontent Hfresh parent parent_oid pc
               Hgiven Hparse Hstored Hlive Htop).
    unfold bind at 1.
    match goal with
    | |- context [notify_reply ?a ?b ?c ?d ?e ?f ?g ?h] =>
        destruct (notify_reply a b c d e f g h) as [r w2] eqn:Hnotify
    end.
    apply notify_reply_collections in Hnotify as (Hcomments & _ & _).
    set (c := new_comment env product_oid user_oid
                (CreateCommentDto.content dto) (Some parent_oid)) in *.
    assert (Hw2 : two_levels w2).
    { apply (two_levels_same_parents (set_comments <[fresh_id env := c]> w)).
      - rewrite Hcomments. cbn [comments set_comments].
        apply same_parents_alter. intros d. reflexivity.
      - apply two_levels_insert; [exact Hlevels | exact Hfresh |].
        intros p [= <-]. eauto. }
    destruct r; exact Hw2.
Qed.

Lemma updateComment_two_levels env commentId userId dto w :
  two_levels w -> two_levels (snd (updateComment env commentId userId dto w)).
Proof.
  intros Hlevels. unfold updateComment.
  destruct (ObjectId.isValid commentId) eqn:Hvalid; cbn [negb];
    [| exact Hlevels].
  apply isValid_parse in Hvalid as [comment_id Hparse].
  unfold new_ObjectId, findOne_active. rewrite Hparse. step.
  destruct (comments w !! comment_id) as [c|] eqn:Hstored; [| exact Hlevels].
  destruct (is_deleted c); [exact Hlevels |].
  destruct (negb (String.eqb (ObjectId.toString (user_id c)) userId));
    [exact Hlevels |].
  match goal with
  | |- context [save env comment_id c ?c'] =>
      destruct (save env comment_id c c' w) as [r w1] eqn:Hsave;
      apply save_same_parents in Hsave;
        [| exact Hstored | destruct (truthy (UpdateCommentDto.content dto)); reflexivity]
  end.
  apply (two_levels_same_parents w); [| exact Hlevels].
  destruct r; exact Hsave.
Qed.

Lemma deleteComment_two_levels env commentId userId isAdmin w :
  two_levels w -> two_levels (snd (deleteComment env commentId userId isAdmin w)).
Proof.
  intros Hlevels. unfold deleteComment.
  destruct (ObjectId.isValid commentId) eqn:Hvalid; cbn [negb];
    [| exact Hlevels].
  apply isValid_parse in Hvalid as [comment_id Hparse].
  unfold new_ObjectId, findOne_active. rewrite Hparse. step.
  destruct (comments w !! comment_id) as [c|] eqn:Hstored; [| exact Hlevels].
  destruct (is_deleted c); [exact Hlevels |].
  destruct (negb isAdmin && negb (String.eqb (ObjectId.toString (user_id c)) userId));
    [exact Hlevels |].
  destruct (save env comment_id c (set_is_deleted c) w) as [r w1] eqn:Hsave.
  apply save_same_parents in Hsave; [| exact Hstored | reflexivity].
  assert (Hw1 : two_levels w1)
    by (apply (two_levels_same_parents w); assumption).
  destruct r as [[]|]; [| exact Hw1].
  destruct (parent_id c) as [parent|]; [| exact Hw1].
  unfold findById. step.
  destruct (comments w1 !! parent) as [pc|] eqn:Hpc; [| exact Hw1].
  destruct (save env parent pc (drop_reply commentId pc) w1) as [r w2] eqn:Hsave2.
  apply save_same_parents in Hsave2; [| exact Hpc | reflexivity].
  apply (two_levels_same_parents w1); [| exact Hw1].
  destruct r; exact Hsave2.
Qed.

Lemma adminReplyComment_two_levels env commentId userId dto w :
  two_levels w -> two_levels (snd (adminReplyComment env commentId userId dto w)).
Proof.
  intros Hlevels. unfold adminReplyComment.
  destruct (ObjectId.isValid commentId); cbn [negb]; [| exact Hlevels].
  unfold new_ObjectId, findOne_active.
  destruct (ObjectId.parse commentId) as [comment_id|]; [| exact Hlevels].
  step.
  destruct (comments w !! comment_id) as [c|]; [| exact Hlevels].
  destruct (is_deleted c); [exact Hlevels |].
  destruct (populate_product false (product_id c) w); [| exact Hlevels].
  apply createComment_two_levels, Hlevels.
Qed.

(** Every world the service can lead to keeps the two levels: each stored
    reply has a stored parent, which is a top-level comment. *)
Theorem reachable_two_levels (w : World) : reachable w -> two_levels w.
Proof.
  induction 1 as [us ps | c w Hw IH | us ps w Hw IH].
  - intros i c p Hc. cbn [comments] in Hc. rewrite lookup_empty in Hc.
    discriminate.
  - destruct c; cbn [after].
    + apply createComment_two_levels, IH.
    + apply updateComment_two_levels, IH.
    + apply deleteComment_two_levels, IH.
    + apply adminReplyComment_two_levels, IH.
  - exact IH.
Qed.

(** C2. A reply to a reply is refused and nothing is written. For every
    call of [createComment] whose [parent_id] names a stored comment that
    is not deleted and has itself a parent, the call throws a bad-request
    exception and leaves the world as it was; when the [product_id] is
    well formed, the exception is the one about the two levels. So, in
    a world the service has led to, every stored reply has a stored
    parent that is a top-level comment. *)
Theorem createComment_rejects_reply_to_reply
    (env : Env) (userId : string) (dto : CreateCommentDto.t) (w : World)
    (parent : string) (parent_oid grandparent : ObjectId) (pc : Comment) :
  truthy (CreateCommentDto.parent_id dto) = Some parent ->
  ObjectId.parse parent = Some parent_oid ->
  comments w !! parent_oid = Some pc ->
  is_deleted pc = false ->
  parent_id pc = Some grandparent ->
  (exists msg,
     createComment env userId dto w = (Throw (BadRequestException msg), w))
  /\ (ObjectId.isValid (CreateCommentDto.product_id dto) = true ->
      createComment env userId dto w
      = (Throw (BadRequestException
                  "Cannot reply to a reply. Maximum 2 levels allowed"), w))
  /\ (reachable w ->
      forall i c p,
        comments w !! i = Some c -> parent_id c = Some p ->
        exists top, comments w !! p = Some top /\ parent_id top = None).
Proof.
  intros Hgiven Hparse Hstored Hlive Hreply.
  split; [| split; [| apply reachable_two_levels]].
  - destruct (ObjectId.isValid (CreateCommentDto.product_id dto)) eqn:Hproduct.
    + eexists. eapply createComment_reply_to_reply; eassumption.
    + eexists. unfold createComment. rewrite Hproduct. reflexivity.
  - intros Hproduct. eapply createComment_reply_to_reply; eassumption.
Qed.

Lemma createComment_rejects_reply_to_reply_witness :
  createComment Shop.env Shop.carol (Shop.reply Shop.phone Shop.answer "Me too")
    Shop.world
  = (Throw (BadRequestException
              "Cannot reply to a reply. Maximum 2 levels allowed"), Shop.world).
Proof.
  apply (createComment_rejects_reply_to_reply Shop.env Shop.carol
           (Shop.reply Shop.phone Shop.answer "Me too") Shop.world
           Shop.answer (Shop.oid Shop.answer) (Shop.oid Shop.opinion)
           Shop.the_answer);
    vm_compute; reflexivity.
Defined.

(** * More of the service: what the calls keep, show and refuse *)

(** The first day of the shop is a world the service has led to. *)
Lemma first_day_reachable : reachable Shop.first_day.
Proof. apply reachable_call, reachable_call, reachable_empty. Qed.

(** ** What no call does to a stored comment *)

Section Preservation.

(** A relation between a stored comment and what a call leaves of it. *)
Variable P : Comment -> Comment -> Prop.

Hypothesis P_refl : forall c, P c c.
Hypothesis P_trans : forall c1 c2 c3, P c1 c2 -> P c2 c3 -> P c1 c3.
Hypothesis P_updated_at : forall t c, P c (set_updated_at t c).

Lemma kept_refl m : kept P m m.
Proof using P_refl. intros i c Hc. eauto. Qed.

Lemma kept_trans m1 m2 m3 : kept P m1 m2 -> kept P m2 m3 -> kept P m1 m3.
Proof using P_trans.
  intros H12 H23 i c Hc.
  destruct (H12 i c Hc) as (c2 & Hc2 & HP2).
  destruct (H23 i c2 Hc2) as (c3 & Hc3 & HP3). eauto.
Qed.

Lemma kept_insert_fresh m i c : m !! i = None -> kept P m (<[i := c]> m).
Proof using P_refl.
  intros Hfresh j d Hd. exists d. split; [| apply P_refl].
  rewrite lookup_insert_ne by congruence. exact Hd.
Qed.

Lemma kept_insert m i old c :
  m !! i = Some old -> P old c -> kept P m (<[i := c]> m).
Proof using P_refl.
  intros Hold HP j d Hd. destruct (decide (i = j)) as [<- | Hne].
  - exists c. rewrite lookup_insert_eq. split; [reflexivity | congruence].
  - exists d. rewrite lookup_insert_ne by exact Hne. auto.
Qed.

Lemma kept_alter m i f :
  (forall c, m !! i = Some c -> P c (f c)) -> kept P m (alter f i m).
Proof using P_refl.
  intros Hf j d Hd. destruct (decide (i = j)) as [<- | Hne].
  - exists (f d). rewrite lookup_alter_eq, Hd. split; [reflexivity | auto].
  - exists d. rewrite lookup_alter_ne by exact Hne. auto.
Qed.

Lemma save_kept env i old c w r w' :
  comments w !! i = Some old -> P old c ->
  save env i old c w = (r, w') ->
  kept P (comments w) (comments w').
Proof using P_refl P_trans P_updated_at.
  intros Hold HP. unfold save.
  destruct (validate c); cbn [negb]; [| intros [= _ <-]; apply kept_refl].
  destruct (decide (c = old)); [intros [= _ <-]; apply kept_refl |].
  unfold modify. intros [= _ <-]. cbn [comments set_comments].
  eapply kept_insert; [exact Hold |].
  eapply P_trans; [exact HP | apply P_updated_at].
Qed.

(** What the relation has to allow for each method. *)
Hypothesis P_push : forall env r c,
  is_deleted c = false -> P c (push_reply env r c).
Hypothesis P_content : forall s c,
  is_deleted c = false -> P c (set_content s c).
Hypothesis P_delete : forall c,
  is_deleted c = false -> P c (set_is_deleted c).
Hypothesis P_drop : forall commentId c, P c (drop_reply commentId c).

Lemma createComment_kept env userId dto w :
  kept P (comments w) (comments (snd (createComment env userId dto w))).
Proof using P_refl P_trans P_push.
  destruct (createComment_cases env userId dto w) as [[e ->] | Hacc];
    [apply kept_refl |].
  destruct Hacc as ([product_oid Hproduct] & [user_oid Huser] & Hcontent
                    & Hfresh & Hparent).
  destruct Hparent as [Habsent | (parent & parent_oid & pc & Hgiven & Hparse
                                  & Hstored & Hlive & Htop)].
  - rewrite (createComment_top_level env userId dto w product_oid user_oid
               Hproduct Huser Hcontent Hfresh Habsent).
    cbn [snd comments set_comments]. apply kept_insert_fresh, Hfresh.
  - rewrite (createComment_reply env userId dto w product_oid user_oid
               Hproduct Huser Hcontent Hfresh parent parent_oid pc
               Hgiven Hparse Hstored Hlive Htop).
    unfold bind at 1.
    match goal with
    | |- context [notify_reply ?a ?b ?c ?d ?e ?f ?g ?h] =>
        destruct (notify_reply a b c d e f g h) as [r w2] eqn:Hnotify
    end.
    apply notify_reply_collections in Hnotify as (Hcomments & _ & _).
    assert (Hw2 : kept P (comments w) (comments w2)).
    { rewrite Hcomments. cbn [comments set_comments].
      eapply kept_trans; [apply kept_insert_fresh, Hfresh |].
      apply kept_alter. intros c Hc.
      rewrite lookup_insert_ne in Hc by congruence.
      apply P_push. congruence. }
    destruct r; exact Hw2.
Qed.

Lemma updateComment_kept env commentId userId dto w :
  kept P (comments w) (comments (snd (updateComment env commentId userId dto w))).
Proof using P_refl P_trans P_updated_at P_content.
  unfold updateComment.
  destruct (ObjectId.isValid commentId) eqn:Hvalid; cbn [negb];
    [| apply kept_refl].
  apply isValid_parse in Hvalid as [comment_id Hparse].
  unfold new_ObjectId, findOne_active. rewrite Hparse. step.
  destruct (comments w !! comment_id) as [c|] eqn:Hstored; [| apply kept_refl].
  destruct (is_deleted c) eqn:Hlive; [apply kept_refl |].
  destruct (negb (String.eqb (ObjectId.toString (user_id c)) userId));
    [apply kept_refl |].
  match goal with
  | |- context [save env comment_id c ?c'] =>
      destruct (save env comment_id c c' w) as [r w1] eqn:Hsave;
      apply save_kept in Hsave;
        [| exact Hstored
         | destruct (truthy (UpdateCommentDto.content dto));
             [apply P_content, Hlive | apply P_refl]]
  end.
  destruct r; exact Hsave.
Qed.

Lemma deleteComment_kept env commentId userId isAdmin w :
  kept P (comments w) (comments (snd (deleteComment env commentId userId isAdmin w))).
Proof using P_refl P_trans P_updated_at P_delete P_drop.
  unfold deleteComment.
  destruct (ObjectId.isValid commentId) eqn:Hvalid; cbn [negb];
    [| apply kept_refl].
  apply isValid_parse in Hvalid as [comment_id Hparse].
  unfold new_ObjectId, findOne_active. rewrite Hparse. step.
  destruct (comments w !! comment_id) as [c|] eqn:Hstored; [| apply kept_refl].
  destruct (is_deleted c) eqn:Hlive; [apply kept_refl |].
  destruct (negb isAdmin && negb (String.eqb (ObjectId.toString (user_id c)) userId));
    [apply kept_refl |].
  destruct (save env comment_id c (set_is_deleted c) w) as [r w1] eqn:Hsave.
  apply save_kept in Hsave; [| exact Hstored | apply P_delete, Hlive].
  destruct r as [[]|]; [| exact Hsave].
  destruct (parent_id c) as [parent|]; [| exact Hsave].
  unfold findById. step.
  destruct (comments w1 !! parent) as [pc|] eqn:Hpc; [| exact Hsave].
  destruct (save env parent pc (drop_reply commentId pc) w1) as [r w2] eqn:Hsave2.
  apply save_kept in Hsave2; [| exact Hpc | apply P_drop].
  eapply kept_trans; [exact Hsave |]. destruct r; exact Hsave2.
Qed.

Lemma adminReplyComment_kept env commentId userId dto w :
  kept P (comments w) (comments (snd (adminReplyComment env commentId userId dto w))).
Proof using P_refl P_trans P_push.
  unfold adminReplyComment.
  destruct (ObjectId.isValid commentId); cbn [negb]; [| apply kept_refl].
  unfold new_ObjectId, findOne_active.
  destruct (ObjectId.parse commentId) as [comment_id|]; [| apply kept_refl].
  step.
  destruct (comments w !! comment_id) as [c|]; [| apply kept_refl].
  destruct (is_deleted c); [apply kept_refl |].
  destruct (populate_product false (product_id c) w); [| apply kept_refl].
  apply createComment_kept.
Qed.

Lemma after_kept call w : kept P (comments w) (comments (after call w)).
Proof using All.
  destruct call; cbn [after].
  - apply createComment_kept.
  - apply updateComment_kept.
  - apply deleteComment_kept.
  - apply adminReplyComment_kept.
Qed.

End Preservation.

(** ** What each method writes *)

(** The store after [createComment]: as before, or with the new comment
    under the id drawn, and the parent, if any, holding one reply more. *)
Lemma createComment_store env userId dto w :
  let m := comments w in
  let m' := comments (snd (createComment env userId dto w)) in
  m' = m
  \/ exists product user,
       ObjectId.parse (CreateCommentDto.product_id dto) = Some product
       /\ ObjectId.parse userId = Some user
       /\ m !! fresh_id env = None
       /\ trim (CreateCommentDto.content dto) <> ""
       /\ (m' = <[fresh_id env :=
                    new_comment env product user
                      (CreateCommentDto.content dto) None]> m
           \/ exists parent pc,
                m !! parent = Some pc
                /\ is_deleted pc = false
                /\ parent_id pc = None
                /\ m' = <[parent := push_reply env (fresh_id env) pc]>
                          (<[fresh_id env :=
                               new_comment env product user
                                 (CreateCommentDto.content dto) (Some parent)]> m)).
Proof.
  cbv zeta.
  destruct (createComment_cases env userId dto w) as [[e ->] | Hacc];
    [left; reflexivity |].
  destruct Hacc as ([product_oid Hproduct] & [user_oid Huser] & Hcontent
                    & Hfresh & Hparent).
  right. exists product_oid, user_oid.
  do 4 (split; [first [assumption | reflexivity] |]).
  destruct Hparent as [Habsent | (parent & parent_oid & pc & Hgiven & Hparse
                                  & Hstored & Hlive & Htop)].
  - left.
    rewrite (createComment_top_level env userId dto w product_oid user_oid
               Hproduct Huser Hcontent Hfresh Habsent).
    reflexivity.
  - right. exists parent_oid, pc.
    do 3 (split; [first [assumption | reflexivity] |]).
    rewrite (createComment_reply env userId dto w product_oid user_oid
               Hproduct Huser Hcontent Hfresh parent parent_oid pc
               Hgiven Hparse Hstored Hlive Htop).
    unfold bind at 1.
    match goal with
    | |- context [notify_reply ?a ?b ?c ?d ?e ?f ?g ?h] =>
        destruct (notify_reply a b c d e f g h) as [r w2] eqn:Hnotify
    end.
    apply notify_reply_collections in Hnotify as (Hcomments & _ & _).
    assert (Hw2 : comments w2
                  = <[parent_oid := push_reply env (fresh_id env) pc]>
                      (<[fresh_id env :=
                           new_comment env product_oid user_oid
                             (CreateCommentDto.content dto) (Some parent_oid)]>
                         (comments w))).
    { rewrite Hcomments. cbn [comments set_comments].
      apply map_eq. intros j. destruct (decide (parent_oid = j)) as [<- | Hne].
      - rewrite lookup_alter_eq, lookup_insert_eq.
        rewrite lookup_insert_ne by congruence. rewrite Hstored. reflexivity.
      - rewrite lookup_alter_ne, (lookup_insert_ne _ parent_oid) by exact Hne.
        reflexivity. }
    destruct r; exact Hw2.
Qed.

(** The store after [updateComment]: as before, or with the content of
    the caller's own comment replaced. *)
Lemma updateComment_store env commentId userId dto w :
  let m := comments w in
  let m' := comments (snd (updateComment env commentId userId dto w)) in
  m' = m
  \/ exists i c s,
       ObjectId.parse commentId = Some i
       /\ m !! i = Some c
       /\ is_deleted c = false
       /\ ObjectId.toString (user_id c) = userId
       /\ truthy (UpdateCommentDto.content dto) = Some s
       /\ trim s <> ""
       /\ m' = <[i := set_updated_at (now env) (set_content s c)]> m.
Proof.
  cbv zeta. unfold updateComment.
  destruct (ObjectId.isValid commentId) eqn:Hvalid; cbn [negb];
    [| left; reflexivity].
  apply isValid_parse in Hvalid as [comment_id Hparse].
  unfold new_ObjectId, findOne_active. rewrite Hparse. step.
  destruct (comments w !! comment_id) as [c|] eqn:Hstored; [| left; reflexivity].
  destruct (is_deleted c) eqn:Hlive; [left; reflexivity |].
  destruct (String.eqb (ObjectId.toString (user_id c)) userId) eqn:Hauthor;
    cbn [negb]; [| left; reflexivity].
  apply String.eqb_eq in Hauthor.
  destruct (truthy (UpdateCommentDto.content dto)) as [s|] eqn:Hcontent.
  - unfold save. destruct (validate (set_content s c)) eqn:Hvalidate;
      cbn [negb]; [| left; reflexivity].
    destruct (decide (set_content s c = c)); [left; reflexivity |].
    right. exists comment_id, c, s.
    do 5 (split; [first [assumption | reflexivity] |]). split; [| reflexivity].
    unfold validate in Hvalidate. cbn [content set_content] in Hvalidate.
    apply negb_true_iff, String.eqb_neq in Hvalidate. exact Hvalidate.
  - left. unfold save. destruct (validate c); cbn [negb]; [| reflexivity].
    destruct (decide (c = c)); [reflexivity | contradiction].
Qed.

(** The store after [deleteComment]: as before, or with the comment
    marked, and then its parent, if it is stored, recounted. *)
Lemma deleteComment_store env commentId userId isAdmin w :
  let m := comments w in
  let m' := comments (snd (deleteComment env commentId userId isAdmin w)) in
  m' = m
  \/ exists i c,
       ObjectId.parse commentId = Some i
       /\ m !! i = Some c
       /\ is_deleted c = false
       /\ (isAdmin = true \/ ObjectId.toString (user_id c) = userId)
       /\ let m1 := <[i := set_updated_at (now env) (set_is_deleted c)]> m in
          m' = m1
          \/ exists p pc,
               parent_id c = Some p
               /\ m1 !! p = Some pc
               /\ m' = <[p := set_updated_at (now env) (drop_reply commentId pc)]> m1.
Proof.
  cbv zeta. unfold deleteComment.
  destruct (ObjectId.isValid commentId) eqn:Hvalid; cbn [negb];
    [| left; reflexivity].
  apply isValid_parse in Hvalid as [comment_id Hparse].
  unfold new_ObjectId, findOne_active. rewrite Hparse. step.
  destruct (comments w !! comment_id) as [c|] eqn:Hstored; [| left; reflexivity].
  destruct (is_deleted c) eqn:Hlive; [left; reflexivity |].
  destruct (negb isAdmin && negb (String.eqb (ObjectId.toString (user_id c)) userId))
    eqn:Hallowed; [left; reflexivity |].
  assert (Hwho : isAdmin = true \/ ObjectId.toString (user_id c) = userId).
  { apply andb_false_iff in Hallowed as [H | H]; apply negb_false_iff in H;
      [left; exact H | right; apply String.eqb_eq, H]. }
  destruct (save env comment_id c (set_is_deleted c) w) as [r w1] eqn:Hsave.
  unfold save in Hsave.
  destruct (validate (set_is_deleted c)); cbn [negb] in Hsave;
    [| injection Hsave as <- <-; left; reflexivity].
  destruct (decide (set_is_deleted c = c)) as [Hsame | _].
  { apply (f_equal is_deleted) in Hsame. cbn in Hsame. congruence. }
  unfold modify in Hsave. injection Hsave as <- <-.
  right. exists comment_id, c.
  do 4 (split; [first [assumption | reflexivity] |]).
  destruct (parent_id c) as [parent|]; [| left; reflexivity].
  unfold findById. step. cbn [comments set_comments].
  set (m1 := <[comment_id := set_updated_at (now env) (set_is_deleted c)]>
               (comments w)).
  destruct (m1 !! parent) as [pc|] eqn:Hpc; [| left; reflexivity].
  unfold save. destruct (validate (drop_reply commentId pc)); cbn [negb];
    [| left; reflexivity].
  destruct (decide (drop_reply commentId pc = pc)); [left; reflexivity |].
  right. exists parent, pc. auto.
Qed.

(** [adminReplyComment] writes what a [createComment] writes, or nothing. *)
Lemma adminReplyComment_store env commentId userId dto w :
  snd (adminReplyComment env commentId userId dto w) = w
  \/ exists dto', snd (adminReplyComment env commentId userId dto w)
                  = snd (createComment env userId dto' w).
Proof.
  unfold adminReplyComment.
  destruct (ObjectId.isValid commentId); cbn [negb]; [| left; reflexivity].
  unfold new_ObjectId, findOne_active.
  destruct (ObjectId.parse commentId) as [comment_id|]; [| left; reflexivity].
  step.
  destruct (comments w !! comment_id) as [c|]; [| left; reflexivity].
  destruct (is_deleted c); [left; reflexivity |].
  destruct (populate_product false (product_id c) w); [| left; reflexivity].
  right. eexists. reflexivity.
Qed.

(** ** Identity, deletion and content *)

Lemma evolves_refl c : evolves c c.
Proof. unfold evolves. repeat split; auto. Qed.

Lemma evolves_trans c1 c2 c3 : evolves c1 c2 -> evolves c2 c3 -> evolves c1 c3.
Proof.
  unfold evolves. intros (H1 & H2 & H3 & H4 & H5) (K1 & K2 & K3 & K4 & K5).
  repeat split; try congruence.
  - apply K5, H5. assumption.
  - destruct (H5 H) as [Hd Hc]. destruct (K5 Hd). congruence.
Qed.

Lemma after_evolves call w :
  kept evolves (comments w) (comments (after call w)).
Proof.
  apply after_kept.
  - apply evolves_refl.
  - apply evolves_trans.
  - intros t c. unfold evolves. cbn. repeat split; auto.
  - intros env r c Hlive. unfold evolves. cbn. repeat split; congruence.
  - intros s c Hlive. unfold evolves. cbn. repeat split; congruence.
  - intros c Hlive. unfold evolves. cbn. repeat split; congruence.
  - intros commentId c. unfold evolves. cbn. repeat split; auto.
Qed.

(** X1. No call of the service moves a stored comment. After any of the
    four writing calls ([createComment], [updateComment], [deleteComment],
    [adminReplyComment]), whatever the call answers, a comment that was
    stored is still stored under its id, with the product, the author,
    the parent and the date of creation it had. *)
Theorem stored_comment_keeps_identity
    (call : Call) (w : World) (i : ObjectId) (c : Comment) :
  comments w !! i = Some c ->
  exists c',
    comments (after call w) !! i = Some c'
    /\ product_id c' = product_id c
    /\ user_id c' = user_id c
    /\ parent_id c' = parent_id c
    /\ created_at c' = created_at c.
Proof.
  intros Hc. destruct (after_evolves call w i c Hc) as (c' & Hc' & H).
  exists c'. unfold evolves in H. tauto.
Qed.

Lemma stored_comment_keeps_identity_witness :
  exists c',
    comments Shop.after_removal !! Shop.oid Shop.answer = Some c'
    /\ user_id c' = Shop.oid Shop.bob
    /\ parent_id c' = Some (Shop.oid Shop.opinion).
Proof.
  destruct (stored_comment_keeps_identity Shop.removal Shop.world
              (Shop.oid Shop.answer) Shop.the_answer)
    as (c' & Hc' & _ & Hu & Hp & _).
  - vm_compute. reflexivity.
  - exists c'. split; [exact Hc' |]. split; [exact Hu | exact Hp].
Defined.

(** X2. A deletion is never undone. After any writing call, a comment that
    was stored and marked deleted is still stored and still marked
    deleted, with the content it had. *)
Theorem deleted_comment_stays_deleted
    (call : Call) (w : World) (i : ObjectId) (c : Comment) :
  comments w !! i = Some c ->
  is_deleted c = true ->
  exists c',
    comments (after call w) !! i = Some c'
    /\ is_deleted c' = true
    /\ content c' = content c.
Proof.
  intros Hc Hdeleted. destruct (after_evolves call w i c Hc) as (c' & Hc' & H).
  exists c'. unfold evolves in H. tauto.
Qed.

Lemma deleted_comment_stays_deleted_witness :
  exists c',
    comments (after (UpdateComment Shop.env Shop.answer Shop.bob
                       Shop.second_thoughts) Shop.after_removal)
      !! Shop.oid Shop.answer = Some c'
    /\ is_deleted c' = true
    /\ content c' = "I agree".
Proof.
  apply (deleted_comment_stays_deleted
           (UpdateComment Shop.env Shop.answer Shop.bob Shop.second_thoughts)
           Shop.after_removal (Shop.oid Shop.answer) Shop.removed_answer).
  - vm_compute. reflexivity.
  - reflexivity.
Defined.

(** X3. Only its author changes the content of a comment, and only through
    [updateComment]. If the content stored under an id differs after a
    writing call, the call is an [updateComment] of that id whose caller
    is the printed [user_id] of the comment, the comment was not
    deleted, the request carried a content, and the new content is that
    content trimmed. *)
Theorem content_changes_by_update_of_author
    (call : Call) (w : World) (i : ObjectId) (c c' : Comment) :
  comments w !! i = Some c ->
  comments (after call w) !! i = Some c' ->
  content c' <> content c ->
  exists env commentId dto s,
    call = UpdateComment env commentId (ObjectId.toString (user_id c)) dto
    /\ ObjectId.parse commentId = Some i
    /\ is_deleted c = false
    /\ truthy (UpdateCommentDto.content dto) = Some s
    /\ content c' = trim s.
Proof.
  intros Hc Hc' Hchanged.
  assert (Hrefl : forall d, same_content d d) by reflexivity.
  assert (Htrans : forall d1 d2 d3,
             same_content d1 d2 -> same_content d2 d3 -> same_content d1 d3)
    by (unfold same_content; congruence).
  assert (Hpush : forall env r d, is_deleted d = false ->
                                  same_content d (push_reply env r d))
    by reflexivity.
  destruct call as [env userId dto | env commentId userId dto
                   | env commentId userId isAdmin | env commentId userId dto];
    cbn [after] in Hc'.
  - destruct (createComment_kept same_content Hrefl Htrans Hpush
                env userId dto w i c Hc) as (d & Hd & Hsame).
    unfold same_content in Hsame. congruence.
  - destruct (updateComment_store env commentId userId dto w)
      as [Hsame | (j & d & s & Hparse & Hd & Hlive & Hauthor & Hs & _ & Hm')];
      cbv zeta in *.
    + rewrite Hsame in Hc'. congruence.
    + rewrite Hm' in Hc'. destruct (decide (j = i)) as [-> | Hne].
      * rewrite lookup_insert_eq in Hc'. injection Hc' as <-.
        assert (d = c) by congruence. subst d.
        exists env, commentId, dto, s. subst userId. auto.
      * rewrite lookup_insert_ne in Hc' by exact Hne. congruence.
  - destruct (deleteComment_kept same_content Hrefl Htrans
                ltac:(reflexivity) ltac:(reflexivity) ltac:(reflexivity)
                env commentId userId isAdmin w i c Hc) as (d & Hd & Hsame).
    unfold same_content in Hsame. congruence.
  - destruct (adminReplyComment_kept same_content Hrefl Htrans Hpush
                env commentId userId dto w i c Hc) as (d & Hd & Hsame).
    unfold same_content in Hsame. congruence.
Qed.

Lemma content_changes_by_update_of_author_witness :
  exists env commentId dto s,
    UpdateComment Shop.env Shop.opinion Shop.alice Shop.second_thoughts
    = UpdateComment env commentId
        (ObjectId.toString (user_id Shop.the_opinion)) dto
    /\ truthy (UpdateCommentDto.content dto) = Some s
    /\ trim s = "Great product".
Proof.
  destruct (content_changes_by_update_of_author
              (UpdateComment Shop.env Shop.opinion Shop.alice
                 Shop.second_thoughts)
              Shop.world (Shop.oid Shop.opinion) Shop.the_opinion
              (set_updated_at 3 (set_content "Great product" Shop.the_opinion)))
    as (env & commentId & dto & s & Hcall & _ & _ & Hs & Hcontent).
  - vm_compute. reflexivity.
  - vm_compute. reflexivity.
  - intros H. vm_compute in H. discriminate H.
  - exists env, commentId, dto, s. split; [exact Hcall |].
    split; [exact Hs |]. rewrite <- Hcontent. vm_compute. reflexivity.
Defined.

(** ** The counters and the lists of replies *)

Lemma counted_push env r c : counted c -> counted (push_reply env r c).
Proof.
  unfold counted. cbn [reply_count replies push_reply]. intros ->.
  rewrite length_app. cbn [List.length]. lia.
Qed.

Lemma counted_drop commentId c : counted (drop_reply commentId c).
Proof. reflexivity. Qed.

Lemma counted_insert m i c :
  all_counted m -> counted c -> all_counted (<[i := c]> m).
Proof.
  intros Hm Hc j d. destruct (decide (i = j)) as [<- | Hne].
  - rewrite lookup_insert_eq. intros [= <-]. exact Hc.
  - rewrite lookup_insert_ne by exact Hne. apply Hm.
Qed.

Lemma after_counters call w : counters_kept w -> counters_kept (after call w).
Proof.
  unfold counters_kept. intros Hw.
  assert (Hcreate : forall env userId dto,
             all_counted (comments (snd (createComment env userId dto w)))).
  { intros env userId dto.
    destruct (createComment_store env userId dto w)
      as [Hsame | (product & user & _ & _ & Hfresh & _
                   & [Hm' | (parent & pc & Hpc & _ & _ & Hm')])];
      cbv zeta in *; rewrite ?Hsame, ?Hm'; [exact Hw | |].
    - apply counted_insert; [exact Hw | reflexivity].
    - apply counted_insert.
      + apply counted_insert; [exact Hw | reflexivity].
      + apply counted_push. eapply Hw, Hpc. }
  destruct call as [env userId dto | env commentId userId dto
                   | env commentId userId isAdmin | env commentId userId dto];
    cbn [after].
  - apply Hcreate.
  - destruct (updateComment_store env commentId userId dto w)
      as [Hsame | (j & d & s & _ & Hd & _ & _ & _ & _ & Hm')];
      cbv zeta in *; rewrite ?Hsame, ?Hm'; [exact Hw |].
    apply counted_insert; [exact Hw | apply (Hw j d Hd)].
  - destruct (deleteComment_store env commentId userId isAdmin w)
      as [Hsame | (j & d & _ & Hd & _ & _ & [Hm' | (p & pc & _ & Hpc & Hm')])];
      cbv zeta in *; rewrite ?Hsame, ?Hm'; [exact Hw | |].
    + apply counted_insert; [exact Hw | apply (Hw j d Hd)].
    + apply counted_insert; [| apply counted_drop].
      apply counted_insert; [exact Hw | apply (Hw j d Hd)].
  - destruct (adminReplyComment_store env commentId userId dto w)
      as [-> | [dto' ->]]; [exact Hw | apply Hcreate].
Qed.

(** X4. The counter agrees with the list. In every world the service leads
    to from an empty collection of comments, the [reply_count] of each
    stored comment is the length of its [replies]. *)
Theorem reachable_counters (w : World) (i : ObjectId) (c : Comment) :
  reachable w ->
  comments w !! i = Some c ->
  reply_count c = Z.of_nat (List.length (replies c)).
Proof.
  intros Hw. revert i c. change (counters_kept w).
  induction Hw as [us ps | call w Hw IH | us ps w Hw IH].
  - intros i c Hc. cbn [comments] in Hc. rewrite lookup_empty in Hc.
    discriminate.
  - apply after_counters, IH.
  - exact IH.
Qed.

Lemma reachable_counters_witness :
  reachable Shop.first_day
  /\ comments Shop.first_day !! Shop.oid Shop.opinion = Some Shop.the_opinion
  /\ reply_count Shop.the_opinion
     = Z.of_nat (List.length (replies Shop.the_opinion)).
Proof.
  assert (Hc : comments Shop.first_day !! Shop.oid Shop.opinion
               = Some Shop.the_opinion) by (vm_compute; reflexivity).
  split; [apply first_day_reachable |]. split; [exact Hc |].
  apply (reachable_counters Shop.first_day (Shop.oid Shop.opinion)
           Shop.the_opinion first_day_reachable Hc).
Defined.

(** A write that keeps the parent of a comment and lists no new reply. *)
Lemma children_insert m i old c :
  children_listed m ->
  m !! i = Some old ->
  parent_id c = parent_id old ->
  NoDup (replies c) ->
  (forall r, In r (replies c) -> In r (replies old)) ->
  children_listed (<[i := c]> m).
Proof.
  intros Hm Hold Hparent Hdistinct Hsub p pc Hpc.
  assert (Hchild : forall q r d,
             m !! r = Some d -> parent_id d = Some q ->
             exists d', <[i := c]> m !! r = Some d' /\ parent_id d' = Some q).
  { intros q r d Hd Hq. destruct (decide (i = r)) as [<- | Hne].
    - exists c. rewrite lookup_insert_eq. split; [reflexivity | congruence].
    - exists d. rewrite lookup_insert_ne by exact Hne. auto. }
  destruct (decide (i = p)) as [<- | Hne].
  - rewrite lookup_insert_eq in Hpc. injection Hpc as <-.
    split; [exact Hdistinct |]. intros r Hr.
    destruct (Hm i old Hold) as [_ Hold_children].
    destruct (Hold_children r (Hsub r Hr)) as (d & Hd & Hq). eauto.
  - rewrite lookup_insert_ne in Hpc by exact Hne.
    destruct (Hm p pc Hpc) as [Hnd Hchildren]. split; [exact Hnd |].
    intros r Hr. destruct (Hchildren r Hr) as (d & Hd & Hq). eauto.
Qed.

(** The insert of a new comment that lists no reply. *)
Lemma children_insert_fresh m i c :
  children_listed m ->
  m !! i = None ->
  replies c = [] ->
  children_listed (<[i := c]> m).
Proof.
  intros Hm Hfresh Hnone p pc Hpc.
  destruct (decide (i = p)) as [<- | Hne].
  - rewrite lookup_insert_eq in Hpc. injection Hpc as <-. rewrite Hnone.
    split; [constructor | intros r []].
  - rewrite lookup_insert_ne in Hpc by exact Hne.
    destruct (Hm p pc Hpc) as [Hnd Hchildren]. split; [exact Hnd |].
    intros r Hr. destruct (Hchildren r Hr) as (d & Hd & Hq).
    exists d. split; [| exact Hq].
    rewrite lookup_insert_ne by congruence. exact Hd.
Qed.

(** The push of a stored child that the parent does not list yet. *)
Lemma children_push env m p pc r c :
  children_listed m ->
  m !! p = Some pc ->
  m !! r = Some c ->
  parent_id c = Some p ->
  ~ In r (replies pc) ->
  children_listed (<[p := push_reply env r pc]> m).
Proof.
  intros Hm Hpc Hc Hparent Hnew q qc Hqc.
  assert (Hchild : forall q' r' d,
             m !! r' = Some d -> parent_id d = Some q' ->
             exists d', <[p := push_reply env r pc]> m !! r' = Some d'
                        /\ parent_id d' = Some q').
  { intros q' r' d Hd Hq'. destruct (decide (p = r')) as [<- | Hne].
    - exists (push_reply env r pc). rewrite lookup_insert_eq.
      split; [reflexivity |]. cbn [parent_id push_reply]. congruence.
    - exists d. rewrite lookup_insert_ne by exact Hne. auto. }
  destruct (decide (p = q)) as [<- | Hne].
  - rewrite lookup_insert_eq in Hqc. injection Hqc as <-.
    destruct (Hm p pc Hpc) as [Hnd Hchildren].
    cbn [replies push_reply]. split.
    + apply NoDup_app. split; [exact Hnd |]. split.
      * intros x Hx Hx'. apply list_elem_of_In in Hx.
        apply list_elem_of_singleton in Hx'. subst x. contradiction.
      * apply NoDup_singleton.
    + intros x Hx. apply in_app_or in Hx as [Hx | [<- | []]].
      * destruct (Hchildren x Hx) as (d & Hd & Hq). eauto.
      * eauto.
  - rewrite lookup_insert_ne in Hqc by exact Hne.
    destruct (Hm q qc Hqc) as [Hnd Hchildren]. split; [exact Hnd |].
    intros x Hx. destruct (Hchildren x Hx) as (d & Hd & Hq). eauto.
Qed.

Lemma after_children call w :
  replies_are_children w -> replies_are_children (after call w).
Proof.
  unfold replies_are_children. intros Hw.
  assert (Hcreate : forall env userId dto,
             children_listed (comments (snd (createComment env userId dto w)))).
  { intros env userId dto.
    destruct (createComment_store env userId dto w)
      as [Hsame | (product & user & _ & _ & Hfresh & _
                   & [Hm' | (parent & pc & Hpc & _ & _ & Hm')])];
      cbv zeta in *; rewrite ?Hsame, ?Hm'; [exact Hw | |].
    - apply children_insert_fresh; [exact Hw | exact Hfresh | reflexivity].
    - assert (Hne : fresh_id env <> parent) by congruence.
      eapply children_push.
      + apply children_insert_fresh; [exact Hw | exact Hfresh | reflexivity].
      + rewrite lookup_insert_ne by exact Hne. exact Hpc.
      + apply lookup_insert_eq.
      + reflexivity.
      + intros Hin. destruct (Hw parent pc Hpc) as [_ Hchildren].
        destruct (Hchildren _ Hin) as (d & Hd & _). congruence. }
  destruct call as [env userId dto | env commentId userId dto
                   | env commentId userId isAdmin | env commentId userId dto];
    cbn [after].
  - apply Hcreate.
  - destruct (updateComment_store env commentId userId dto w)
      as [Hsame | (j & d & s & _ & Hd & _ & _ & _ & _ & Hm')];
      cbv zeta in *; rewrite ?Hsame, ?Hm'; [exact Hw |].
    destruct (Hw j d Hd) as [Hnd _].
    eapply children_insert; [exact Hw | exact Hd | reflexivity | exact Hnd | auto].
  - destruct (deleteComment_store env commentId userId isAdmin w)
      as [Hsame | (j & d & _ & Hd & _ & _ & [Hm' | (p & pc & _ & Hpc & Hm')])];
      cbv zeta in *; rewrite ?Hsame, ?Hm'; [exact Hw | |].
    + destruct (Hw j d Hd) as [Hnd _].
      eapply children_insert; [exact Hw | exact Hd | reflexivity | exact Hnd | auto].
    + assert (Hm1 : children_listed
                      (<[j := set_updated_at (now env) (set_is_deleted d)]>
                         (comments w))).
      { destruct (Hw j d Hd) as [Hnd _].
        eapply children_insert;
          [exact Hw | exact Hd | reflexivity | exact Hnd | auto]. }
      destruct (Hm1 p pc Hpc) as [Hnd _].
      eapply children_insert; [exact Hm1 | exact Hpc | reflexivity | |].
      * cbn [replies set_updated_at drop_reply]. unfold kept_replies.
        apply NoDup_ListNoDup, List.NoDup_filter, NoDup_ListNoDup, Hnd.
      * cbn [replies set_updated_at drop_reply]. unfold kept_replies.
        intros r Hr. apply filter_In in Hr. tauto.
  - destruct (adminReplyComment_store env commentId userId dto w)
      as [-> | [dto' ->]]; [exact Hw | apply Hcreate].
Qed.

(** X5. The list of replies holds children only. In every world the
    service leads to from an empty collection of comments, the [replies]
    of a stored comment holds no id twice, and each id in it is that of
    a stored comment whose [parent_id] is this comment. *)
Theorem reachable_replies_are_children
    (w : World) (p : ObjectId) (pc : Comment) :
  reachable w ->
  comments w !! p = Some pc ->
  NoDup (replies pc)
  /\ forall r, In r (replies pc) ->
               exists c, comments w !! r = Some c /\ parent_id c = Some p.
Proof.
  intros Hw. revert p pc. change (replies_are_children w).
  induction Hw as [us ps | call w Hw IH | us ps w Hw IH].
  - intros p pc Hpc. cbn [comments] in Hpc. rewrite lookup_empty in Hpc.
    discriminate.
  - apply after_children, IH.
  - exact IH.
Qed.

Lemma reachable_replies_are_children_witness :
  NoDup (replies Shop.the_opinion)
  /\ forall r, In r (replies Shop.the_opinion) ->
               exists c, comments Shop.first_day !! r = Some c
                         /\ parent_id c = Some (Shop.oid Shop.opinion).
Proof.
  apply (reachable_replies_are_children Shop.first_day (Shop.oid Shop.opinion)
           Shop.the_opinion first_day_reachable).
  vm_compute. reflexivity.
Defined.

(** ** Sorting and paging *)

(** The order of a listing: newest first when [descending], else oldest
    first. *)
Lemma place_permutation descending x l : place descending x l ≡ₚ x :: l.
Proof.
  induction l as [| y l IH]; cbn [place]; [reflexivity |].
  destruct (if descending then _ else _); [reflexivity |].
  rewrite IH. apply Permutation_swap.
Qed.

Lemma sort_created_at_permutation descending l :
  sort_created_at descending l ≡ₚ l.
Proof.
  unfold sort_created_at. induction l as [| x l IH]; cbn [foldr]; [reflexivity |].
  rewrite place_permutation, IH. reflexivity.
Qed.

Lemma place_sorted descending x l :
  StronglySorted (in_order descending) l ->
  StronglySorted (in_order descending) (place descending x l).
Proof.
  induction l as [| y l IH]; intros Hl; cbn [place].
  - repeat constructor.
  - apply StronglySorted_inv in Hl as [Hl Hy].
    destruct (if descending then _ else _) eqn:Hplace.
    + constructor; [constructor; assumption |].
      assert (Hxy : in_order descending x y).
      { unfold in_order. destruct descending; apply Z.ltb_lt in Hplace; lia. }
      constructor; [exact Hxy |].
      eapply Forall_impl; [exact Hy |]. intros z Hyz.
      unfold in_order in *. destruct descending; lia.
    + constructor; [apply IH, Hl |].
      rewrite place_permutation. constructor; [| exact Hy].
      unfold in_order. destruct descending; apply Z.ltb_ge in Hplace; lia.
Qed.

Lemma sort_created_at_sorted descending l :
  StronglySorted (in_order descending) (sort_created_at descending l).
Proof.
  unfold sort_created_at. induction l as [| x l IH]; cbn [foldr].
  - constructor.
  - apply place_sorted, IH.
Qed.

Lemma StronglySorted_sublist_of {A} (R : A -> A -> Prop) (l1 l2 : list A) :
  l1 `sublist_of` l2 -> StronglySorted R l2 -> StronglySorted R l1.
Proof.
  induction 1 as [| x l1 l2 Hsub IH | x l1 l2 Hsub IH]; intros Hl2.
  - constructor.
  - apply StronglySorted_inv in Hl2 as [Hl2 Hx].
    constructor; [apply IH, Hl2 |].
    apply Forall_forall. intros y Hy.
    rewrite Forall_forall in Hx. apply Hx. eapply elem_of_sublist; eassumption.
  - apply StronglySorted_inv in Hl2 as [Hl2 _]. apply IH, Hl2.
Qed.

Lemma StronglySorted_map {A B} (R : A -> A -> Prop) (R' : B -> B -> Prop)
    (f : A -> B) (l : list A) :
  (forall a b, R a b -> R' (f a) (f b)) ->
  StronglySorted R l -> StronglySorted R' (List.map f l).
Proof.
  intros Hf. induction 1 as [| x l Hl IH Hx]; cbn [List.map]; constructor.
  - exact IH.
  - apply Forall_forall. intros y Hy. apply list_elem_of_In, in_map_iff in Hy.
    destruct Hy as (a & <- & Ha). apply Hf.
    rewrite Forall_forall in Hx. apply Hx, list_elem_of_In, Ha.
Qed.

(** What [find] finds. *)
Lemma elem_of_find (q : Comment -> bool) (w : World) (d : ObjectId * Comment) :
  d ∈ find q w <-> comments w !! fst d = Some (snd d) /\ q (snd d) = true.
Proof.
  unfold find. rewrite list_elem_of_In, filter_In, <- list_elem_of_In.
  destruct d as [i c]. rewrite elem_of_map_to_list. reflexivity.
Qed.

Lemma find_ids_distinct (q : Comment -> bool) (w : World) :
  NoDup (List.map fst (find q w)).
Proof.
  unfold find.
  eapply sublist_NoDup; [apply (NoDup_fst_map_to_list (comments w)) |].
  apply (fmap_sublist fst).
  induction (map_to_list (comments w)) as [| d l IH]; cbn [List.filter].
  - constructor.
  - destruct (q (snd d)); [constructor 2 | constructor 3]; exact IH.
Qed.

(** A page of a sorted query: the world is left as it was; the page is
    a part of the sorted matches, in their order, of [limit] comments at
    most. *)
Lemma page_of_matches (q : Comment -> bool) (descending : bool) (s n : Z)
    (w w' : World) (paged : list (ObjectId * Comment)) :
  skip_limit s n (sort_created_at descending (find q w)) w = (Ok paged, w') ->
  w' = w
  /\ 0 <= s
  /\ paged = (if n =? 0 then drop (Z.to_nat s)
                                 (sort_created_at descending (find q w))
              else take (Z.to_nat (Z.abs n))
                     (drop (Z.to_nat s) (sort_created_at descending (find q w))))
  /\ paged `sublist_of` sort_created_at descending (find q w)
  /\ Forall (fun d => comments w !! fst d = Some (snd d) /\ q (snd d) = true) paged
  /\ StronglySorted (in_order descending) paged
  /\ NoDup (List.map fst paged)
  /\ (0 < n -> Z.of_nat (List.length paged) <= n).
Proof.
  unfold skip_limit. destruct (Z.ltb_spec s 0) as [| Hs]; [discriminate |].
  intros [= <- <-]. split; [reflexivity |]. split; [exact Hs |].
  split; [destruct (n =? 0); reflexivity |].
  set (matches := sort_created_at descending (find q w)).
  assert (Hsub : (if n =? 0 then drop (Z.to_nat s) matches
                  else take (Z.to_nat (Z.abs n)) (drop (Z.to_nat s) matches))
                 `sublist_of` matches).
  { destruct (n =? 0); [apply sublist_drop |].
    etransitivity; [apply sublist_take | apply sublist_drop]. }
  split; [exact Hsub |]. split; [| split; [| split]].
  - apply Forall_forall. intros d Hd.
    apply elem_of_find. rewrite <- (sort_created_at_permutation descending).
    eapply elem_of_sublist; eassumption.
  - eapply StronglySorted_sublist_of; [exact Hsub |].
    apply sort_created_at_sorted.
  - eapply sublist_NoDup; [| apply (fmap_sublist fst), Hsub].
    subst matches. rewrite sort_created_at_permutation.
    apply find_ids_distinct.
  - intros Hn. destruct (Z.eqb_spec n 0) as [| _]; [lia |].
    rewrite length_take. lia.
Qed.

(** The views of a page, whatever the references they carry. *)
Lemma views_of_page (q : Comment -> bool) (descending : bool) (w : World)
    (product : Comment -> Ref ProductSummary) (user : Comment -> Ref User)
    (paged : list (ObjectId * Comment)) :
  Forall (fun d => comments w !! fst d = Some (snd d) /\ q (snd d) = true) paged ->
  StronglySorted (in_order descending) paged ->
  NoDup (List.map fst paged) ->
  let views :=
    List.map (fun d => select (fst d) (snd d) (product (snd d)) (user (snd d)))
             paged in
  Forall (shows w q) views
  /\ StronglySorted (views_in_order descending) views
  /\ NoDup (List.map view_id views)
  /\ List.length views = List.length paged.
Proof.
  intros Hfound Hsorted Hdistinct views. subst views. split; [| split; [| split]].
  - apply Forall_forall. intros v Hv.
    apply list_elem_of_In, in_map_iff in Hv as (d & <- & Hd).
    rewrite Forall_forall in Hfound.
    destruct (Hfound d (proj2 (list_elem_of_In _ _) Hd)) as [Hstored Hq].
    exists (snd d). cbn [select view_id view_content view_parent_id
                           view_reply_count view_created_at].
    repeat split; assumption.
  - eapply StronglySorted_map; [| exact Hsorted]. intros a b Hab. exact Hab.
  - rewrite List.map_map. cbn [select view_id]. exact Hdistinct.
  - apply List.length_map.
Qed.

(** X6. What a page of [getReplies] shows. A call that succeeds writes
    nothing; each comment of the page is a stored comment that is not
    deleted and whose parent is the id asked for, shown with its
    content; the page is in the order of creation, oldest first; it
    shows no comment twice; it holds at most [limit] comments when
    [limit] is positive, and never more than the total it reports. *)
Theorem getReplies_lists_live_replies
    (commentId : string) (page limit : Z) (w w' : World) (pg : Page.t)
    (parent : ObjectId) :
  ObjectId.parse commentId = Some parent ->
  getReplies commentId page limit w = (Ok pg, w') ->
  w' = w
  /\ Forall (fun v => exists c,
               comments w !! view_id v = Some c
               /\ parent_id c = Some parent
               /\ is_deleted c = false
               /\ view_content v = content c)
            (Page.comments pg)
  /\ StronglySorted (fun a b => view_created_at a <= view_created_at b)
                    (Page.comments pg)
  /\ NoDup (List.map view_id (Page.comments pg))
  /\ (0 < limit -> Z.of_nat (List.length (Page.comments pg)) <= limit)
  /\ Z.of_nat (List.length (Page.comments pg)) <= total (Page.pagination pg).
Proof.
  intros Hparse. unfold getReplies.
  rewrite (parse_isValid _ _ Hparse). cbn [negb].
  unfold new_ObjectId. rewrite Hparse. go.
  destruct (skip_limit _ _ _ w) as [[paged | e] w1] eqn:Hpaged;
    [| discriminate].
  apply page_of_matches in Hpaged
    as (-> & _ & _ & Hsub & Hfound & Hsorted & Hdistinct & Hlimit).
  intros [= <- <-].
  cbn [Page.comments Page.pagination total].
  destruct (views_of_page (is_reply_of parent) false w
              (fun c => Raw (product_id c))
              (fun c => Joined (populate_user (user_id c) w))
              paged Hfound Hsorted Hdistinct)
    as (Hshown & Hviews & Hids & Hlength).
  cbv zeta in *. split; [reflexivity |]. split; [| split; [| split; [| split]]].
  - eapply Forall_impl; [exact Hshown |].
    intros v (c & Hc & Hq & Hcontent & _). exists c.
    unfold is_reply_of in Hq. apply andb_true_iff in Hq as [Hp Hlive].
    apply bool_decide_eq_true in Hp. apply negb_true_iff in Hlive. auto.
  - exact Hviews.
  - exact Hids.
  - intros Hpos. rewrite Hlength. apply Hlimit, Hpos.
  - rewrite Hlength. unfold countDocuments.
    apply sublist_length in Hsub.
    rewrite (Permutation_length (sort_created_at_permutation false _)) in Hsub.
    lia.
Qed.

Lemma getReplies_lists_live_replies_witness :
  exists pg,
    fst (getReplies Shop.opinion 1 10 Shop.world) = Ok pg
    /\ Forall (fun v => exists c,
                 comments Shop.world !! view_id v = Some c
                 /\ parent_id c = Some (Shop.oid Shop.opinion)
                 /\ is_deleted c = false
                 /\ view_content v = content c)
              (Page.comments pg)
    /\ total (Page.pagination pg) = 1.
Proof.
  destruct (getReplies Shop.opinion 1 10 Shop.world) as [[pg | e] w'] eqn:Hrun;
    [| vm_compute in Hrun; discriminate Hrun].
  destruct (getReplies_lists_live_replies Shop.opinion 1 10 Shop.world w' pg
              (Shop.oid Shop.opinion)) as (_ & Hshown & _);
    [vm_compute; reflexivity | exact Hrun |].
  exists pg. split; [reflexivity |]. split; [exact Hshown |].
  vm_compute in Hrun. injection Hrun as <- _. reflexivity.
Defined.

(** The filter on the parent: the id asked for, or the refusal of an id
    that is not well formed. *)
Lemma parent_filter_cases (parent_id : option string) (w : World) :
  (exists parent,
     parent_filter parent_id w = (Ok parent, w)
     /\ match truthy parent_id with
        | Some p => ObjectId.parse p = parent
        | None => parent = None
        end)
  \/ parent_filter parent_id w
     = (Throw (BadRequestException "parent_id is invalid"), w).
Proof.
  unfold parent_filter. destruct (truthy parent_id) as [p|]; [| left; eauto].
  destruct (ObjectId.isValid p) eqn:Hp; cbn [negb]; [| right; reflexivity].
  apply isValid_parse in Hp as [o Ho]. unfold new_ObjectId. rewrite Ho.
  left. exists (Some o). split; reflexivity.
Qed.

(** X7. What a page of [getCommentsByProduct] shows. A call that succeeds
    was given a well-formed [product_id] and writes nothing; each comment
    of the page is stored, not deleted, on that product, and has the
    parent asked for, which is none when the request names no
    [parent_id]; the page is newest first and shows no comment twice; it
    reports the page 1 and the limit 10 that a request leaves out, and
    holds at most [limit] comments when [limit] is positive. *)
Theorem getCommentsByProduct_lists_product
    (dto : GetCommentsDto.t) (w w' : World) (pg : Page.t) :
  getCommentsByProduct dto w = (Ok pg, w') ->
  exists (product : ObjectId) (parent : option ObjectId),
    (exists s, truthy (GetCommentsDto.product_id dto) = Some s
               /\ ObjectId.parse s = Some product)
    /\ match truthy (GetCommentsDto.parent_id dto) with
       | Some p => ObjectId.parse p = parent
       | None => parent = None
       end
    /\ w' = w
    /\ Forall (fun v => exists c,
                 comments w !! view_id v = Some c
                 /\ product_id c = product
                 /\ parent_id c = parent
                 /\ is_deleted c = false
                 /\ view_content v = content c)
              (Page.comments pg)
    /\ StronglySorted (fun a b => view_created_at b <= view_created_at a)
                      (Page.comments pg)
    /\ NoDup (List.map view_id (Page.comments pg))
    /\ page (Page.pagination pg) = default 1 (GetCommentsDto.page dto)
    /\ limit (Page.pagination pg) = default 10 (GetCommentsDto.limit dto)
    /\ (0 < limit (Page.pagination pg) ->
        Z.of_nat (List.length (Page.comments pg)) <= limit (Page.pagination pg)).
Proof.
  unfold getCommentsByProduct.
  destruct (truthy (GetCommentsDto.product_id dto)) as [s|] eqn:Hgiven;
    [| discriminate].
  destruct (ObjectId.isValid s) eqn:Hvalid; cbn [negb]; [| discriminate].
  apply isValid_parse in Hvalid as [product Hproduct].
  unfold new_ObjectId. rewrite Hproduct. go.
  destruct (parent_filter_cases (GetCommentsDto.parent_id dto) w)
    as [(parent & Hrun & Hparent) | Hrun]; rewrite Hrun; [| discriminate].
  destruct (skip_limit _ _ _ w) as [[paged | e] w1] eqn:Hpaged;
    [| discriminate].
  apply page_of_matches in Hpaged
    as (-> & _ & _ & Hsub & Hfound & Hsorted & Hdistinct & Hlimit).
  intros [= <- <-].
  cbn [Page.comments Page.pagination total page limit].
  destruct (views_of_page (product_query product parent) true w
              (fun c => Raw (product_id c))
              (fun c => Joined (populate_user (user_id c) w))
              paged Hfound Hsorted Hdistinct)
    as (Hshown & Hviews & Hids & Hlength).
  cbv zeta in *. exists product, parent.
  split; [eauto |]. split; [exact Hparent |].
  split; [reflexivity |]. split; [| split; [| split; [| split; [| split]]]].
  - eapply Forall_impl; [exact Hshown |].
    intros v (c & Hc & Hq & Hcontent & _). exists c.
    unfold product_query in Hq.
    apply andb_true_iff in Hq as [Hq Hp].
    apply andb_true_iff in Hq as [Hq Hlive].
    apply bool_decide_eq_true in Hp, Hq. apply negb_true_iff in Hlive. auto.
  - exact Hviews.
  - exact Hids.
  - reflexivity.
  - reflexivity.
  - intros Hpos. rewrite Hlength. apply Hlimit, Hpos.
Qed.

Lemma getCommentsByProduct_lists_product_witness :
  exists pg,
    fst (getCommentsByProduct
           {| GetCommentsDto.product_id := Some Shop.phone;
              GetCommentsDto.parent_id := None;
              GetCommentsDto.page := None;
              GetCommentsDto.limit := None |} Shop.world) = Ok pg
    /\ limit (Page.pagination pg) = 10
    /\ List.map view_id (Page.comments pg) = [Shop.oid Shop.opinion].
Proof.
  destruct (getCommentsByProduct _ Shop.world) as [[pg | e] w'] eqn:Hrun;
    [| vm_compute in Hrun; discriminate Hrun].
  destruct (getCommentsByProduct_lists_product _ _ _ _ Hrun)
    as (product & parent & _ & _ & _ & _ & _ & _ & _ & Hlimit & _).
  exists pg. split; [reflexivity |]. split; [exact Hlimit |].
  vm_compute in Hrun. injection Hrun as <- _. reflexivity.
Defined.

(** ** A property of every stored comment *)

Section Invariant.

Variable Q : Comment -> Prop.

Hypothesis Q_new : forall env product user text parent,
  trim text <> "" -> Q (new_comment env product user text parent).
Hypothesis Q_updated_at : forall t c, Q c -> Q (set_updated_at t c).
Hypothesis Q_push : forall env r c, Q c -> Q (push_reply env r c).
Hypothesis Q_content : forall s c, trim s <> "" -> Q c -> Q (set_content s c).
Hypothesis Q_delete : forall c, Q c -> Q (set_is_deleted c).
Hypothesis Q_drop : forall commentId c, Q c -> Q (drop_reply commentId c).

Lemma all_insert (m : gmap ObjectId Comment) i c :
  map_Forall (fun _ => Q) m -> Q c -> map_Forall (fun _ => Q) (<[i := c]> m).
Proof. intros Hm Hc. apply map_Forall_insert_2; assumption. Qed.

Lemma createComment_all env userId dto w :
  map_Forall (fun _ => Q) (comments w) ->
  map_Forall (fun _ => Q) (comments (snd (createComment env userId dto w))).
Proof using Q_new Q_push.
  intros Hw.
  destruct (createComment_store env userId dto w)
    as [Hsame | (product & user & _ & _ & Hfresh & Htext
                 & [Hm' | (parent & pc & Hpc & _ & _ & Hm')])];
    cbv zeta in *; rewrite ?Hsame, ?Hm'; [exact Hw | |].
  - apply all_insert; [exact Hw | apply Q_new, Htext].
  - apply all_insert; [apply all_insert; [exact Hw | apply Q_new, Htext] |].
    apply Q_push, (Hw parent pc Hpc).
Qed.

Lemma after_all call w :
  map_Forall (fun _ => Q) (comments w) ->
  map_Forall (fun _ => Q) (comments (after call w)).
Proof using Q_new Q_updated_at Q_push Q_content Q_delete Q_drop.
  intros Hw.
  destruct call as [env userId dto | env commentId userId dto
                   | env commentId userId isAdmin | env commentId userId dto];
    cbn [after].
  - apply createComment_all, Hw.
  - destruct (updateComment_store env commentId userId dto w)
      as [Hsame | (i & c & s & _ & Hc & _ & _ & _ & Hs & Hm')];
      cbv zeta in *; rewrite ?Hsame, ?Hm'; [exact Hw |].
    apply all_insert; [exact Hw |].
    apply Q_updated_at, Q_content; [exact Hs | apply (Hw i c Hc)].
  - destruct (deleteComment_store env commentId userId isAdmin w)
      as [Hsame | (i & c & _ & Hc & _ & _ & [Hm' | (p & pc & _ & Hpc & Hm')])];
      cbv zeta in *; rewrite ?Hsame, ?Hm'; [exact Hw | |].
    + apply all_insert; [exact Hw |]. apply Q_updated_at, Q_delete, (Hw i c Hc).
    + assert (Hm1 : map_Forall (fun _ => Q)
                      (<[i := set_updated_at (now env) (set_is_deleted c)]>
                         (comments w))).
      { apply all_insert; [exact Hw |].
        apply Q_updated_at, Q_delete, (Hw i c Hc). }
      apply all_insert; [exact Hm1 |].
      apply Q_updated_at, Q_drop, (Hm1 p pc Hpc).
  - destruct (adminReplyComment_store env commentId userId dto w)
      as [-> | [dto' ->]]; [exact Hw | apply createComment_all, Hw].
Qed.

Lemma reachable_all w : reachable w -> map_Forall (fun _ => Q) (comments w).
Proof using Q_new Q_updated_at Q_push Q_content Q_delete Q_drop.
  induction 1 as [us ps | call w Hw IH | us ps w Hw IH].
  - cbn [comments]. apply map_Forall_empty.
  - apply after_all, IH.
  - exact IH.
Qed.

End Invariant.

(** X8. No stored comment is blank. In every world the service leads to
    from an empty collection of comments, the content of each stored
    comment is not empty, so that the document passes the validation of
    the schema. *)
Theorem reachable_content_present (w : World) (i : ObjectId) (c : Comment) :
  reachable w ->
  comments w !! i = Some c ->
  content c <> "" /\ validate c = true.
Proof.
  intros Hw Hc.
  assert (H : content c <> "").
  { revert i c Hc. apply (reachable_all (fun c => content c <> "")); auto. }
  split; [exact H |]. unfold validate.
  apply negb_true_iff, String.eqb_neq, H.
Qed.

Lemma reachable_content_present_witness :
  content Shop.the_opinion <> "" /\ validate Shop.the_opinion = true.
Proof.
  apply (reachable_content_present Shop.first_day (Shop.oid Shop.opinion)
           Shop.the_opinion first_day_reachable).
  vm_compute. reflexivity.
Defined.

(** ** What a deletion does *)

(** A deletion that succeeds: the comment was stored and not deleted,
    the caller is its author or an admin, and the world is the one with
    the comment marked, and then its parent, if it is stored and lists
    the id as given, recounted. *)
Lemma deleteComment_done env commentId userId isAdmin w w' msg :
  deleteComment env commentId userId isAdmin w = (Ok msg, w') ->
  exists i c,
    ObjectId.parse commentId = Some i
    /\ comments w !! i = Some c
    /\ is_deleted c = false
    /\ (isAdmin = true \/ ObjectId.toString (user_id c) = userId)
    /\ msg = "Comment deleted successfully"
    /\ let w1 := set_comments
                   <[i := set_updated_at (now env) (set_is_deleted c)]> w in
       w' = w1
       \/ exists p pc,
            parent_id c = Some p
            /\ comments w1 !! p = Some pc
            /\ w' = set_comments
                      <[p := set_updated_at (now env) (drop_reply commentId pc)]>
                      w1.
Proof.
  unfold deleteComment.
  destruct (ObjectId.isValid commentId) eqn:Hvalid; cbn [negb];
    [| discriminate].
  apply isValid_parse in Hvalid as [comment_id Hparse].
  unfold new_ObjectId, findOne_active. rewrite Hparse. go.
  destruct (comments w !! comment_id) as [c|] eqn:Hstored; [| discriminate].
  destruct (is_deleted c) eqn:Hlive; [discriminate |].
  destruct (negb isAdmin && negb (String.eqb (ObjectId.toString (user_id c)) userId))
    eqn:Hallowed; [discriminate |].
  assert (Hwho : isAdmin = true \/ ObjectId.toString (user_id c) = userId).
  { apply andb_false_iff in Hallowed as [H | H]; apply negb_false_iff in H;
      [left; exact H | right; apply String.eqb_eq, H]. }
  destruct (save env comment_id c (set_is_deleted c) w) as [r w1] eqn:Hsave.
  unfold save in Hsave.
  destruct (validate (set_is_deleted c)); cbn [negb] in Hsave;
    [| injection Hsave as <- <-; discriminate].
  destruct (decide (set_is_deleted c = c)) as [Hsame | _].
  { apply (f_equal is_deleted) in Hsame. cbn in Hsame. congruence. }
  unfold modify in Hsave. injection Hsave as <- <-.
  intros Hrun. exists comment_id, c.
  do 4 (split; [first [assumption | reflexivity] |]).
  cbv zeta. revert Hrun.
  set (w1 := set_comments
               <[comment_id := set_updated_at (now env) (set_is_deleted c)]> w).
  destruct (parent_id c) as [parent|].
  2: { intros [= <- <-]. split; [reflexivity | left; reflexivity]. }
  unfold findById. go.
  destruct (comments w1 !! parent) as [pc|] eqn:Hpc.
  2: { intros [= <- <-]. split; [reflexivity | left; reflexivity]. }
  unfold save. destruct (validate (drop_reply commentId pc)); cbn [negb];
    [| discriminate].
  destruct (decide (drop_reply commentId pc = pc)).
  - intros [= <- <-]. split; [reflexivity | left; reflexivity].
  - unfold modify. intros [= <- <-]. split; [reflexivity |].
    right. exists parent, pc. auto.
Qed.

(** The deleted comment in the world a deletion leads to. *)
Lemma deleteComment_marks env commentId userId isAdmin w w' msg :
  deleteComment env commentId userId isAdmin w = (Ok msg, w') ->
  exists i c c',
    ObjectId.parse commentId = Some i
    /\ comments w !! i = Some c
    /\ comments w' !! i = Some c'
    /\ is_deleted c' = true.
Proof.
  intros Hrun.
  destruct (deleteComment_done _ _ _ _ _ _ _ Hrun)
    as (i & c & Hparse & Hc & _ & _ & _ & [-> | (p & pc & _ & Hpc & ->)]);
    cbv zeta in *.
  - exists i, c. eexists. cbn [comments set_comments].
    rewrite lookup_insert_eq. auto.
  - cbn [comments set_comments] in *. destruct (decide (p = i)) as [-> | Hne].
    + rewrite lookup_insert_eq in Hpc. injection Hpc as <-.
      exists i, c. eexists. rewrite lookup_insert_eq. auto.
    + exists i, c. eexists. rewrite lookup_insert_ne by exact Hne.
      rewrite lookup_insert_eq. auto.
Qed.

(** X9. A deleted comment is gone for every call that names it. After a
    deletion that succeeds, [getCommentById], [updateComment],
    [deleteComment] and [adminReplyComment] of the same id answer that
    the comment is not found, and [createComment] of a reply to it that
    the parent is not found; none of them writes. *)
Theorem deleteComment_hides_comment
    (env : Env) (commentId userId : string) (isAdmin : bool) (w w' : World)
    (msg : string) :
  deleteComment env commentId userId isAdmin w = (Ok msg, w') ->
  getCommentById commentId w'
  = (Throw (NotFoundException "Comment not found"), w')
  /\ (forall env' userId' dto,
        updateComment env' commentId userId' dto w'
        = (Throw (NotFoundException "Comment not found"), w'))
  /\ (forall env' userId' isAdmin',
        deleteComment env' commentId userId' isAdmin' w'
        = (Throw (NotFoundException "Comment not found"), w'))
  /\ (forall env' userId' dto,
        ObjectId.isValid (CreateCommentDto.product_id dto) = true ->
        truthy (CreateCommentDto.parent_id dto) = Some commentId ->
        createComment env' userId' dto w'
        = (Throw (NotFoundException "Parent comment not found"), w'))
  /\ (forall env' userId' dto,
        adminReplyComment env' commentId userId' dto w'
        = (Throw (NotFoundException "Comment not found"), w')).
Proof.
  intros Hrun.
  destruct (deleteComment_marks _ _ _ _ _ _ _ Hrun)
    as (i & c & c' & Hparse & _ & Hc' & Hdeleted).
  pose proof (parse_isValid _ _ Hparse) as Hvalid.
  split; [| split; [| split; [| split]]].
  - unfold getCommentById, new_ObjectId, findOne_active.
    rewrite Hvalid, Hparse. cbn [negb]. go. rewrite Hc', Hdeleted. reflexivity.
  - intros env' userId' dto.
    unfold updateComment, new_ObjectId, findOne_active.
    rewrite Hvalid, Hparse. cbn [negb]. go. rewrite Hc', Hdeleted. reflexivity.
  - intros env' userId' isAdmin'.
    unfold deleteComment, new_ObjectId, findOne_active.
    rewrite Hvalid, Hparse. cbn [negb]. go. rewrite Hc', Hdeleted. reflexivity.
  - intros env' userId' dto Hproduct Hparent.
    unfold createComment, new_ObjectId, findOne_active.
    rewrite Hproduct, Hparent, Hvalid, Hparse. cbn [negb]. go.
    rewrite Hc', Hdeleted. reflexivity.
  - intros env' userId' dto.
    unfold adminReplyComment, new_ObjectId, findOne_active.
    rewrite Hvalid, Hparse. cbn [negb]. go. rewrite Hc', Hdeleted. reflexivity.
Qed.

Lemma deleteComment_hides_comment_witness :
  getCommentById Shop.answer Shop.after_removal
  = (Throw (NotFoundException "Comment not found"), Shop.after_removal).
Proof.
  destruct (deleteComment Shop.env Shop.answer Shop.bob false Shop.world)
    as [[msg | e] w'] eqn:Hrun; [| vm_compute in Hrun; discriminate Hrun].
  destruct (deleteComment_hides_comment _ _ _ _ _ _ _ Hrun) as (Hget & _).
  assert (Hw' : w' = Shop.after_removal).
  { unfold Shop.after_removal, Shop.removal, after. rewrite Hrun. reflexivity. }
  rewrite Hw' in Hget. exact Hget.
Defined.

(** X10. A deletion does not cascade. A deletion that succeeds leaves every
    comment other than the deleted one and its parent as it was — so
    the replies of a deleted top-level comment stay as they were — and
    it touches neither the users, nor the products, nor the two
    collaborators. *)
Theorem deleteComment_touches_comment_and_parent
    (env : Env) (commentId userId : string) (isAdmin : bool) (w w' : World)
    (msg : string) :
  deleteComment env commentId userId isAdmin w = (Ok msg, w') ->
  exists i c,
    ObjectId.parse commentId = Some i
    /\ comments w !! i = Some c
    /\ (forall j, j <> i -> parent_id c <> Some j ->
                  comments w' !! j = comments w !! j)
    /\ (forall r d, r <> i -> parent_id d = Some i -> parent_id c = None ->
                    comments w !! r = Some d -> comments w' !! r = Some d)
    /\ users w' = users w
    /\ products w' = products w
    /\ createNotification_calls w' = createNotification_calls w
    /\ notifyCommentReply_calls w' = notifyCommentReply_calls w.
Proof.
  intros Hrun.
  destruct (deleteComment_done _ _ _ _ _ _ _ Hrun)
    as (i & c & Hparse & Hc & _ & _ & _ & Hw').
  exists i, c. split; [exact Hparse |]. split; [exact Hc |].
  assert (Hframe : forall j, j <> i -> parent_id c <> Some j ->
                             comments w' !! j = comments w !! j).
  { intros j Hne Hparent. cbv zeta in Hw'.
    destruct Hw' as [-> | (p & pc & Hp & _ & ->)]; cbn [comments set_comments].
    - rewrite lookup_insert_ne by congruence. reflexivity.
    - rewrite !lookup_insert_ne by congruence. reflexivity. }
  split; [exact Hframe |]. split.
  { intros r d Hne _ Htop Hd. rewrite Hframe; [exact Hd | exact Hne |].
    rewrite Htop. discriminate. }
  cbv zeta in Hw'.
  destruct Hw' as [-> | (p & pc & _ & _ & ->)]; repeat split; reflexivity.
Qed.

Lemma deleteComment_touches_comment_and_parent_witness :
  comments (after Shop.removal Shop.world_with_note) !! Shop.oid Shop.note
  = Some Shop.the_note
  /\ users (after Shop.removal Shop.world_with_note)
     = users Shop.world_with_note.
Proof.
  destruct (deleteComment Shop.env Shop.answer Shop.bob false
              Shop.world_with_note)
    as [[msg | e] w'] eqn:Hrun; [| vm_compute in Hrun; discriminate Hrun].
  destruct (deleteComment_touches_comment_and_parent _ _ _ _ _ _ _ Hrun)
    as (i & c & Hparse & Hc & Hframe & _ & Husers & _).
  assert (Hw' : w' = after Shop.removal Shop.world_with_note).
  { unfold Shop.removal, after. rewrite Hrun. reflexivity. }
  assert (Hi : Some i = Some (Shop.oid Shop.answer))
    by (rewrite <- Hparse; vm_compute; reflexivity).
  injection Hi as ->.
  assert (Hanswer : Some c = Some Shop.the_answer)
    by (rewrite <- Hc; vm_compute; reflexivity).
  injection Hanswer as ->.
  rewrite Hw' in *. split; [| exact Husers].
  rewrite Hframe; [vm_compute; reflexivity | |]; vm_compute; discriminate.
Defined.

(** The documents of a world the service has led to pass the schema's
    validation. *)
Lemma reachable_valid (w : World) :
  reachable w -> map_Forall (fun _ c => validate c = true) (comments w).
Proof.
  assert (Hpresent : forall text, text <> "" ->
                                  negb (String.eqb text "") = true).
  { intros text Htext. apply negb_true_iff, String.eqb_neq, Htext. }
  apply (reachable_all (fun c => validate c = true)); unfold validate.
  - intros env product user text parent Htext. apply Hpresent, Htext.
  - intros t c Hc. exact Hc.
  - intros env r c Hc. exact Hc.
  - intros s c Hs _. apply Hpresent, Hs.
  - intros c Hc. exact Hc.
  - intros commentId c Hc. exact Hc.
Qed.

(** X11. Deleting a reply by its printed id takes it off the list of its
    parent. When [commentId] is the printed form of a 96-bit id, after a
    deletion that succeeds the [replies] of the stored parent no longer
    holds the id, holds nothing it did not hold, still holds every id
    that prints otherwise, and [reply_count] is its length. *)
Theorem deleteComment_printed_id_unlists_reply
    (env : Env) (userId : string) (isAdmin : bool) (w w' : World)
    (msg : string) (i p : ObjectId) (c pc : Comment) :
  (i < 2 ^ 96)%N ->
  deleteComment env (ObjectId.toString i) userId isAdmin w = (Ok msg, w') ->
  comments w !! i = Some c ->
  parent_id c = Some p ->
  comments w !! p = Some pc ->
  exists pc',
    comments w' !! p = Some pc'
    /\ ~ In i (replies pc')
    /\ (forall r, In r (replies pc') -> In r (replies pc))
    /\ (forall r, In r (replies pc) ->
                  ObjectId.toString r <> ObjectId.toString i ->
                  In r (replies pc'))
    /\ reply_count pc' = Z.of_nat (List.length (replies pc')).
Proof.
  intros Hsmall Hrun Hc Hparent Hpc.
  assert (Hparse : ObjectId.parse (ObjectId.toString i) = Some i).
  { rewrite parse_toString, N.mod_small by exact Hsmall. reflexivity. }
  destruct (deleteComment_recounts _ _ _ _ _ _ _ _ _ _ _
              Hrun Hparse Hc Hparent Hpc)
    as (_ & pc' & Hpc' & Hreplies & Hcount).
  exists pc'. split; [exact Hpc' |]. rewrite Hreplies.
  split; [apply kept_replies_drops; reflexivity |].
  split; [| split].
  - intros r Hr. unfold kept_replies in Hr. apply filter_In in Hr. tauto.
  - intros r Hr Hne. unfold kept_replies. apply filter_In. split; [exact Hr |].
    apply negb_true_iff, String.eqb_neq, Hne.
  - rewrite <- Hreplies. exact Hcount.
Qed.

Lemma deleteComment_printed_id_unlists_reply_witness :
  exists pc',
    comments Shop.after_removal !! Shop.oid Shop.opinion = Some pc'
    /\ ~ In (Shop.oid Shop.answer) (replies pc')
    /\ reply_count pc' = Z.of_nat (List.length (replies pc')).
Proof.
  destruct (deleteComment Shop.env (ObjectId.toString (Shop.oid Shop.answer))
              Shop.bob false Shop.world)
    as [[msg | e] w'] eqn:Hrun; [| vm_compute in Hrun; discriminate Hrun].
  destruct (deleteComment_printed_id_unlists_reply Shop.env Shop.bob false
              Shop.world w' msg (Shop.oid Shop.answer) (Shop.oid Shop.opinion)
              Shop.the_answer Shop.the_opinion)
    as (pc' & Hpc' & Hgone & _ & _ & Hcount);
    [vm_compute; reflexivity | exact Hrun | vm_compute; reflexivity
    | reflexivity | vm_compute; reflexivity |].
  assert (Hw' : w' = Shop.after_removal).
  { assert (H : (Ok msg, w').2 = Shop.after_removal)
      by (rewrite <- Hrun; vm_compute; reflexivity).
    exact H. }
  rewrite Hw' in Hpc'. exists pc'. auto.
Defined.

(** In a world the service has led to, the deletion of a stored comment
    that is not deleted goes through for its author and for an admin. *)
Lemma deleteComment_runs
    (env : Env) (commentId userId : string) (isAdmin : bool) (w : World)
    (i : ObjectId) (c : Comment) :
  reachable w ->
  ObjectId.parse commentId = Some i ->
  comments w !! i = Some c ->
  is_deleted c = false ->
  isAdmin = true \/ ObjectId.toString (user_id c) = userId ->
  exists w',
    deleteComment env commentId userId isAdmin w
    = (Ok "Comment deleted successfully", w').
Proof.
  intros Hw Hparse Hc Hlive Hwho. apply reachable_valid in Hw.
  unfold deleteComment, new_ObjectId, findOne_active.
  rewrite (parse_isValid _ _ Hparse), Hparse. cbn [negb]. go.
  rewrite Hc, Hlive.
  assert (Hallowed : negb isAdmin
                     && negb (String.eqb (ObjectId.toString (user_id c)) userId)
                     = false).
  { destruct Hwho as [-> | <-]; [reflexivity |].
    rewrite String.eqb_refl. apply andb_false_r. }
  rewrite Hallowed. unfold save at 1.
  assert (Hvalid : validate (set_is_deleted c) = true) by apply (Hw i c Hc).
  rewrite Hvalid. cbn [negb].
  destruct (decide (set_is_deleted c = c)) as [Hsame | _].
  { apply (f_equal is_deleted) in Hsame. cbn in Hsame. congruence. }
  unfold modify.
  set (w1 := set_comments
               <[i := set_updated_at (now env) (set_is_deleted c)]> w).
  assert (Hw1 : map_Forall (fun _ c => validate c = true) (comments w1)).
  { apply map_Forall_insert_2; [exact Hvalid | exact Hw]. }
  destruct (parent_id c) as [parent|]; [| eexists; reflexivity].
  unfold findById. go.
  destruct (comments w1 !! parent) as [pc|] eqn:Hpc; [| eexists; reflexivity].
  unfold save.
  assert (Hdrop : validate (drop_reply (commentId) pc) = true)
    by apply (Hw1 parent pc Hpc).
  rewrite Hdrop. cbn [negb].
  destruct (decide (drop_reply commentId pc = pc)); eexists; reflexivity.
Qed.

(** X12. The author and the admin may delete. In a world the service has
    led to, [deleteComment] of a stored comment that is not deleted
    succeeds when it is called as admin, whoever the caller is, and when
    it is called by the author of the comment; the comment is then
    marked deleted and keeps its content. *)
Theorem deleteComment_allowed
    (env : Env) (commentId userId : string) (isAdmin : bool) (w : World)
    (i : ObjectId) (c : Comment) :
  reachable w ->
  ObjectId.parse commentId = Some i ->
  comments w !! i = Some c ->
  is_deleted c = false ->
  isAdmin = true \/ ObjectId.toString (user_id c) = userId ->
  exists w' c',
    deleteComment env commentId userId isAdmin w
    = (Ok "Comment deleted successfully", w')
    /\ comments w' !! i = Some c'
    /\ is_deleted c' = true
    /\ content c' = content c.
Proof.
  intros Hw Hparse Hc Hlive Hwho.
  destruct (deleteComment_runs env commentId userId isAdmin w i c
              Hw Hparse Hc Hlive Hwho) as [w' Hrun].
  destruct (deleteComment_marks _ _ _ _ _ _ _ Hrun)
    as (j & d & c' & Hj & _ & Hc' & Hdeleted).
  assert (j = i) by congruence. subst j.
  exists w', c'. do 3 (split; [assumption |]).
  destruct (deleteComment_kept same_content
              ltac:(reflexivity) ltac:(unfold same_content; congruence)
              ltac:(reflexivity) ltac:(reflexivity) ltac:(reflexivity)
              env commentId userId isAdmin w i c Hc) as (c'' & Hc'' & Hsame).
  rewrite Hrun in Hc''. cbn [snd] in Hc''.
  unfold same_content in Hsame. congruence.
Qed.

Lemma deleteComment_allowed_witness :
  exists w' c',
    deleteComment Shop.env Shop.answer Shop.carol true Shop.first_day
    = (Ok "Comment deleted successfully", w')
    /\ comments w' !! Shop.oid Shop.answer = Some c'
    /\ is_deleted c' = true
    /\ content c' = "I agree".
Proof.
  apply (deleteComment_allowed Shop.env Shop.answer Shop.carol true
           Shop.first_day (Shop.oid Shop.answer) Shop.the_answer
           first_day_reachable).
  - vm_compute. reflexivity.
  - vm_compute. reflexivity.
  - reflexivity.
  - left. reflexivity.
Defined.

(** ** What an update does *)

(** An update that succeeds: the comment was stored and not deleted and
    the caller is its author; the document is written when the content
    given differs from the one stored, and the view returned is of the
    document as it is stored afterwards. *)
Lemma updateComment_done env commentId userId dto w w' v :
  updateComment env commentId userId dto w = (Ok v, w') ->
  exists i c,
    ObjectId.parse commentId = Some i
    /\ comments w !! i = Some c
    /\ is_deleted c = false
    /\ ObjectId.toString (user_id c) = userId
    /\ let c' := match truthy (UpdateCommentDto.content dto) with
                 | Some s => set_content s c
                 | None => c
                 end in
       content c' <> ""
       /\ (c' = c /\ w' = w
           \/ c' <> c
              /\ w' = set_comments <[i := set_updated_at (now env) c']> w)
       /\ v = (fun d => select i d (Raw (product_id d))
                          (Joined (populate_user (user_id d) w')))
              <$> comments w' !! i.
Proof.
  unfold updateComment.
  destruct (ObjectId.isValid commentId) eqn:Hvalid; cbn [negb];
    [| discriminate].
  apply isValid_parse in Hvalid as [i Hparse].
  unfold new_ObjectId, findOne_active. rewrite Hparse. go.
  destruct (comments w !! i) as [c|] eqn:Hc; [| discriminate].
  destruct (is_deleted c) eqn:Hlive; [discriminate |].
  destruct (String.eqb (ObjectId.toString (user_id c)) userId) eqn:Hauthor;
    cbn [negb]; [| discriminate].
  apply String.eqb_eq in Hauthor.
  set (c' := match truthy (UpdateCommentDto.content dto) with
             | Some s => set_content s c
             | None => c
             end).
  unfold save. destruct (validate c') eqn:Hvalidate; cbn [negb];
    [| discriminate].
  assert (Hcontent : content c' <> "").
  { unfold validate in Hvalidate.
    apply negb_true_iff, String.eqb_neq in Hvalidate. exact Hvalidate. }
  destruct (decide (c' = c)) as [Hsame | Hchanged]; unfold modify;
    intros [= <- <-]; exists i, c;
    (do 4 (split; [first [assumption | reflexivity] |]));
    cbv zeta; fold c'; (split; [exact Hcontent |]); (split; [| reflexivity]).
  - left. auto.
  - right. auto.
Qed.

(** An update that throws has written nothing. *)
Lemma updateComment_thrown env commentId userId dto w e w' :
  updateComment env commentId userId dto w = (Throw e, w') -> w' = w.
Proof.
  unfold updateComment.
  destruct (ObjectId.isValid commentId); cbn [negb];
    [| intros [= _ <-]; reflexivity].
  unfold new_ObjectId, findOne_active.
  destruct (ObjectId.parse commentId) as [i|]; go;
    [| intros [= _ <-]; reflexivity].
  destruct (comments w !! i) as [c|]; [| intros [= _ <-]; reflexivity].
  destruct (is_deleted c); [intros [= _ <-]; reflexivity |].
  destruct (String.eqb (ObjectId.toString (user_id c)) userId); cbn [negb];
    [| intros [= _ <-]; reflexivity].
  unfold save.
  destruct (validate _); cbn [negb]; [| intros [= _ <-]; reflexivity].
  destruct (decide _); unfold modify; discriminate.
Qed.

(** X13. What an update writes. An [updateComment] that succeeds on a
    request with a content was called by the author of a stored comment
    that is not deleted; the content stored afterwards is the content
    given, trimmed, and it is not empty; the product, the author, the
    parent, the date of creation, the replies, the counter and the mark
    of deletion are as before; [updated_at] is the time of the call when
    the content changed; no other comment changes; and the view
    returned is the one of the comment as stored. *)
Theorem updateComment_sets_content
    (env : Env) (commentId userId : string) (dto : UpdateCommentDto.t)
    (w w' : World) (v : option CommentView) (s : string) :
  updateComment env commentId userId dto w = (Ok v, w') ->
  truthy (UpdateCommentDto.content dto) = Some s ->
  exists i c c',
    ObjectId.parse commentId = Some i
    /\ comments w !! i = Some c
    /\ ObjectId.toString (user_id c) = userId
    /\ is_deleted c = false
    /\ trim s <> ""
    /\ comments w' !! i = Some c'
    /\ content c' = trim s
    /\ (product_id c', user_id c', parent_id c', created_at c')
       = (product_id c, user_id c, parent_id c, created_at c)
    /\ (replies c', reply_count c', is_deleted c')
       = (replies c, reply_count c, is_deleted c)
    /\ (content c <> trim s -> updated_at c' = now env)
    /\ (forall j, j <> i -> comments w' !! j = comments w !! j)
    /\ v = Some (select i c' (Raw (product_id c))
                   (Joined (populate_user (user_id c) w))).
Proof.
  intros Hrun Hgiven.
  destruct (updateComment_done _ _ _ _ _ _ _ Hrun)
    as (i & c & Hparse & Hc & Hlive & Hauthor & Hdone).
  rewrite Hgiven in Hdone. cbv zeta in Hdone.
  destruct Hdone as (Hcontent & Hw' & Hv). cbn [content set_content] in Hcontent.
  exists i, c.
  destruct Hw' as [[Hsame ->] | [Hchanged ->]].
  - exists c. rewrite Hc in Hv. cbn [fmap option_fmap option_map] in Hv.
    do 6 (split; [first [assumption | reflexivity] |]).
    apply (f_equal content) in Hsame. cbn [content set_content] in Hsame.
    split; [symmetry; exact Hsame |]. split; [reflexivity |].
    split; [reflexivity |]. split; [congruence |].
    split; [reflexivity | exact Hv].
  - exists (set_updated_at (now env) (set_content s c)).
    cbn [comments set_comments users populate_user] in *.
    rewrite lookup_insert_eq in *. cbn [fmap option_fmap option_map] in Hv.
    do 5 (split; [first [assumption | reflexivity] |]).
    split; [reflexivity |]. split; [reflexivity |]. split; [reflexivity |].
    split; [reflexivity |]. split; [reflexivity |].
    split; [| exact Hv].
    intros j Hne. rewrite lookup_insert_ne by congruence. reflexivity.
Qed.

Lemma updateComment_sets_content_witness :
  exists v w' c',
    updateComment Shop.env Shop.opinion Shop.alice Shop.second_thoughts
      Shop.world = (Ok v, w')
    /\ comments w' !! Shop.oid Shop.opinion = Some c'
    /\ content c' = "Great product"
    /\ replies c' = [Shop.oid Shop.answer].
Proof.
  destruct (updateComment Shop.env Shop.opinion Shop.alice Shop.second_thoughts
              Shop.world) as [[v | e] w'] eqn:Hrun;
    [| vm_compute in Hrun; discriminate Hrun].
  destruct (updateComment_sets_content _ _ _ _ _ _ _ "Great product" Hrun)
    as (i & c & c' & Hparse & Hc & _ & _ & _ & Hc' & Hcontent & _ & Hkept & _);
    [reflexivity |].
  assert (Hi : Some i = Some (Shop.oid Shop.opinion))
    by (rewrite <- Hparse; vm_compute; reflexivity).
  injection Hi as ->.
  assert (Hopinion : Some c = Some Shop.the_opinion)
    by (rewrite <- Hc; vm_compute; reflexivity).
  injection Hopinion as ->.
  exists v, w', c'. split; [reflexivity |]. split; [exact Hc' |].
  split; [rewrite Hcontent; vm_compute; reflexivity |].
  injection Hkept as -> _ _. reflexivity.
Defined.

(** X14. An update without content writes nothing. When the request carries
    no content, or an empty one, [updateComment] leaves the world as it
    was, whatever it answers; called by the author of a stored comment
    that is not deleted and whose content is not empty, it answers the
    comment as it is stored. *)
Theorem updateComment_without_content_writes_nothing
    (env : Env) (commentId userId : string) (dto : UpdateCommentDto.t)
    (w : World) :
  truthy (UpdateCommentDto.content dto) = None ->
  snd (updateComment env commentId userId dto w) = w
  /\ forall i c,
       ObjectId.parse commentId = Some i ->
       comments w !! i = Some c ->
       is_deleted c = false ->
       ObjectId.toString (user_id c) = userId ->
       content c <> "" ->
       updateComment env commentId userId dto w
       = (Ok (Some (select i c (Raw (product_id c))
                      (Joined (populate_user (user_id c) w)))), w).
Proof.
  intros Hnone. split.
  - destruct (updateComment env commentId userId dto w) as [[v | e] w'] eqn:Hrun.
    + destruct (updateComment_done _ _ _ _ _ _ _ Hrun)
        as (i & c & _ & _ & _ & _ & Hdone).
      rewrite Hnone in Hdone. cbv zeta in Hdone.
      destruct Hdone as (_ & [[_ ->] | [Hchanged _]] & _);
        [reflexivity | congruence].
    + apply updateComment_thrown in Hrun as ->. reflexivity.
  - intros i c Hparse Hc Hlive Hauthor Hcontent.
    unfold updateComment, new_ObjectId, findOne_active.
    rewrite (parse_isValid _ _ Hparse), Hparse. cbn [negb]. go.
    rewrite Hc, Hlive, Hnone. apply String.eqb_eq in Hauthor.
    rewrite Hauthor. cbn [negb]. unfold save, validate.
    apply String.eqb_neq in Hcontent. rewrite Hcontent. cbn [negb].
    destruct (decide (c = c)); [| contradiction]. go. rewrite Hc. reflexivity.
Qed.

Lemma updateComment_without_content_writes_nothing_witness :
  snd (updateComment Shop.env Shop.opinion Shop.alice
         {| UpdateCommentDto.content := None |} Shop.world) = Shop.world.
Proof.
  apply (updateComment_without_content_writes_nothing Shop.env Shop.opinion
           Shop.alice {| UpdateCommentDto.content := None |} Shop.world).
  reflexivity.
Defined.

(** ** Blank content *)

(** The no-break space is stripped as the space is. *)
Example trim_no_break_space :
  trim Shop.padded = "Me too" /\ trim Shop.blank = "".
Proof. split; vm_compute; reflexivity. Qed.

(** X15. Blank content is refused. [createComment] with a content that is
    empty once trimmed throws and writes nothing, and what it throws is
    the validation error of the schema when the ids are well formed and
    no parent is named; [updateComment] by the author of a stored
    comment, with a content that is empty once trimmed, throws the
    validation error and writes nothing. *)
Theorem blank_content_is_refused
    (env : Env) (userId : string) (w : World) :
  (forall dto,
     trim (CreateCommentDto.content dto) = "" ->
     (exists e, createComment env userId dto w = (Throw e, w))
     /\ (is_Some (ObjectId.parse (CreateCommentDto.product_id dto)) ->
         is_Some (ObjectId.parse userId) ->
         truthy (CreateCommentDto.parent_id dto) = None ->
         createComment env userId dto w = (Throw ValidationError, w)))
  /\ (forall commentId dto s i c,
        truthy (UpdateCommentDto.content dto) = Some s ->
        trim s = "" ->
        ObjectId.parse commentId = Some i ->
        comments w !! i = Some c ->
        is_deleted c = false ->
        ObjectId.toString (user_id c) = userId ->
        updateComment env commentId userId dto w = (Throw ValidationError, w)).
Proof.
  split.
  - intros dto Hblank. split.
    + destruct (createComment_cases env userId dto w) as [Hthrown | Hacc];
        [exact Hthrown |].
      destruct Hacc as (_ & _ & Hcontent & _). contradiction.
    + intros [product Hproduct] [user Huser] Hnone.
      unfold createComment, new_ObjectId.
      rewrite (parse_isValid _ _ Hproduct), Hnone, Hproduct, Huser.
      cbn [negb]. go. unfold insert, validate.
      cbn [content new_comment]. rewrite Hblank. reflexivity.
  - intros commentId dto s i c Hgiven Hblank Hparse Hc Hlive Hauthor.
    unfold updateComment, new_ObjectId, findOne_active.
    rewrite (parse_isValid _ _ Hparse), Hparse. cbn [negb]. go.
    rewrite Hc, Hlive, Hgiven. apply String.eqb_eq in Hauthor.
    rewrite Hauthor. cbn [negb]. unfold save, validate.
    cbn [content set_content]. rewrite Hblank. reflexivity.
Qed.

Lemma blank_content_is_refused_witness :
  createComment Shop.env Shop.carol (Shop.post Shop.phone Shop.blank) Shop.world
  = (Throw ValidationError, Shop.world).
Proof.
  apply (proj1 (blank_content_is_refused Shop.env Shop.carol Shop.world)
           (Shop.post Shop.phone Shop.blank)).
  - vm_compute. reflexivity.
  - vm_compute. eauto.
  - vm_compute. eauto.
  - reflexivity.
Defined.

(** ** The calls to the collaborators *)

(** What the notification block adds to the two logs: nothing, or one
    notification, followed, when the notification service answered, by
    one event for the same user. *)
Lemma notify_reply_logs env userId dto parent i pc created w r w' :
  notify_reply env userId dto parent i pc created w = (r, w') ->
  exists ns es,
    createNotification_calls w'
    = (createNotification_calls w ++ ns)%list
    /\ notifyCommentReply_calls w'
       = (notifyCommentReply_calls w ++ es)%list
    /\ (List.length es <= List.length ns <= 1)%nat
    /\ Forall (fun n => ObjectId.toString (target_user_id n) <> userId
                        /\ ObjectId.parse userId = Some (actor_id n)
                        /\ reference_id n = ObjectId.toString i) ns
    /\ Forall (fun e => Forall (fun n => fst e
                                         = ObjectId.toString (target_user_id n))
                               ns) es.
Proof.
  assert (Hnothing : forall w0 : World,
             exists ns es,
               createNotification_calls w0
               = (createNotification_calls w0 ++ ns)%list
               /\ notifyCommentReply_calls w0
                  = (notifyCommentReply_calls w0 ++ es)%list
               /\ (List.length es <= List.length ns <= 1)%nat
               /\ Forall (fun n => ObjectId.toString (target_user_id n) <> userId
                                   /\ ObjectId.parse userId = Some (actor_id n)
                                   /\ reference_id n = ObjectId.toString i) ns
               /\ Forall (fun e => Forall (fun n => fst e
                                         = ObjectId.toString (target_user_id n))
                               ns) es).
  { intros w0. exists [], []. rewrite !app_nil_r. cbn [List.length].
    repeat split; try constructor; lia. }
  unfold notify_reply, new_ObjectId, call_createNotification, notifyCommentReply.
  destruct pc as [pc [parentUser|]]; cbn [snd];
    [| intros [= <- <-]; apply Hnothing].
  destruct (String.eqb (ObjectId.toString (_id parentUser)) userId) eqn:Hself;
    [intros [= <- <-]; apply Hnothing |].
  apply String.eqb_neq in Hself.
  destruct (ObjectId.parse userId) as [actor_oid|] eqn:Huser;
    cbn [bind ret throw]; [| intros [= <- <-]; apply Hnothing].
  destruct (view_user_id created) as [| [actor|]];
    [intros [= <- <-]; apply Hnothing | | intros [= <- <-]; apply Hnothing].
  destruct (view_product_id created) as [| [product|]];
    [intros [= <- <-]; apply Hnothing | | intros [= <- <-]; apply Hnothing].
  unfold modify.
  match goal with
  | |- context [createNotification env ?p] =>
      set (n := p); destruct (createNotification env n)
  end; intros [= <- <-]; cbn [createNotification_calls notifyCommentReply_calls
                               log_event log_notification].
  - exists [n]. eexists [_]. split; [reflexivity |]. split; [reflexivity |].
    cbn [List.length]. split; [lia |]. split.
    + constructor; [| constructor]. subst n.
      cbn [target_user_id actor_id reference_id reply_notification]. auto.
    + constructor; [| constructor]. constructor; [| constructor]. reflexivity.
  - exists [n], []. rewrite app_nil_r. split; [reflexivity |].
    split; [reflexivity |]. cbn [List.length]. split; [lia |]. split.
    + constructor; [| constructor]. subst n.
      cbn [target_user_id actor_id reference_id reply_notification]. auto.
    + constructor.
Qed.

(** Neither an update nor a deletion calls a collaborator. *)
Lemma updateComment_logs env commentId userId dto w :
  let w' := snd (updateComment env commentId userId dto w) in
  createNotification_calls w' = createNotification_calls w
  /\ notifyCommentReply_calls w' = notifyCommentReply_calls w.
Proof.
  cbv zeta.
  destruct (updateComment env commentId userId dto w) as [[v | e] w'] eqn:Hrun;
    cbn [snd].
  - destruct (updateComment_done _ _ _ _ _ _ _ Hrun)
      as (i & c & _ & _ & _ & _ & _ & [[_ ->] | [_ ->]] & _);
      split; reflexivity.
  - apply updateComment_thrown in Hrun as ->. split; reflexivity.
Qed.

Lemma save_logs env i old c w :
  let w' := snd (save env i old c w) in
  createNotification_calls w' = createNotification_calls w
  /\ notifyCommentReply_calls w' = notifyCommentReply_calls w.
Proof.
  cbv zeta. unfold save. destruct (validate c); cbn [negb];
    [| split; reflexivity].
  destruct (decide (c = old)); split; reflexivity.
Qed.

Lemma deleteComment_logs env commentId userId isAdmin w :
  let w' := snd (deleteComment env commentId userId isAdmin w) in
  createNotification_calls w' = createNotification_calls w
  /\ notifyCommentReply_calls w' = notifyCommentReply_calls w.
Proof.
  cbv zeta. unfold deleteComment.
  destruct (ObjectId.isValid commentId); cbn [negb]; [| split; reflexivity].
  unfold new_ObjectId, findOne_active.
  destruct (ObjectId.parse commentId) as [i|]; go; [| split; reflexivity].
  destruct (comments w !! i) as [c|]; [| split; reflexivity].
  destruct (is_deleted c); [split; reflexivity |].
  destruct (negb isAdmin && _); [split; reflexivity |].
  pose proof (save_logs env i c (set_is_deleted c) w) as Hfirst.
  cbv zeta in Hfirst.
  destruct (save env i c (set_is_deleted c) w) as [[[] | e] w1];
    cbn [snd] in Hfirst |- *; [| exact Hfirst].
  destruct Hfirst as [<- <-].
  destruct (parent_id c) as [parent|]; [| split; reflexivity].
  unfold findById. go.
  destruct (comments w1 !! parent) as [pc|]; [| split; reflexivity].
  pose proof (save_logs env parent pc (drop_reply commentId pc) w1) as Hsecond.
  cbv zeta in Hsecond.
  destruct (save env parent pc (drop_reply commentId pc) w1) as [[[] | e] w2];
    cbn [snd] in Hsecond |- *; exact Hsecond.
Qed.

(** What a creation adds to the two logs. *)
Lemma createComment_logs env userId dto w :
  let w' := snd (createComment env userId dto w) in
  exists ns es,
    createNotification_calls w'
    = (createNotification_calls w ++ ns)%list
    /\ notifyCommentReply_calls w'
       = (notifyCommentReply_calls w ++ es)%list
    /\ (List.length es <= List.length ns <= 1)%nat
    /\ (truthy (CreateCommentDto.parent_id dto) = None -> ns = [])
    /\ Forall (fun n => ObjectId.toString (target_user_id n) <> userId
                        /\ ObjectId.parse userId = Some (actor_id n)
                        /\ reference_id n = ObjectId.toString (fresh_id env)) ns
    /\ Forall (fun e => Forall (fun n => fst e
                                         = ObjectId.toString (target_user_id n))
                               ns) es.
Proof.
  cbv zeta.
  assert (Hnothing : forall w' : World,
             createNotification_calls w' = createNotification_calls w ->
             notifyCommentReply_calls w' = notifyCommentReply_calls w ->
             exists ns es,
               createNotification_calls w'
               = (createNotification_calls w ++ ns)%list
               /\ notifyCommentReply_calls w'
                  = (notifyCommentReply_calls w ++ es)%list
               /\ (List.length es <= List.length ns <= 1)%nat
               /\ (truthy (CreateCommentDto.parent_id dto) = None -> ns = [])
               /\ Forall (fun n => ObjectId.toString (target_user_id n) <> userId
                                   /\ ObjectId.parse userId = Some (actor_id n)
                                   /\ reference_id n
                                      = ObjectId.toString (fresh_id env)) ns
               /\ Forall (fun e => Forall (fun n => fst e
                                         = ObjectId.toString (target_user_id n))
                               ns) es).
  { intros w' -> ->. exists [], []. rewrite !app_nil_r. cbn [List.length].
    repeat split; try constructor; lia. }
  destruct (createComment_cases env userId dto w) as [[e ->] | Hacc];
    [apply Hnothing; reflexivity |].
  destruct Hacc as ([product Hproduct] & [user Huser] & Hcontent & Hfresh
                    & [Hnone | (parent & parent_oid & pc & Hgiven & Hparse
                                & Hpc & Hlive & Htop)]).
  - rewrite (createComment_top_level env userId dto w product user
               Hproduct Huser Hcontent Hfresh Hnone).
    apply Hnothing; reflexivity.
  - rewrite (createComment_reply env userId dto w product user
               Hproduct Huser Hcontent Hfresh parent parent_oid pc
               Hgiven Hparse Hpc Hlive Htop).
    cbv zeta. go.
    match goal with
    | |- context [notify_reply ?a ?b ?c ?d ?e ?f ?g ?h] =>
        destruct (notify_reply a b c d e f g h) as [r w'] eqn:Hnotify
    end.
    apply notify_reply_logs in Hnotify
      as (ns & es & Hns & Hes & Hlength & Hn & He).
    cbn [createNotification_calls notifyCommentReply_calls set_comments]
      in Hns, Hes.
    exists ns, es.
    destruct r; cbn [snd]; (split; [exact Hns |]); (split; [exact Hes |]);
      (split; [exact Hlength |]); (split; [congruence |]); auto.
Qed.

(** X16. Only replies call the collaborators. A writing call adds at most
    one notification to the log of the notification service and at most
    one event to the log of the realtime service, the event only after
    a notification and for the user the notification is addressed to;
    [updateComment] and [deleteComment] add none, and neither does
    [createComment] without a [parent_id]; a notification of
    [createComment] or of [adminReplyComment] has the caller as its
    actor and is addressed to a user whose printed id is not the
    caller's. *)
Theorem collaborators_called_for_replies_only (call : Call) (w : World) :
  exists ns es,
    createNotification_calls (after call w)
    = (createNotification_calls w ++ ns)%list
    /\ notifyCommentReply_calls (after call w)
       = (notifyCommentReply_calls w ++ es)%list
    /\ (List.length es <= List.length ns <= 1)%nat
    /\ Forall (fun e => Forall (fun n => fst e
                                         = ObjectId.toString (target_user_id n))
                               ns) es
    /\ match call with
       | CreateComment env userId dto =>
           (truthy (CreateCommentDto.parent_id dto) = None -> ns = [])
           /\ Forall (fun n => ObjectId.toString (target_user_id n) <> userId
                               /\ ObjectId.parse userId = Some (actor_id n)) ns
       | AdminReplyComment env commentId userId dto =>
           Forall (fun n => ObjectId.toString (target_user_id n) <> userId
                            /\ ObjectId.parse userId = Some (actor_id n)) ns
       | UpdateComment _ _ _ _ | DeleteComment _ _ _ _ => ns = []
       end.
Proof.
  assert (Hweaken : forall userId i ns,
             Forall (fun n => ObjectId.toString (target_user_id n) <> userId
                              /\ ObjectId.parse userId = Some (actor_id n)
                              /\ reference_id n = ObjectId.toString i) ns ->
             Forall (fun n => ObjectId.toString (target_user_id n) <> userId
                              /\ ObjectId.parse userId = Some (actor_id n)) ns).
  { intros userId i ns H. eapply Forall_impl; [exact H |].
    cbv beta. tauto. }
  destruct call as [env userId dto | env commentId userId dto
                   | env commentId userId isAdmin | env commentId userId dto];
    cbn [after].
  - destruct (createComment_logs env userId dto w)
      as (ns & es & Hns & Hes & Hlength & Hnone & Hn & He).
    exists ns, es. eauto 10.
  - destruct (updateComment_logs env commentId userId dto w) as [Hns Hes].
    cbv zeta in *. exists [], []. rewrite !app_nil_r.
    repeat split; try constructor; auto.
  - destruct (deleteComment_logs env commentId userId isAdmin w) as [Hns Hes].
    cbv zeta in *. exists [], []. rewrite !app_nil_r.
    repeat split; try constructor; auto.
  - destruct (adminReplyComment_store env commentId userId dto w)
      as [-> | [dto' ->]].
    + exists [], []. rewrite !app_nil_r. repeat split; try constructor; auto.
    + destruct (createComment_logs env userId dto' w)
        as (ns & es & Hns & Hes & Hlength & Hnone & Hn & He).
      exists ns, es. eauto 10.
Qed.

(** ** A comment once created *)

(** A creation that succeeds: the document it has stored, and the view
    of it that it returns. *)
Lemma createComment_done env userId dto w w' v :
  createComment env userId dto w = (Ok v, w') ->
  exists product user parent,
    ObjectId.parse (CreateCommentDto.product_id dto) = Some product
    /\ ObjectId.parse userId = Some user
    /\ match truthy (CreateCommentDto.parent_id dto) with
       | Some s => ObjectId.parse s = parent
                   /\ exists p, parent = Some p /\ is_Some (comments w' !! p)
       | None => parent = None
       end
    /\ comments w !! fresh_id env = None
    /\ trim (CreateCommentDto.content dto) <> ""
    /\ let c := new_comment env product user
                  (CreateCommentDto.content dto) parent in
       v = Some (created_view env c w)
       /\ comments w' !! fresh_id env = Some c
       /\ users w' = users w
       /\ products w' = products w.
Proof.
  intros Hrun.
  destruct (createComment_cases env userId dto w) as [[e He] | Hacc];
    [congruence |].
  destruct Hacc as ([product Hproduct] & [user Huser] & Hcontent & Hfresh
                    & [Hnone | (s & parent_oid & pc & Hgiven & Hparse
                                & Hpc & Hlive & Htop)]).
  - rewrite (createComment_top_level env userId dto w product user
               Hproduct Huser Hcontent Hfresh Hnone) in Hrun.
    cbv zeta in Hrun. injection Hrun as <- <-.
    exists product, user, None. rewrite Hnone.
    do 5 (split; [first [assumption | reflexivity] |]).
    cbv zeta. cbn [comments set_comments users products].
    rewrite lookup_insert_eq. auto.
  - rewrite (createComment_reply env userId dto w product user
               Hproduct Huser Hcontent Hfresh s parent_oid pc
               Hgiven Hparse Hpc Hlive Htop) in Hrun.
    cbv zeta in Hrun. revert Hrun. go.
    match goal with
    | |- context [notify_reply ?a ?b ?c ?d ?e ?f ?g ?h] =>
        destruct (notify_reply a b c d e f g h) as [r w1] eqn:Hnotify
    end.
    apply notify_reply_collections in Hnotify as (Hcomments & Husers & Hproducts).
    cbn [comments users products set_comments] in Hcomments, Husers, Hproducts.
    destruct r as [[] | e]; [| discriminate]. intros [= <- <-].
    assert (Hne : fresh_id env <> parent_oid) by congruence.
    exists product, user, (Some parent_oid). rewrite Hgiven.
    split; [exact Hproduct |]. split; [exact Huser |]. split.
    { split; [exact Hparse |]. exists parent_oid. split; [reflexivity |].
      rewrite Hcomments, lookup_alter_eq, lookup_insert_ne, Hpc by exact Hne.
      eexists. reflexivity. }
    do 2 (split; [assumption |]). cbv zeta.
    split; [reflexivity |]. split; [| split; assumption].
    rewrite Hcomments, lookup_alter_ne, lookup_insert_eq by congruence.
    reflexivity.
Qed.

(** X17. A created comment can be read back. After a [createComment] that
    succeeds, the id drawn being a 96-bit value, [getCommentById] of
    the printed id of the view returned succeeds in the resulting world,
    writes nothing, and shows the same id, the content of the request
    trimmed, the same populated author, no reply counted, both
    timestamps at the time of the call, and as parent the parent of the
    view. *)
Theorem created_comment_can_be_read
    (env : Env) (userId : string) (dto : CreateCommentDto.t) (w w' : World)
    (v : option CommentView) :
  (fresh_id env < 2 ^ 96)%N ->
  createComment env userId dto w = (Ok v, w') ->
  exists view d,
    v = Some view
    /\ view_id view = fresh_id env
    /\ getCommentById (ObjectId.toString (view_id view)) w' = (Ok d, w')
    /\ detail_id d = view_id view
    /\ detail_content d = trim (CreateCommentDto.content dto)
    /\ view_content view = trim (CreateCommentDto.content dto)
    /\ detail_user_id d = view_user_id view
    /\ detail_reply_count d = 0
    /\ detail_created_at d = now env
    /\ detail_updated_at d = Some (now env)
    /\ _id <$> detail_parent_id d = view_parent_id view.
Proof.
  intros Hsmall Hrun.
  destruct (createComment_done _ _ _ _ _ _ Hrun)
    as (product & user & parent & _ & _ & Hparent & _ & _ & Hdone).
  cbv zeta in Hdone. destruct Hdone as (-> & Hstored & Husers & _).
  assert (Hparse : ObjectId.parse (ObjectId.toString (fresh_id env))
                   = Some (fresh_id env)).
  { rewrite parse_toString, N.mod_small by exact Hsmall. reflexivity. }
  eexists. eexists. split; [reflexivity |].
  cbn [created_view select view_id view_content view_user_id view_parent_id].
  split; [reflexivity |].
  unfold getCommentById, new_ObjectId, findOne_active.
  rewrite (parse_isValid _ _ Hparse), Hparse. cbn [negb]. go.
  rewrite Hstored. cbn [is_deleted new_comment].
  split; [reflexivity |].
  cbn [detail_id detail_content detail_user_id detail_reply_count
       detail_created_at detail_updated_at detail_parent_id
       content user_id reply_count created_at updated_at parent_id].
  do 3 (split; [reflexivity |]).
  split; [unfold populate_user; rewrite Husers; reflexivity |].
  do 3 (split; [reflexivity |]).
  destruct (truthy (CreateCommentDto.parent_id dto)) as [s|].
  - destruct Hparent as (_ & p & -> & [pc Hpc]).
    unfold populate_parent. cbn [parent_id new_comment].
    rewrite Hpc. reflexivity.
  - subst parent. reflexivity.
Qed.

Lemma created_comment_can_be_read_witness :
  exists view d w',
    createComment Shop.env Shop.carol
      (Shop.reply Shop.phone Shop.opinion Shop.padded) Shop.world
    = (Ok (Some view), w')
    /\ getCommentById Shop.next w' = (Ok d, w')
    /\ detail_content d = "Me too"
    /\ _id <$> detail_parent_id d = Some (Shop.oid Shop.opinion).
Proof.
  destruct (createComment Shop.env Shop.carol
              (Shop.reply Shop.phone Shop.opinion Shop.padded) Shop.world)
    as [[v | e] w'] eqn:Hrun; [| vm_compute in Hrun; discriminate Hrun].
  assert (Hsmall : (fresh_id Shop.env < 2 ^ 96)%N) by (vm_compute; reflexivity).
  destruct (created_comment_can_be_read Shop.env _ _ _ _ _ Hsmall Hrun)
    as (view & d & -> & Hid & Hget & _ & Hcontent & _ & _ & _ & _ & _ & Hparent).
  exists view, d, w'. split; [reflexivity |].
  assert (Hnext : ObjectId.toString (view_id view) = Shop.next)
    by (rewrite Hid; vm_compute; reflexivity).
  rewrite Hnext in Hget. split; [exact Hget |].
  split; [rewrite Hcontent; vm_compute; reflexivity |].
  rewrite Hparent. vm_compute in Hrun. injection Hrun as <- _.
  vm_compute. reflexivity.
Defined.

(** ** The other listings *)

(** X18. What a page of [getAllCommentsAdmin] shows. A call that succeeds
    writes nothing; each comment of the page is a stored top-level
    comment that is not deleted, is on the product asked for when the
    product filter is a well-formed id, and matches the search when the
    store accepts its pattern; the page is newest first and shows no
    comment twice; it holds at most [limit] comments when [limit] is
    positive, and never more than the total it reports. *)
Theorem getAllCommentsAdmin_lists_top_level
    (regex_i : string -> option (string -> bool)) (page limit : Z)
    (productId search : option string) (w w' : World) (pg : Page.t) :
  getAllCommentsAdmin regex_i page limit productId search w = (Ok pg, w') ->
  w' = w
  /\ Forall (fun v => exists c,
               comments w !! view_id v = Some c
               /\ parent_id c = None
               /\ is_deleted c = false
               /\ (forall p o, truthy productId = Some p ->
                               ObjectId.parse p = Some o -> product_id c = o)
               /\ (forall pattern f, truthy search = Some pattern ->
                                     regex_i pattern = Some f ->
                                     f (content c) = true)
               /\ view_content v = content c)
            (Page.comments pg)
  /\ StronglySorted (fun a b => view_created_at b <= view_created_at a)
                    (Page.comments pg)
  /\ NoDup (List.map view_id (Page.comments pg))
  /\ (0 < limit -> Z.of_nat (List.length (Page.comments pg)) <= limit)
  /\ Z.of_nat (List.length (Page.comments pg)) <= total (Page.pagination pg).
Proof.
  unfold getAllCommentsAdmin.
  set (product := match truthy productId with
                  | Some p => ObjectId.parse p
                  | None => None
                  end).
  assert (Hproduct : forall p o, truthy productId = Some p ->
                                 ObjectId.parse p = Some o -> product = Some o).
  { intros p o Hp Ho. subst product. rewrite Hp. exact Ho. }
  clearbody product.
  assert (Hmatches : exists matches,
             (forall pattern f, truthy search = Some pattern ->
                                regex_i pattern = Some f -> matches = Some f)
             /\ (match truthy search with
                 | Some pattern =>
                     match regex_i pattern with
                     | Some f => ret (Some f)
                     | None => throw MongoServerError
                     end
                 | None => ret None
                 end w = (Ok matches, w)
                 \/ match truthy search with
                    | Some pattern =>
                        match regex_i pattern with
                        | Some f => ret (Some f)
                        | None => throw MongoServerError
                        end
                    | None => ret None
                    end w = (Throw MongoServerError, w))).
  { destruct (truthy search) as [pattern|].
    - destruct (regex_i pattern) as [f|] eqn:Hf.
      + exists (Some f). split; [| left; reflexivity].
        intros pattern' f' [= <-]. congruence.
      + exists None. split; [| right; reflexivity].
        intros pattern' f' [= <-]. congruence.
    - exists None. split; [| left; reflexivity]. discriminate. }
  destruct Hmatches as (matches & Hmatches & Hrun).
  unfold bind at 1. destruct Hrun as [-> | ->]; [| discriminate]. go.
  destruct (skip_limit _ _ _ w) as [[paged | e] w1] eqn:Hpaged;
    [| discriminate].
  apply page_of_matches in Hpaged
    as (-> & _ & _ & Hsub & Hfound & Hsorted & Hdistinct & Hlimit).
  intros [= <- <-].
  cbn [Page.comments Page.pagination total].
  destruct (views_of_page (admin_query product matches) true w
              (fun c => Joined (populate_product true (product_id c) w))
              (fun c => Joined (populate_user (user_id c) w))
              paged Hfound Hsorted Hdistinct)
    as (Hshown & Hviews & Hids & Hlength).
  cbv zeta in *. split; [reflexivity |]. split; [| split; [| split; [| split]]].
  - eapply Forall_impl; [exact Hshown |].
    intros v (c & Hc & Hq & Hcontent & _). exists c.
    unfold admin_query in Hq.
    apply andb_true_iff in Hq as [Hq Hsearch].
    apply andb_true_iff in Hq as [Hq Hp].
    apply andb_true_iff in Hq as [Hlive Htop].
    apply bool_decide_eq_true in Htop. apply negb_true_iff in Hlive.
    do 3 (split; [assumption |]). split; [| split; [| exact Hcontent]].
    + intros p o Hgiven Hparse.
      rewrite (Hproduct p o Hgiven Hparse) in Hp.
      apply bool_decide_eq_true in Hp. exact Hp.
    + intros pattern f Hgiven Hf.
      rewrite (Hmatches pattern f Hgiven Hf) in Hsearch. exact Hsearch.
  - exact Hviews.
  - exact Hids.
  - intros Hpos. rewrite Hlength. apply Hlimit, Hpos.
  - rewrite Hlength. unfold countDocuments.
    apply sublist_length in Hsub.
    rewrite (Permutation_length (sort_created_at_permutation true _)) in Hsub.
    lia.
Qed.

Lemma getAllCommentsAdmin_lists_top_level_witness :
  exists pg,
    fst (getAllCommentsAdmin (fun _ => None) 1 10 (Some Shop.phone) None
           Shop.world) = Ok pg
    /\ Forall (fun v => exists c,
                 comments Shop.world !! view_id v = Some c
                 /\ parent_id c = None
                 /\ product_id c = Shop.oid Shop.phone)
              (Page.comments pg).
Proof.
  destruct (getAllCommentsAdmin (fun _ => None) 1 10 (Some Shop.phone) None
              Shop.world) as [[pg | e] w'] eqn:Hrun;
    [| vm_compute in Hrun; discriminate Hrun].
  destruct (getAllCommentsAdmin_lists_top_level _ _ _ _ _ _ _ _ Hrun)
    as (_ & Hshown & _).
  exists pg. split; [reflexivity |].
  eapply Forall_impl; [exact Hshown |].
  intros v (c & Hc & Htop & _ & Hproduct & _). exists c.
  split; [exact Hc |]. split; [exact Htop |].
  apply (Hproduct Shop.phone); [reflexivity | vm_compute; reflexivity].
Defined.

(** X19. What a page of [getCommentsByUser] shows. A call that succeeds was
    given a well-formed user id and writes nothing; each entry of the
    page is a stored comment of that user that is not deleted, with its
    content and its counter, its parent populated exactly when the
    parent is stored and its product exactly when the catalog holds it;
    the page is newest first and shows no comment twice; it holds at
    most [limit] entries when [limit] is positive, and never more than
    the total it reports. *)
Theorem getCommentsByUser_lists_own_comments
    (userId : string) (page limit : Z) (w w' : World) (ds : Details.t) :
  getCommentsByUser userId page limit w = (Ok ds, w') ->
  exists user,
    ObjectId.parse userId = Some user
    /\ w' = w
    /\ Forall (fun d => exists c,
                 comments w !! detail_id d = Some c
                 /\ user_id c = user
                 /\ is_deleted c = false
                 /\ detail_content d = content c
                 /\ detail_reply_count d = reply_count c
                 /\ _id <$> detail_parent_id d
                    = (parent_id c ≫= fun p => (fun _ => p) <$> comments w !! p)
                 /\ _id <$> detail_product_id d
                    = ((fun _ => product_id c) <$> products w !! product_id c))
              (Details.comments ds)
    /\ StronglySorted (fun a b => detail_created_at b <= detail_created_at a)
                      (Details.comments ds)
    /\ NoDup (List.map detail_id (Details.comments ds))
    /\ (0 < limit -> Z.of_nat (List.length (Details.comments ds)) <= limit)
    /\ Z.of_nat (List.length (Details.comments ds))
       <= total (Details.pagination ds).
Proof.
  unfold getCommentsByUser.
  destruct (ObjectId.isValid userId) eqn:Hvalid; cbn [negb]; [| discriminate].
  apply isValid_parse in Hvalid as [user Hparse].
  unfold new_ObjectId. rewrite Hparse. go.
  destruct (skip_limit _ _ _ w) as [[paged | e] w1] eqn:Hpaged;
    [| discriminate].
  apply page_of_matches in Hpaged
    as (-> & _ & _ & Hsub & Hfound & Hsorted & Hdistinct & Hlimit).
  intros [= <- <-].
  cbn [Details.comments Details.pagination total].
  exists user. split; [reflexivity |]. split; [reflexivity |].
  split; [| split; [| split; [| split]]].
  - apply Forall_forall. intros d Hd.
    apply list_elem_of_In, in_map_iff in Hd as ([i c] & <- & Hin).
    rewrite Forall_forall in Hfound.
    destruct (Hfound (i, c) (proj2 (list_elem_of_In _ _) Hin)) as [Hc Hq].
    cbn [fst snd] in *. exists c.
    cbn [detail_id detail_content detail_reply_count detail_parent_id
         detail_product_id].
    unfold user_query in Hq. apply andb_true_iff in Hq as [Huser Hlive].
    apply bool_decide_eq_true in Huser. apply negb_true_iff in Hlive.
    do 5 (split; [first [assumption | reflexivity] |]). split.
    + unfold populate_parent. destruct (parent_id c) as [p|]; [| reflexivity].
      cbn [mbind option_bind]. destruct (comments w !! p); reflexivity.
    + unfold populate_product. destruct (products w !! product_id c); reflexivity.
  - eapply StronglySorted_map; [| exact Hsorted].
    intros a b Hab. exact Hab.
  - rewrite List.map_map. cbn [detail_id]. exact Hdistinct.
  - intros Hpos. rewrite List.length_map. apply Hlimit, Hpos.
  - rewrite List.length_map. unfold countDocuments.
    apply sublist_length in Hsub.
    rewrite (Permutation_length (sort_created_at_permutation true _)) in Hsub.
    lia.
Qed.

Lemma getCommentsByUser_lists_own_comments_witness :
  exists ds,
    fst (getCommentsByUser Shop.bob 1 10 Shop.world) = Ok ds
    /\ Forall (fun d => exists c,
                 comments Shop.world !! detail_id d = Some c
                 /\ user_id c = Shop.oid Shop.bob)
              (Details.comments ds)
    /\ total (Details.pagination ds) = 1.
Proof.
  destruct (getCommentsByUser Shop.bob 1 10 Shop.world)
    as [[ds | e] w'] eqn:Hrun; [| vm_compute in Hrun; discriminate Hrun].
  destruct (getCommentsByUser_lists_own_comments _ _ _ _ _ _ Hrun)
    as (user & Hparse & _ & Hshown & _).
  assert (Huser : Some user = Some (Shop.oid Shop.bob))
    by (rewrite <- Hparse; vm_compute; reflexivity).
  injection Huser as ->.
  exists ds. split; [reflexivity |]. split.
  - eapply Forall_impl; [exact Hshown |].
    intros d (c & Hc & Hu & _). exists c. auto.
  - vm_compute in Hrun. injection Hrun as <- _. reflexivity.
Defined.

(** ** Pages *)

(** The ids a page of [getReplies] lists: a slice of the sorted ids of
    the replies. *)
Lemma getReplies_page_ids (commentId : string) (page limit : Z) (w : World)
    (parent : ObjectId) :
  ObjectId.parse commentId = Some parent ->
  0 < limit ->
  List.map view_id (listed (fst (getReplies commentId page limit w)))
  = if page <? 1 then []
    else take (Z.to_nat limit)
           (drop (Z.to_nat (page - 1) * Z.to_nat limit)
              (List.map fst (sort_created_at false
                               (find (is_reply_of parent) w)))).
Proof.
  intros Hparse Hlimit. unfold getReplies.
  rewrite (parse_isValid _ _ Hparse). cbn [negb].
  unfold new_ObjectId. rewrite Hparse. go. unfold skip_limit.
  destruct ((page - 1) * limit <? 0) eqn:Hskip.
  - apply Z.ltb_lt in Hskip.
    assert (Hpage : (page <? 1) = true) by (apply Z.ltb_lt; nia).
    rewrite Hpage. reflexivity.
  - apply Z.ltb_ge in Hskip.
    assert (Hpage : (page <? 1) = false) by (apply Z.ltb_ge; nia).
    rewrite Hpage. go. cbn [fst listed Page.comments].
    assert (Hn : (limit =? 0) = false) by (apply Z.eqb_neq; lia).
    rewrite Hn, Z.abs_eq by lia.
    rewrite List.map_map. cbn [select view_id].
    rewrite <- List.firstn_map, <- List.skipn_map.
    rewrite Z2Nat.inj_mul by lia. reflexivity.
Qed.

(** X20. Each reply is on exactly one page. For a positive [limit], a stored
    reply that is not deleted, and whose date no other such reply of
    the same comment shares, is listed by [getReplies] on one page, at
    least the first, and on no other page. *)
Theorem getReplies_every_reply_on_one_page
    (commentId : string) (limit : Z) (w : World) (parent i : ObjectId)
    (c : Comment) :
  0 < limit ->
  ObjectId.parse commentId = Some parent ->
  comments w !! i = Some c ->
  parent_id c = Some parent ->
  is_deleted c = false ->
  (forall j d, comments w !! j = Some d -> parent_id d = Some parent ->
               is_deleted d = false -> created_at d = created_at c -> j = i) ->
  exists page,
    1 <= page
    /\ In i (List.map view_id
               (listed (fst (getReplies commentId page limit w))))
    /\ forall page',
         In i (List.map view_id
                 (listed (fst (getReplies commentId page' limit w)))) ->
         page' = page.
Proof.
  intros Hlimit Hparse Hc Hparent Hlive _.
  set (ids := List.map fst (sort_created_at false (find (is_reply_of parent) w))).
  assert (Hdistinct : NoDup ids).
  { subst ids.
    rewrite (Permutation_map fst (sort_created_at_permutation false _)).
    apply find_ids_distinct. }
  assert (Hin : i ∈ ids).
  { subst ids. apply list_elem_of_In, in_map_iff. exists (i, c).
    split; [reflexivity |]. apply list_elem_of_In.
    rewrite (sort_created_at_permutation false _). apply elem_of_find.
    cbn [fst snd]. split; [exact Hc |]. unfold is_reply_of.
    rewrite Hparent, Hlive, bool_decide_eq_true_2 by reflexivity. reflexivity. }
  apply list_elem_of_lookup in Hin as [k Hk].
  set (n := Z.to_nat limit).
  assert (Hn : (0 < n)%nat) by (subst n; lia).
  assert (Hpage : forall page,
             In i (List.map view_id
                     (listed (fst (getReplies commentId page limit w))))
             <-> 1 <= page /\ (Z.to_nat (page - 1) = k / n)%nat).
  { intros page. rewrite (getReplies_page_ids _ _ _ _ _ Hparse Hlimit).
    fold ids. fold n. destruct (page <? 1) eqn:Hp.
    - apply Z.ltb_lt in Hp. cbn [In]. split; [tauto | lia].
    - apply Z.ltb_ge in Hp. rewrite <- list_elem_of_In, list_elem_of_lookup.
      split.
      + intros [j Hj]. apply lookup_take_Some in Hj as [Hj Hlt].
        rewrite lookup_drop in Hj.
        pose proof (NoDup_lookup _ _ _ _ Hdistinct Hj Hk) as Hindex.
        split; [exact Hp |].
        apply (Nat.div_unique k n _ j); [exact Hlt | lia].
      + intros [_ Hq]. exists (k mod n)%nat.
        apply lookup_take_Some. split; [| apply Nat.mod_upper_bound; lia].
        rewrite lookup_drop, Hq.
        replace (k / n * n + k mod n)%nat with k; [exact Hk |].
        rewrite (Nat.div_mod_eq k n) at 1. lia. }
  exists (Z.of_nat (k / n) + 1). split; [lia |]. split.
  - apply Hpage. split; [lia |]. lia.
  - intros page' Hpage'. apply Hpage in Hpage' as [Hone Hq]. lia.
Qed.

Lemma getReplies_every_reply_on_one_page_witness :
  exists page,
    1 <= page
    /\ In (Shop.oid Shop.answer)
          (List.map view_id
             (listed (fst (getReplies Shop.opinion page 10 Shop.world))))
    /\ forall page',
         In (Shop.oid Shop.answer)
            (List.map view_id
               (listed (fst (getReplies Shop.opinion page' 10 Shop.world)))) ->
         page' = page.
Proof.
  apply (getReplies_every_reply_on_one_page Shop.opinion 10 Shop.world
           (Shop.oid Shop.opinion) (Shop.oid Shop.answer) Shop.the_answer).
  - lia.
  - vm_compute. reflexivity.
  - vm_compute. reflexivity.
  - reflexivity.
  - reflexivity.
  - intros j d Hd Hparent _ _.
    destruct (decide (j = Shop.oid Shop.answer)) as [-> | Hj]; [reflexivity |].
    destruct (decide (j = Shop.oid Shop.opinion)) as [-> | Hk].
    + assert (H : Some d = Some Shop.the_opinion)
        by (rewrite <- Hd; vm_compute; reflexivity).
      injection H as ->. discriminate Hparent.
    + unfold Shop.world in Hd. cbn [comments] in Hd.
      rewrite lookup_insert_ne, lookup_singleton_ne in Hd by congruence.
      discriminate Hd.
Defined.

(** X21. [totalPages] counts the pages that are not empty. For a positive
    [limit], a [getReplies] that succeeds reports as [totalPages] the
    least number k of pages of [limit] comments that hold the total; it
    was asked for a page from 1 on, and the page it returns holds a
    comment exactly when the page asked for is at most k. *)
Theorem getReplies_counts_pages
    (commentId : string) (page limit : Z) (w w' : World) (pg : Page.t) :
  0 < limit ->
  getReplies commentId page limit w = (Ok pg, w') ->
  exists k,
    pages (Page.pagination pg) = Finite k
    /\ (k - 1) * limit < total (Page.pagination pg) <= k * limit
    /\ 1 <= page
    /\ (Page.comments pg <> [] <-> page <= k).
Proof.
  intros Hlimit. unfold getReplies.
  destruct (ObjectId.isValid commentId) eqn:Hvalid; cbn [negb];
    [| discriminate].
  apply isValid_parse in Hvalid as [parent Hparse].
  unfold new_ObjectId. rewrite Hparse. go.
  destruct (skip_limit _ _ _ w) as [[paged | e] w1] eqn:Hpaged;
    [| discriminate].
  apply page_of_matches in Hpaged as (-> & Hskip & -> & _).
  intros [= <- <-]. cbn [Page.comments Page.pagination total pages].
  assert (Hn : (limit =? 0) = false) by (apply Z.eqb_neq; lia).
  rewrite Hn. unfold totalPages. rewrite Hn, Z.abs_eq by lia.
  unfold countDocuments.
  set (found := find (is_reply_of parent) w).
  assert (Hlength : List.length (sort_created_at false found)
                    = List.length found)
    by apply Permutation_length, sort_created_at_permutation.
  set (t := Z.of_nat (List.length found)).
  assert (Ht : 0 <= t) by (subst t; lia).
  set (k := - (- t / limit)).
  assert (Hk : (k - 1) * limit < t <= k * limit).
  { subst k. pose proof (Z.div_mod (- t) limit ltac:(lia)) as Hdiv.
    pose proof (Z.mod_pos_bound (- t) limit Hlimit) as Hmod. nia. }
  exists k. split; [reflexivity |]. split; [exact Hk |].
  split; [nia |].
  assert (Hempty : forall l : list CommentView, l <> [] <-> List.length l <> 0%nat).
  { intros [| x l]; cbn [List.length]; split; intros H; congruence. }
  rewrite Hempty, List.length_map, length_take, length_drop, Hlength.
  fold t. split; intros H.
  - assert ((page - 1) * limit < t) by lia. nia.
  - assert ((page - 1) * limit < t) by nia. lia.
Qed.

Lemma getReplies_counts_pages_witness :
  exists pg k,
    fst (getReplies Shop.opinion 1 10 Shop.world) = Ok pg
    /\ pages (Page.pagination pg) = Finite k
    /\ (Page.comments pg <> [] <-> 1 <= k).
Proof.
  destruct (getReplies Shop.opinion 1 10 Shop.world) as [[pg | e] w'] eqn:Hrun;
    [| vm_compute in Hrun; discriminate Hrun].
  destruct (getReplies_counts_pages Shop.opinion 1 10 Shop.world w' pg)
    as (k & Hk & _ & _ & Hpage); [lia | exact Hrun |].
  exists pg, k. split; [reflexivity |]. split; [exact Hk | exact Hpage].
Defined.

(** ** The admin's reports *)

(** The group of a product: none when no comment of the list is on the
    product; else the number of those comments, and the latest of their
    dates. *)
Lemma group_by_product_lookup (l : list (ObjectId * Comment)) (p : ObjectId) :
  let on_p := List.filter (fun d => bool_decide (product_id (snd d) = p)) l in
  match group_by_product l !! p with
  | None => on_p = []
  | Some g =>
      commentCount g = Z.of_nat (List.length on_p)
      /\ Forall (fun d => created_at (snd d) <= latestComment g) on_p
      /\ Exists (fun d => created_at (snd d) = latestComment g) on_p
  end.
Proof.
  cbv zeta. induction l as [| d l IH]; cbn [group_by_product foldr List.filter].
  - rewrite lookup_empty. reflexivity.
  - fold (group_by_product l).
    destruct (decide (product_id (snd d) = p)) as [Hp | Hp].
    + rewrite (bool_decide_eq_true_2 _ Hp), Hp, lookup_partial_alter_eq.
      unfold add_to_group.
      destruct (group_by_product l !! p) as [g|].
      * destruct IH as (Hcount & Hlatest & Hsome).
        cbn [commentCount latestComment List.length]. split; [lia |]. split.
        -- constructor; [lia |].
           eapply Forall_impl; [exact Hlatest |]. cbv beta. intros; lia.
        -- destruct (Z.max_spec (latestComment g) (created_at (snd d)))
             as [[Hlt ->] | [Hle ->]].
           ++ apply Exists_cons_hd. reflexivity.
           ++ apply Exists_cons_tl. exact Hsome.
      * rewrite IH. cbn [commentCount latestComment List.length].
        split; [reflexivity |]. split.
        -- constructor; [lia | constructor].
        -- apply Exists_cons_hd. reflexivity.
    + rewrite (bool_decide_eq_false_2 _ Hp), lookup_partial_alter_ne by exact Hp.
      exact IH.
Qed.

Lemma place_row_permutation x l : place_row x l ≡ₚ x :: l.
Proof.
  induction l as [| y l IH]; cbn [place_row]; [reflexivity |].
  destruct (_ <? _); [reflexivity |]. rewrite IH. apply Permutation_swap.
Qed.

Lemma sort_latest_permutation l : sort_latest l ≡ₚ l.
Proof.
  unfold sort_latest. induction l as [| x l IH]; cbn [foldr]; [reflexivity |].
  rewrite place_row_permutation, IH. reflexivity.
Qed.

Lemma place_row_sorted x l :
  StronglySorted (fun a b => latestComment (row_group b)
                             <= latestComment (row_group a)) l ->
  StronglySorted (fun a b => latestComment (row_group b)
                             <= latestComment (row_group a)) (place_row x l).
Proof.
  induction l as [| y l IH]; intros Hl; cbn [place_row].
  - repeat constructor.
  - apply StronglySorted_inv in Hl as [Hl Hy].
    destruct (_ <? _) eqn:Hplace.
    + apply Z.ltb_lt in Hplace.
      constructor; [constructor; assumption |].
      constructor; [lia |].
      eapply Forall_impl; [exact Hy |]. cbv beta. intros; lia.
    + apply Z.ltb_ge in Hplace. constructor; [apply IH, Hl |].
      rewrite place_row_permutation. constructor; assumption.
Qed.

Lemma sort_latest_sorted l :
  StronglySorted (fun a b => latestComment (row_group b)
                             <= latestComment (row_group a)) (sort_latest l).
Proof.
  unfold sort_latest. induction l as [| x l IH]; cbn [foldr].
  - constructor.
  - apply place_row_sorted, IH.
Qed.

(** The rows of the report, before they are sorted. *)
Lemma elem_of_rows (w : World) (l : list (ObjectId * Comment)) (r : ProductRow) :
  r ∈ omap (join_product w) (map_to_list (group_by_product l))
  <-> group_by_product l !! row_id r = Some (row_group r)
      /\ populate_product true (row_id r) w = Some (row_product r).
Proof.
  rewrite list_elem_of_omap. split.
  - intros ([p g] & Hg & Hr). apply elem_of_map_to_list in Hg.
    unfold join_product in Hr. cbn [fst snd] in Hr.
    destruct (populate_product true p w) as [pr|] eqn:Hpr; [| discriminate].
    injection Hr as <-. cbn [row_id row_group row_product]. auto.
  - intros [Hg Hpr]. exists (row_id r, row_group r).
    split; [apply elem_of_map_to_list, Hg |].
    unfold join_product. cbn [fst snd]. rewrite Hpr. destruct r; reflexivity.
Qed.

Lemma rows_distinct (w : World) (m : gmap ObjectId Group) :
  NoDup (List.map row_id (omap (join_product w) (map_to_list m))).
Proof.
  eapply sublist_NoDup; [apply (NoDup_fst_map_to_list m) |].
  induction (map_to_list m) as [| [p g] l IH]; [constructor |].
  cbn [omap list_omap]. unfold join_product at 1. cbn [fst snd].
  destruct (populate_product true p w); cbn [fmap option_fmap option_map].
  - cbn [List.map row_id]. constructor 2. exact IH.
  - constructor 3. exact IH.
Qed.

Lemma sublist_map_filter {A B} (g : A -> B) (f : A -> bool) (l : list A) :
  List.map g (List.filter f l) `sublist_of` List.map g l.
Proof.
  induction l as [| x l IH]; [constructor |].
  cbn [List.filter List.map]. destruct (f x); cbn [List.map];
    [constructor 2 | constructor 3]; exact IH.
Qed.

(** X22. The report by product. [getCommentsByProductAdmin] always succeeds
    and writes nothing. It has a row for a product exactly when the
    catalog holds the product and some stored top-level comment that is
    not deleted is on it; no product has two rows; the rows are in the
    order of their latest comment, newest first; [total] is the number
    of rows. Each row carries the product as the catalog has it, the
    number of top-level comments on it that are not deleted, which is
    at least one, and the latest of their dates of creation. *)
Theorem getCommentsByProductAdmin_reports_products (w : World) :
  exists rp,
    getCommentsByProductAdmin w = (Ok rp, w)
    /\ Report.total rp = Z.of_nat (List.length (Report.products rp))
    /\ NoDup (List.map row_id (Report.products rp))
    /\ StronglySorted (fun a b => latestComment (row_group b)
                                  <= latestComment (row_group a))
                      (Report.products rp)
    /\ (forall p,
          In p (List.map row_id (Report.products rp))
          <-> is_Some (products w !! p)
              /\ exists i c,
                   comments w !! i = Some c
                   /\ product_id c = p
                   /\ parent_id c = None
                   /\ is_deleted c = false)
    /\ Forall (fun r =>
         let on_product :=
           List.filter (fun d => bool_decide (product_id (snd d) = row_id r))
                       (find is_live_top_level w) in
         populate_product true (row_id r) w = Some (row_product r)
         /\ commentCount (row_group r) = Z.of_nat (List.length on_product)
         /\ 1 <= commentCount (row_group r)
         /\ Forall (fun d => created_at (snd d) <= latestComment (row_group r))
                   on_product
         /\ Exists (fun d => created_at (snd d) = latestComment (row_group r))
                   on_product)
         (Report.products rp).
Proof.
  eexists. split.
  { unfold getCommentsByProductAdmin.
    cbv beta iota zeta delta [bind ret gets]. reflexivity. }
  cbn [Report.products Report.total].
  set (found := find is_live_top_level w).
  set (rows := omap (join_product w) (map_to_list (group_by_product found))).
  assert (Hrow : forall r,
             In r (sort_latest rows)
             <-> group_by_product found !! row_id r = Some (row_group r)
                 /\ populate_product true (row_id r) w = Some (row_product r)).
  { intros r. rewrite <- list_elem_of_In, (sort_latest_permutation rows).
    apply elem_of_rows. }
  assert (Hlive : forall i c,
             (i, c) ∈ found
             <-> comments w !! i = Some c
                 /\ parent_id c = None /\ is_deleted c = false).
  { intros i c. subst found. rewrite elem_of_find. cbn [fst snd].
    unfold is_live_top_level.
    rewrite andb_true_iff, negb_true_iff, bool_decide_eq_true. tauto. }
  split; [reflexivity |]. split; [| split; [| split]].
  - rewrite (Permutation_map row_id (sort_latest_permutation rows)).
    apply rows_distinct.
  - apply sort_latest_sorted.
  - intros p. rewrite in_map_iff. split.
    + intros (r & <- & Hr). apply Hrow in Hr as [Hg Hpr].
      split.
      { unfold populate_product in Hpr.
        destruct (products w !! row_id r); [eauto | discriminate]. }
      pose proof (group_by_product_lookup found (row_id r)) as Hgroup.
      cbv zeta in Hgroup. rewrite Hg in Hgroup.
      destruct Hgroup as (_ & _ & Hsome).
      apply Exists_exists in Hsome as ([i c] & Hin & _).
      apply list_elem_of_In, filter_In in Hin as [Hin Hp].
      apply bool_decide_eq_true in Hp. cbn [snd] in Hp.
      apply list_elem_of_In, Hlive in Hin. exists i, c. tauto.
    + intros ([pr Hpr] & i & c & Hc & Hp & Htop & Halive).
      pose proof (group_by_product_lookup found p) as Hgroup.
      cbv zeta in Hgroup.
      destruct (group_by_product found !! p) as [g|] eqn:Hg.
      * exists {| row_id := p; row_group := g;
                  row_product :=
                    {| _id := p;
                       doc := {| summary_name := product_name pr;
                                 summary_slug := slug pr;
                                 summary_image_primary :=
                                   Some (image_primary pr) |} |} |}.
        split; [reflexivity |]. apply Hrow. cbn [row_id row_group row_product].
        split; [exact Hg |]. unfold populate_product. rewrite Hpr. reflexivity.
      * exfalso.
        assert (Hin : In (i, c)
                        (List.filter
                           (fun d => bool_decide (product_id (snd d) = p)) found)).
        { apply filter_In. split.
          - apply list_elem_of_In, Hlive. auto.
          - apply bool_decide_eq_true. exact Hp. }
        rewrite Hgroup in Hin. destruct Hin.
  - apply Forall_forall. intros r Hr.
    apply list_elem_of_In, Hrow in Hr as [Hg Hpr]. cbv zeta.
    pose proof (group_by_product_lookup found (row_id r)) as Hgroup.
    cbv zeta in Hgroup. rewrite Hg in Hgroup.
    destruct Hgroup as (Hcount & Hlatest & Hsome).
    split; [exact Hpr |]. split; [exact Hcount |].
    split; [| split; assumption].
    rewrite Hcount.
    destruct (List.filter _ found); [inversion Hsome |]. cbn [List.length]. lia.
Qed.

(** X23. The report by category is the report by product, filtered.
    [getProductsWithCommentsByCategory] always succeeds and writes
    nothing; its rows are exactly the rows of
    [getCommentsByProductAdmin] whose product is in a category that has
    the slug asked for; no product has two rows; the rows are in the
    order of their latest comment, newest first; [total] is the number
    of rows, and so at most the total of the report by product. *)
Theorem getProductsWithCommentsByCategory_filters_report
    (category_id : ObjectId -> option ObjectId)
    (category_slug : ObjectId -> option string)
    (categorySlug : string) (w : World) :
  exists rp all,
    getProductsWithCommentsByCategory category_id category_slug categorySlug w
    = (Ok rp, w)
    /\ getCommentsByProductAdmin w = (Ok all, w)
    /\ (forall r, In r (Report.products rp)
                  <-> In r (Report.products all)
                      /\ exists c, category_id (row_id r) = Some c
                                   /\ category_slug c = Some categorySlug)
    /\ NoDup (List.map row_id (Report.products rp))
    /\ StronglySorted (fun a b => latestComment (row_group b)
                                  <= latestComment (row_group a))
                      (Report.products rp)
    /\ Report.total rp = Z.of_nat (List.length (Report.products rp))
    /\ Report.total rp <= Report.total all.
Proof.
  eexists. eexists. split.
  { unfold getProductsWithCommentsByCategory.
    cbv beta iota zeta delta [bind ret gets]. reflexivity. }
  split.
  { unfold getCommentsByProductAdmin.
    cbv beta iota zeta delta [bind ret gets]. reflexivity. }
  cbn [Report.products Report.total].
  set (rows := omap (join_product w)
                 (map_to_list (group_by_product (find is_live_top_level w)))).
  set (f := in_category category_id category_slug categorySlug).
  split; [| split; [| split; [| split; [reflexivity |]]]].
  - intros r.
    rewrite <- !list_elem_of_In, (sort_latest_permutation (List.filter f rows)),
      (sort_latest_permutation rows), !list_elem_of_In, filter_In.
    subst f. unfold in_category.
    split; intros [Hr Hc]; (split; [exact Hr |]).
    + destruct (category_id (row_id r)) as [c|]; [| discriminate].
      destruct (category_slug c) as [s|] eqn:Hs; [| discriminate].
      apply String.eqb_eq in Hc. subst s. eauto.
    + destruct Hc as (c & -> & ->). apply String.eqb_refl.
  - rewrite (Permutation_map row_id (sort_latest_permutation _)).
    eapply sublist_NoDup;
      [apply (rows_distinct w (group_by_product (find is_live_top_level w))) |].
    apply sublist_map_filter.
  - apply sort_latest_sorted.
  - rewrite (Permutation_length (sort_latest_permutation (List.filter f rows))),
      (Permutation_length (sort_latest_permutation rows)).
    pose proof (List.filter_length_le f rows). lia.
Qed.

(** ** Reading leaves the world as it is *)

Lemma reads_only_ret {A} (a : A) : reads_only (ret a).
Proof. intros w. reflexivity. Qed.

Lemma reads_only_throw {A} (e : Error) : reads_only (throw (A := A) e).
Proof. intros w. reflexivity. Qed.

Lemma reads_only_gets {A} (f : World -> A) : reads_only (gets f).
Proof. intros w. reflexivity. Qed.

Lemma reads_only_bind {A B} (m : M A) (k : A -> M B) :
  reads_only m -> (forall a, reads_only (k a)) -> reads_only (bind m k).
Proof.
  intros Hm Hk w. unfold bind. specialize (Hm w).
  destruct (m w) as [[a | e] w1]; cbn [snd] in Hm; subst w1;
    [apply Hk | reflexivity].
Qed.

Lemma reads_only_new_ObjectId (s : string) : reads_only (new_ObjectId s).
Proof. intros w. unfold new_ObjectId. destruct (ObjectId.parse s); reflexivity. Qed.

Lemma reads_only_skip_limit {A} (s n : Z) (l : list A) :
  reads_only (skip_limit s n l).
Proof. intros w. unfold skip_limit. destruct (s <? 0); reflexivity. Qed.

Ltac reads :=
  repeat first
    [ apply reads_only_ret
    | apply reads_only_throw
    | apply reads_only_gets
    | apply reads_only_new_ObjectId
    | apply reads_only_skip_limit
    | apply reads_only_bind; [| intros ?]
    | match goal with
      | |- reads_only (if ?b then _ else _) => destruct b
      | |- reads_only (match ?x with _ => _ end) => destruct x
      end
    | progress cbv zeta ].

Lemma reads_only_getCommentsByProduct dto : reads_only (getCommentsByProduct dto).
Proof. unfold getCommentsByProduct, parent_filter. reads. Qed.

Lemma reads_only_getCommentsByUser userId page limit :
  reads_only (getCommentsByUser userId page limit).
Proof. unfold getCommentsByUser. reads. Qed.

Lemma reads_only_getCommentById commentId : reads_only (getCommentById commentId).
Proof. unfold getCommentById, findOne_active. reads. Qed.

Lemma reads_only_getReplies commentId page limit :
  reads_only (getReplies commentId page limit).
Proof. unfold getReplies. reads. Qed.

Lemma reads_only_getAllCommentsAdmin regex_i page limit productId search :
  reads_only (getAllCommentsAdmin regex_i page limit productId search).
Proof. unfold getAllCommentsAdmin. reads. Qed.

Lemma reads_only_getCommentsByProductAdmin : reads_only getCommentsByProductAdmin.
Proof. unfold getCommentsByProductAdmin. reads. Qed.

Lemma reads_only_getProductsWithCommentsByCategory category_id category_slug slug :
  reads_only (getProductsWithCommentsByCategory category_id category_slug slug).
Proof. unfold getProductsWithCommentsByCategory. reads. Qed.

Lemma respond_reads_only {A} (m : M A) (w : World) :
  reads_only m -> snd (CommentController.respond m w) = w.
Proof.
  intros Hm. unfold CommentController.respond. specialize (Hm w).
  destruct (m w) as [[a | e] w1]; exact Hm.
Qed.

Lemma authenticated_reads_only {A} req (k : string -> M A) (w : World) :
  (forall userId, reads_only (k userId)) ->
  snd (CommentController.authenticated req k w) = w.
Proof.
  intros Hk. unfold CommentController.authenticated.
  destruct (truthy (CommentController.user req));
    [apply respond_reads_only, Hk | reflexivity].
Qed.

Lemma UseGuards_reads_only {A} AdminGuard req (h : Handler A) (w : World) :
  snd (h w) = w -> snd (CommentController.UseGuards AdminGuard req h w) = w.
Proof.
  intros Hh. unfold CommentController.UseGuards.
  destruct (AdminGuard req); [reflexivity | exact Hh].
Qed.

(** X24. The reading handlers write nothing. Whatever they answer, the
    handlers of the seven GET routes leave the comments, the users, the
    products and the logs of the two collaborators as they were, and so
    do the three of them that are under [AdminGuard], whatever the guard
    answers. *)
Theorem read_handlers_write_nothing (w : World) :
  (forall dto, snd (CommentController.getCommentsByProduct dto w) = w)
  /\ (forall req page limit,
        snd (CommentController.getMyComments req page limit w) = w)
  /\ (forall id, snd (CommentController.getCommentById id w) = w)
  /\ (forall id page limit,
        snd (CommentController.getReplies id page limit w) = w)
  /\ (forall AdminGuard regex_i req page limit productId search,
        snd (CommentController.getAllCommentsAdmin AdminGuard regex_i req
               page limit productId search w) = w)
  /\ (forall AdminGuard req,
        snd (CommentController.getCommentsByProductAdmin AdminGuard req w) = w)
  /\ (forall AdminGuard category_id category_slug req categorySlug,
        snd (CommentController.getProductsWithCommentsByCategory AdminGuard
               category_id category_slug req categorySlug w) = w).
Proof.
  split; [| split; [| split; [| split; [| split; [| split]]]]]; intros.
  - apply respond_reads_only, reads_only_getCommentsByProduct.
  - apply authenticated_reads_only. intros userId.
    apply reads_only_getCommentsByUser.
  - apply respond_reads_only, reads_only_getCommentById.
  - apply respond_reads_only, reads_only_getReplies.
  - apply UseGuards_reads_only, respond_reads_only,
      reads_only_getAllCommentsAdmin.
  - apply UseGuards_reads_only, respond_reads_only,
      reads_only_getCommentsByProductAdmin.
  - apply UseGuards_reads_only, respond_reads_only,
      reads_only_getProductsWithCommentsByCategory.
Qed.

(** ** The caller *)

(** X25. Without a caller nothing runs. A request whose [user.id] is absent
    or empty is answered with the unauthorized exception [User not
    found] by each of the six handlers that act for a caller, and the
    world stays as it was. For the two of them that are under
    [AdminGuard] this is the answer to a request that the guard lets
    through; a request that the guard refuses gets the guard's answer,
    and the world stays as it was too. *)
Theorem handlers_refuse_missing_user
    (AdminGuard : CommentController.Request -> option HttpError)
    (env : Env) (req : CommentController.Request) (w : World) :
  truthy (CommentController.user req) = None ->
  (forall page limit,
     CommentController.getMyComments req page limit w
     = (Failed (UnauthorizedException "User not found"), w))
  /\ (forall dto,
        CommentController.createComment env req dto w
        = (Failed (UnauthorizedException "User not found"), w))
  /\ (forall id dto,
        CommentController.updateComment env id req dto w
        = (Failed (UnauthorizedException "User not found"), w))
  /\ (forall id,
        CommentController.deleteComment env id req w
        = (Failed (UnauthorizedException "User not found"), w))
  /\ (forall id,
        CommentController.adminDeleteComment AdminGuard env id req w
        = (Failed (default (UnauthorizedException "User not found")
                           (AdminGuard req)), w))
  /\ (forall id dto,
        CommentController.adminReplyComment AdminGuard env id req dto w
        = (Failed (default (UnauthorizedException "User not found")
                           (AdminGuard req)), w)).
Proof.
  intros Hnone.
  unfold CommentController.getMyComments, CommentController.createComment,
    CommentController.updateComment, CommentController.deleteComment,
    CommentController.adminDeleteComment, CommentController.adminReplyComment,
    CommentController.UseGuards, CommentController.authenticated.
  rewrite Hnone. destruct (AdminGuard req); repeat split.
Qed.

Lemma handlers_refuse_missing_user_witness :
  CommentController.createComment Shop.env Shop.anonymous
    (Shop.post Shop.phone "Good product") Shop.world
  = (Failed (UnauthorizedException "User not found"), Shop.world)
  /\ CommentController.adminDeleteComment (fun _ => None) Shop.env
       Shop.opinion Shop.anonymous Shop.world
     = (Failed (UnauthorizedException "User not found"), Shop.world).
Proof.
  destruct (handlers_refuse_missing_user (fun _ => None) Shop.env
              Shop.anonymous Shop.world)
    as (_ & Hcreate & _ & _ & Hdelete & _); [reflexivity |].
  split; [apply Hcreate | apply Hdelete].
Defined.

(** X26. The two routes that delete. In a world the service has led to,
    for a caller who is not the author of a stored comment that is not
    deleted, [DELETE /comments/:id] answers that the caller is not
    allowed and writes nothing. [DELETE /comments/admin/:id] is under
    [AdminGuard]: a request that the guard refuses gets the guard's
    answer and nothing is written, and for a request that the guard lets
    through the comment is marked deleted. *)
Theorem delete_routes_differ_in_ownership
    (AdminGuard : CommentController.Request -> option HttpError)
    (env : Env) (id userId : string) (req : CommentController.Request)
    (w : World) (i : ObjectId) (c : Comment) :
  reachable w ->
  truthy (CommentController.user req) = Some userId ->
  ObjectId.parse id = Some i ->
  comments w !! i = Some c ->
  is_deleted c = false ->
  ObjectId.toString (user_id c) <> userId ->
  CommentController.deleteComment env id req w
  = (Failed (Raised (ForbiddenException
                       "You are not allowed to delete this comment")), w)
  /\ match AdminGuard req with
     | Some refusal =>
         CommentController.adminDeleteComment AdminGuard env id req w
         = (Failed refusal, w)
     | None =>
         exists w' c',
           CommentController.adminDeleteComment AdminGuard env id req w
           = (Sent "Comment deleted successfully", w')
           /\ comments w' !! i = Some c'
           /\ is_deleted c' = true
     end.
Proof.
  intros Hw Huser Hparse Hc Hlive Hother.
  unfold CommentController.deleteComment, CommentController.adminDeleteComment,
    CommentController.UseGuards, CommentController.authenticated,
    CommentController.respond.
  rewrite Huser. split.
  - unfold deleteComment, new_ObjectId, findOne_active.
    rewrite (parse_isValid _ _ Hparse), Hparse. cbn [negb]. go.
    rewrite Hc, Hlive. apply String.eqb_neq in Hother. rewrite Hother.
    reflexivity.
  - destruct (AdminGuard req) as [refusal|]; [reflexivity |].
    destruct (deleteComment_runs env id userId true w i c
                Hw Hparse Hc Hlive (or_introl eq_refl)) as [w' Hrun].
    destruct (deleteComment_marks _ _ _ _ _ _ _ Hrun)
      as (j & d & c' & Hj & _ & Hc' & Hdeleted).
    assert (j = i) by congruence. subst j.
    exists w', c'. rewrite Hrun. auto.
Qed.

(** Dave, with the role of an admin, deletes alice's opinion through the
    route of the admins, which refuses carol, a customer, as the route of
    the customers does. *)
Lemma delete_routes_differ_in_ownership_witness :
  (exists w' c',
     CommentController.adminDeleteComment Shop.admin_guard Shop.env
       Shop.opinion (Shop.request_of_admin Shop.dave) Shop.first_day
     = (Sent "Comment deleted successfully", w')
     /\ comments w' !! Shop.oid Shop.opinion = Some c'
     /\ is_deleted c' = true)
  /\ (exists refusal,
        CommentController.adminDeleteComment Shop.admin_guard Shop.env
          Shop.opinion (Shop.request_of Shop.carol) Shop.first_day
        = (Failed refusal, Shop.first_day))
  /\ CommentController.deleteComment Shop.env Shop.opinion
       (Shop.request_of Shop.carol) Shop.first_day
     = (Failed (Raised (ForbiddenException
                          "You are not allowed to delete this comment")),
        Shop.first_day).
Proof.
  assert (Hparse : ObjectId.parse Shop.opinion = Some (Shop.oid Shop.opinion))
    by (vm_compute; reflexivity).
  assert (Hstored : comments Shop.first_day !! Shop.oid Shop.opinion
                    = Some Shop.the_opinion) by (vm_compute; reflexivity).
  assert (Hdave : ObjectId.toString (user_id Shop.the_opinion) <> Shop.dave)
    by (intros H; vm_compute in H; discriminate H).
  assert (Hcarol : ObjectId.toString (user_id Shop.the_opinion) <> Shop.carol)
    by (intros H; vm_compute in H; discriminate H).
  destruct (delete_routes_differ_in_ownership Shop.admin_guard Shop.env
              Shop.opinion Shop.dave (Shop.request_of_admin Shop.dave)
              Shop.first_day (Shop.oid Shop.opinion) Shop.the_opinion
              first_day_reachable eq_refl Hparse Hstored eq_refl Hdave)
    as [_ Hadmin].
  destruct (delete_routes_differ_in_ownership Shop.admin_guard Shop.env
              Shop.opinion Shop.carol (Shop.request_of Shop.carol)
              Shop.first_day (Shop.oid Shop.opinion) Shop.the_opinion
              first_day_reachable eq_refl Hparse Hstored eq_refl Hcarol)
    as [Hown Hrefused].
  split; [exact Hadmin |]. split; [| exact Hown].
  eexists. exact Hrefused.
Defined.

(** X27. A comment belongs to its caller. When the handler of
    [POST /comments] answers with a comment, the view is of a document
    that was not stored before and is now, whose author is the user of
    the request, whose content is the content of the body trimmed,
    whose product is the one the body names, and which is not deleted
    and lists no reply. *)
Theorem created_comment_belongs_to_caller
    (env : Env) (req : CommentController.Request) (dto : CreateCommentDto.t)
    (w w' : World) (v : option CommentView) :
  CommentController.createComment env req dto w = (Sent v, w') ->
  exists userId user view c,
    truthy (CommentController.user req) = Some userId
    /\ ObjectId.parse userId = Some user
    /\ v = Some view
    /\ comments w !! view_id view = None
    /\ comments w' !! view_id view = Some c
    /\ user_id c = user
    /\ content c = trim (CreateCommentDto.content dto)
    /\ Some (product_id c) = ObjectId.parse (CreateCommentDto.product_id dto)
    /\ is_deleted c = false
    /\ replies c = []
    /\ reply_count c = 0.
Proof.
  unfold CommentController.createComment, CommentController.authenticated,
    CommentController.respond.
  destruct (truthy (CommentController.user req)) as [userId|];
    [| discriminate].
  destruct (createComment env userId dto w) as [[v' | e] w1] eqn:Hrun;
    [| discriminate].
  intros [= <- <-].
  destruct (createComment_done _ _ _ _ _ _ Hrun)
    as (product & user & parent & Hproduct & Huser & _ & Hfresh & _ & Hdone).
  cbv zeta in Hdone. destruct Hdone as (-> & Hstored & _).
  exists userId, user. eexists. eexists.
  split; [reflexivity |]. split; [exact Huser |]. split; [reflexivity |].
  cbn [created_view select view_id].
  split; [exact Hfresh |]. split; [exact Hstored |].
  rewrite Hproduct. repeat split.
Qed.

Lemma created_comment_belongs_to_caller_witness :
  exists view w' c,
    CommentController.createComment Shop.env (Shop.request_of Shop.carol)
      (Shop.post Shop.laptop "Fast") Shop.world = (Sent (Some view), w')
    /\ comments w' !! view_id view = Some c
    /\ user_id c = Shop.oid Shop.carol.
Proof.
  destruct (CommentController.createComment Shop.env
              (Shop.request_of Shop.carol) (Shop.post Shop.laptop "Fast")
              Shop.world) as [[v | e] w'] eqn:Hrun;
    [| vm_compute in Hrun; discriminate Hrun].
  destruct (created_comment_belongs_to_caller _ _ _ _ _ _ Hrun)
    as (userId & user & view & c & Hgiven & Hparse & -> & _ & Hc & Hu & _).
  assert (HuserId : Some userId = Some Shop.carol)
    by (rewrite <- Hgiven; reflexivity).
  injection HuserId as ->.
  assert (Huser : Some user = Some (Shop.oid Shop.carol))
    by (rewrite <- Hparse; vm_compute; reflexivity).
  injection Huser as ->.
  exists view, w', c. split; [reflexivity |]. split; [exact Hc | exact Hu].
Defined.
